(** * perceiver.data.text.common: text preprocessing and loading

    A shallow embedding of [perceiver/data/text/common.py] and the properties
    of its cache key, chunking stage, split, wrapper datasets and
    constructor.  Python values, dictionaries, slices and exceptions are
    modelled as the interpreter evaluates them; the tokenizer, the dataset
    storage engine and the random number generator are collaborators taken as
    parameters. *)

From Stdlib Require Import ZArith Lia String Ascii List DecimalString.
From stdpp Require Import base tactics option list strings gmap.
From Stdlib Require DecimalZ.

Local Open Scope string_scope.
Local Open Scope list_scope.
Local Open Scope Z_scope.
Set Warnings "-register-all".

(** ** Python exceptions and results *)

Inductive exn : Type :=
  | ValueError (msg : string)
  | AssertionError
  | IndexError
  | KeyError (key : string)
  | TypeError
  | ZeroDivisionError
  | NotImplementedError
  | RuntimeError (msg : string)
  | OSError (msg : string).

Inductive result (A : Type) : Type :=
  | Ok (a : A)
  | Raise (e : exn).
Arguments Ok {A} a.
Arguments Raise {A} e.

#[global] Instance result_ret : MRet result := fun A a => Ok a.
#[global] Instance result_bind : MBind result := fun A B f m =>
  match m with
  | Ok a => f a
  | Raise e => Raise e
  end.
#[global] Instance result_fmap : FMap result := fun A B f m =>
  match m with
  | Ok a => Ok (f a)
  | Raise e => Raise e
  end.

(** [mapM] for [result]: the first exception wins, as in a comprehension. *)
Fixpoint traverse {A B : Type} (f : A → result B) (l : list A) : result (list B) :=
  match l with
  | [] => Ok []
  | x :: l' => y ← f x; ys ← traverse f l'; Ok (y :: ys)
  end.

Definition is_ok {A : Type} (r : result A) : bool :=
  match r with Ok _ => true | Raise _ => false end.

(** ** Python primitives *)
Module Py.

(** The values that occur in examples: [None], integers, strings and
    (nested) lists. *)
Inductive value : Type :=
  | VNone
  | VInt (z : Z)
  | VStr (s : string)
  | VList (l : list value).

Definition ints (l : list Z) : value := VList (map VInt l).

(** [a // b]: floor division; [Z.div] rounds the same way. *)
Definition floordiv (a b : Z) : result Z :=
  if b =? 0 then Raise ZeroDivisionError else Ok (a / b).

(** Number of elements of [range(start, stop, step)] for [step <> 0]. *)
Definition range_len (start stop step : Z) : nat :=
  if 0 <? step then Z.to_nat ((stop - start + step - 1) / step)
  else Z.to_nat ((start - stop - step - 1) / (- step)).

Definition range (start stop step : Z) : result (list Z) :=
  if step =? 0 then Raise (ValueError "range() arg 3 must not be zero")
  else Ok (map (fun k : nat => start + Z.of_nat k * step)
               (seq 0 (range_len start stop step))).

(** A slice bound is taken from the end when negative, then clamped. *)
Definition slice_bound (len i : Z) : Z :=
  if i <? 0 then Z.max 0 (i + len) else Z.min i len.

(** [t[lo:hi]]; [None] is an omitted bound. *)
Definition slice {A : Type} (lo hi : option Z) (t : list A) : list A :=
  let n := Z.of_nat (length t) in
  let a := match lo with None => 0 | Some i => slice_bound n i end in
  let b := match hi with None => n | Some i => slice_bound n i end in
  take (Z.to_nat (b - a)) (drop (Z.to_nat a) t).

(** [t[i]] on a list, negative indices counting from the end. *)
Definition index {A : Type} (t : list A) (i : Z) : result A :=
  let n := Z.of_nat (length t) in
  let j := if i <? 0 then i + n else i in
  if (j <? 0) || (n <=? j) then Raise IndexError
  else match t !! Z.to_nat j with
       | Some x => Ok x
       | None => Raise IndexError
       end.

(** Iterating a value, as [itertools.chain] does with each argument. *)
Definition iter (v : value) : result (list value) :=
  match v with
  | VList l => Ok l
  | VStr s => Ok (map (fun c => VStr (String c EmptyString)) (list_ascii_of_string s))
  | _ => Raise TypeError
  end.

(** [list(chain(...))] over the sequences of a column. *)
Definition chain (col : list value) : result (list value) :=
  seqs ← traverse iter col; Ok (concat seqs).

(** [len(v)] *)
Definition len (v : value) : result Z :=
  match v with
  | VList l => Ok (Z.of_nat (length l))
  | VStr s => Ok (Z.of_nat (String.length s))
  | _ => Raise TypeError
  end.

(** [v[lo:hi]] on a value. *)
Definition slice_value (lo hi : option Z) (v : value) : result value :=
  match v with
  | VList l => Ok (VList (slice lo hi l))
  | VStr s => Ok (VStr (string_of_list_ascii (slice lo hi (list_ascii_of_string s))))
  | _ => Raise TypeError
  end.

(** [a + b] on sequences. *)
Definition add (a b : value) : result value :=
  match a, b with
  | VList x, VList y => Ok (VList (x ++ y))
  | VStr x, VStr y => Ok (VStr (x ++ y)%string)
  | VInt x, VInt y => Ok (VInt (x + y))
  | _, _ => Raise TypeError
  end.

(** [str(b)] and [str(n)] as an f-string formats them. *)
Definition str_bool (b : bool) : string := if b then "True" else "False".
Definition str_int (z : Z) : string := NilEmpty.string_of_int (Z.to_int z).

End Py.

(** ** Insertion-ordered dictionaries with string keys *)
Module Dict.

Definition t (V : Type) : Type := list (string * V).

Fixpoint get {V : Type} (k : string) (d : t V) : option V :=
  match d with
  | [] => None
  | (k', v) :: d' => if String.eqb k k' then Some v else get k d'
  end.

(** [d[k]] *)
Definition getitem {V : Type} (d : t V) (k : string) : result V :=
  match get k d with
  | Some v => Ok v
  | None => Raise (KeyError k)
  end.

(** [d[k] = v]: an existing key keeps its position. *)
Fixpoint set {V : Type} (k : string) (v : V) (d : t V) : t V :=
  match d with
  | [] => [(k, v)]
  | (k', v') :: d' => if String.eqb k k' then (k', v) :: d' else (k', v') :: set k v d'
  end.

Fixpoint remove {V : Type} (k : string) (d : t V) : t V :=
  match d with
  | [] => []
  | (k', v') :: d' => if String.eqb k k' then d' else (k', v') :: remove k d'
  end.

Definition keys {V : Type} (d : t V) : list string := map fst d.

Definition contains {V : Type} (k : string) (d : t V) : bool :=
  match get k d with Some _ => true | None => false end.

(** [{k: f(v) for k, v in d.items()}] *)
Definition map_values {V W : Type} (f : V → W) (d : t V) : t W :=
  map (fun kv => (fst kv, f (snd kv))) d.

(** [{**d, **u}] *)
Definition update {V : Type} (d u : t V) : t V :=
  fold_left (fun acc kv => set (fst kv) (snd kv) acc) u d.

End Dict.

(** ** [hashlib.new("md5")]: the MD5 message digest (RFC 1321)

    Words are 32-bit, kept in [Z] and reduced modulo [2^32] after each
    addition; the message is the UTF-8 encoding of the hash input, which a
    [string] here already is. *)
Module MD5.

Definition w32 (x : Z) : Z := x mod 2 ^ 32.
Definition not32 (x : Z) : Z := Z.lxor x 0xffffffff.
Definition rotl (x : Z) (c : Z) : Z :=
  w32 (Z.lor (Z.shiftl x c) (Z.shiftr x (32 - c))).

Definition K : list Z :=
  [ 0xd76aa478; 0xe8c7b756; 0x242070db; 0xc1bdceee;
    0xf57c0faf; 0x4787c62a; 0xa8304613; 0xfd469501;
    0x698098d8; 0x8b44f7af; 0xffff5bb1; 0x895cd7be;
    0x6b901122; 0xfd987193; 0xa679438e; 0x49b40821;
    0xf61e2562; 0xc040b340; 0x265e5a51; 0xe9b6c7aa;
    0xd62f105d; 0x02441453; 0xd8a1e681; 0xe7d3fbc8;
    0x21e1cde6; 0xc33707d6; 0xf4d50d87; 0x455a14ed;
    0xa9e3e905; 0xfcefa3f8; 0x676f02d9; 0x8d2a4c8a;
    0xfffa3942; 0x8771f681; 0x6d9d6122; 0xfde5380c;
    0xa4beea44; 0x4bdecfa9; 0xf6bb4b60; 0xbebfbc70;
    0x289b7ec6; 0xeaa127fa; 0xd4ef3085; 0x04881d05;
    0xd9d4d039; 0xe6db99e5; 0x1fa27cf8; 0xc4ac5665;
    0xf4292244; 0x432aff97; 0xab9423a7; 0xfc93a039;
    0x655b59c3; 0x8f0ccc92; 0xffeff47d; 0x85845dd1;
    0x6fa87e4f; 0xfe2ce6e0; 0xa3014314; 0x4e0811a1;
    0xf7537e82; 0xbd3af235; 0x2ad7d2bb; 0xeb86d391 ].

Definition S : list Z :=
  [ 7; 12; 17; 22; 7; 12; 17; 22; 7; 12; 17; 22; 7; 12; 17; 22;
    5; 9; 14; 20; 5; 9; 14; 20; 5; 9; 14; 20; 5; 9; 14; 20;
    4; 11; 16; 23; 4; 11; 16; 23; 4; 11; 16; 23; 4; 11; 16; 23;
    6; 10; 15; 21; 6; 10; 15; 21; 6; 10; 15; 21; 6; 10; 15; 21 ].

Definition state : Type := (Z * Z * Z * Z)%type.

Definition init : state := (0x67452301, 0xefcdab89, 0x98badcfe, 0x10325476).

Definition step (M : list Z) (st : state) (i : nat) : state :=
  let '(A, B, C, D) := st in
  let iz := Z.of_nat i in
  let '(F, g) :=
    if iz <? 16 then (Z.lor (Z.land B C) (Z.land (not32 B) D), iz)
    else if iz <? 32 then (Z.lor (Z.land D B) (Z.land (not32 D) C), (5 * iz + 1) mod 16)
    else if iz <? 48 then (Z.lxor (Z.lxor B C) D, (3 * iz + 5) mod 16)
    else (Z.lxor C (Z.lor B (not32 D)), (7 * iz) mod 16) in
  let F' := w32 (F + A + nth i K 0 + nth (Z.to_nat g) M 0) in
  (D, w32 (B + rotl F' (nth i S 0)), B, C).

Definition word_le (bs : list Z) : Z :=
  fold_right (fun b acc => b + 256 * acc) 0 bs.

Fixpoint words (n : nat) (bs : list Z) : list Z :=
  match n with
  | O => []
  | Datatypes.S n' => word_le (take 4 bs) :: words n' (drop 4 bs)
  end.

Definition block (st : state) (bs : list Z) : state :=
  let '(a0, b0, c0, d0) := st in
  let '(A, B, C, D) := fold_left (step (words 16 bs)) (seq 0 64) st in
  (w32 (a0 + A), w32 (b0 + B), w32 (c0 + C), w32 (d0 + D)).

Fixpoint blocks (n : nat) (st : state) (bs : list Z) : state :=
  match n with
  | O => st
  | Datatypes.S n' => blocks n' (block st (take 64 bs)) (drop 64 bs)
  end.

Fixpoint bytes_le (n : nat) (x : Z) : list Z :=
  match n with
  | O => []
  | Datatypes.S n' => x mod 256 :: bytes_le n' (x / 256)
  end.

Definition pad (msg : list Z) : list Z :=
  let len := Z.of_nat (length msg) in
  let zeros := Z.to_nat ((55 - len) mod 64) in
  msg ++ [0x80] ++ repeat 0 zeros ++ bytes_le 8 ((8 * len) mod 2 ^ 64).

Definition digest (msg : list Z) : list Z :=
  let p := pad msg in
  let '(a, b, c, d) := blocks (Nat.div (length p) 64) init p in
  bytes_le 4 a ++ bytes_le 4 b ++ bytes_le 4 c ++ bytes_le 4 d.

Definition hex_digit (x : Z) : ascii :=
  ascii_of_N (Z.to_N (if x <? 10 then 48 + x else 87 + x)).

Definition hex (bs : list Z) : string :=
  string_of_list_ascii (flat_map (fun b => [hex_digit (b / 16); hex_digit (b mod 16)]) bs).

Definition encode (s : string) : list Z :=
  map (fun c => Z.of_N (N_of_ascii c)) (list_ascii_of_string s).

(** [h = hashlib.new("md5"); h.update(s.encode()); h.hexdigest()] *)
Definition hexdigest (s : string) : string := hex (digest (encode s)).

End MD5.


(** ** [os.path.join] (POSIX) *)
Module OsPath.

Definition startswith_sep (s : string) : bool :=
  match s with String "/" _ => true | _ => false end.

Fixpoint endswith_sep (s : string) : bool :=
  match s with
  | EmptyString => false
  | String c EmptyString => Ascii.eqb c "/"
  | String _ s' => endswith_sep s'
  end.

Definition join2 (path b : string) : string :=
  if startswith_sep b then b
  else if String.eqb path "" || endswith_sep path then (path ++ b)%string
  else (path ++ "/" ++ b)%string.

Definition join (a : string) (p : list string) : string := fold_left join2 p a.

End OsPath.

(** ** The tokenizer, an opaque capability *)
Module Tokenizer.

(** Keyword arguments of a tokenizer call. *)
Record call_args := {
  padding : bool;
  truncation : bool;
  max_length : option Z;
  add_special_tokens : bool;
  return_token_type_ids : bool;
  return_attention_mask : bool;
  return_tensors : option string
}.

Record BatchEncoding := {
  input_ids : list (list Z);
  attention_mask : option (list (list Z));
  (** [encoding.word_ids(i)] *)
  word_ids : Z → result (list (option Z))
}.

Record t := {
  name_or_path : string;
  pad_token : option string;
  eos_token : option string;
  padding_side : string;
  vocab_size : Z;
  (** [tokenizer(text_batch, **kwargs)] under a given padding side *)
  call : string → call_args → list string → result BatchEncoding
}.

Definition set_padding_side (side : string) (tok : t) : t :=
  {| name_or_path := name_or_path tok; pad_token := pad_token tok;
     eos_token := eos_token tok; padding_side := side;
     vocab_size := vocab_size tok; call := call tok |}.

Definition __call__ (tok : t) (kw : call_args) (text_batch : list string) : result BatchEncoding :=
  call tok (padding_side tok) kw text_batch.

(** [result["attention_mask"]] *)
Definition getitem_attention_mask (enc : BatchEncoding) : result (list (list Z)) :=
  match attention_mask enc with
  | Some m => Ok m
  | None => Raise (KeyError "attention_mask")
  end.

End Tokenizer.

(** ** Datasets of the storage engine: tables held by column *)
Module Dataset.

Definition t : Type := Dict.t (list Py.value).

Definition column_names (ds : t) : list string := Dict.keys ds.

Definition num_rows (ds : t) : nat :=
  match ds with
  | [] => 0%nat
  | (_, col) :: _ => length col
  end.

(** [len(ds)] *)
Definition len (ds : t) : Z := Z.of_nat (num_rows ds).

Fixpoint row (ds : t) (i : nat) : option (Dict.t Py.value) :=
  match ds with
  | [] => Some []
  | (k, col) :: ds' =>
      match col !! i, row ds' i with
      | Some v, Some r => Some ((k, v) :: r)
      | _, _ => None
      end
  end.

(** [ds[idx]]: the example at a row, negative indices counting from the end. *)
Definition getitem (ds : t) (idx : Z) : result (Dict.t Py.value) :=
  let n := len ds in
  let j := if idx <? 0 then idx + n else idx in
  if (j <? 0) || (n <=? j) then Raise IndexError
  else match row ds (Z.to_nat j) with
       | Some r => Ok r
       | None => Raise IndexError
       end.

Definition slice_rows (start count : nat) (ds : t) : t :=
  Dict.map_values (fun col => take count (drop start col)) ds.

Definition select (indices : list nat) (ds : t) : t :=
  Dict.map_values (fun col => omap (fun i => col !! i) indices) ds.

Definition rectangular (ds : t) : bool :=
  forallb (fun kv => Nat.eqb (length (snd kv)) (num_rows ds)) ds.

(** Batches written out by a [map] are appended column by column; the
    columns are those of the first batch. *)
Definition concat_batches (parts : list t) : result t :=
  match parts with
  | [] => Ok []
  | first :: _ =>
      traverse (fun k => cols ← traverse (fun p => Dict.getitem p k) parts;
                         Ok (k, concat cols))
               (column_names first)
  end.

Definition drop_columns (cols : list string) (ds : t) : t :=
  fold_left (fun acc k => Dict.remove k acc) cols ds.

(** What a mapped function receives: the batch, or with [input_columns]
    the named columns as positional arguments. *)
Inductive fn_args : Type :=
  | Batch (examples : t)
  | Columns (args : list (list Py.value)).

Definition fn_input (input_columns : option (list string)) (b : t) : result fn_args :=
  match input_columns with
  | None => Ok (Batch b)
  | Some cols => Columns <$> traverse (Dict.getitem b) cols
  end.

(** [ds.remove_columns(cols)] *)
Definition remove_columns (cols : list string) (ds : t) : result t :=
  if forallb (fun k => Dict.contains k ds) cols then Ok (drop_columns cols ds)
  else Raise (ValueError "Column name not in the dataset").

(** [ds.map(fn, batched=True, input_columns=.., remove_columns=..)] over
    the batches the engine forms.  An empty dataset is returned at once,
    less the removed columns, before any argument is looked at and without
    a call of [fn]; otherwise the columns named are checked, and each batch
    is replaced by its columns, less the removed ones, updated with what
    [fn] returns. *)
Definition map_batches (fn : fn_args → result t)
    (input_columns : option (list string)) (remove_columns : list string)
    (ds : t) (batches : list t) : result t :=
  if (num_rows ds =? 0)%nat then
    match remove_columns with
    | [] => Ok ds
    | _ :: _ => Dataset.remove_columns remove_columns ds
    end
  else if negb (forallb (fun k => Dict.contains k ds) (default [] input_columns))
  then Raise (ValueError "Input column not in the dataset columns")
  else if negb (forallb (fun k => Dict.contains k ds) remove_columns)
  then Raise (ValueError "Column to remove not in the dataset")
  else
    outs ← traverse (fun b =>
              args ← fn_input input_columns b;
              out ← fn args;
              let b' := Dict.update (drop_columns remove_columns b) out in
              if rectangular b' then Ok b'
              else Raise (RuntimeError "ArrowInvalid: column lengths differ"))
            batches;
    concat_batches outs.

(** The batches of [batched=False]: one example each. *)
Definition single_rows (ds : t) : list t :=
  map (fun i => slice_rows i 1 ds) (seq 0 (num_rows ds)).

End Dataset.

(** [DatasetDict]: splits by name. *)
Definition DatasetDict : Type := Dict.t Dataset.t.

(** ** Constructor configuration *)

Inductive Task : Type := mlm | clm | clf.

Definition Task_name (t : Task) : string :=
  match t with mlm => "mlm" | clm => "clm" | clf => "clf" end.

Definition Task_eqb (a b : Task) : bool :=
  match a, b with
  | mlm, mlm | clm, clm | clf, clf => true
  | _, _ => false
  end.

(** A Python float, identified with its [repr]: the shortest decimal literal
    that reads back as the same float.  Two floats (NaN apart) are equal
    exactly when their reprs are, and an f-string formats a float as its
    repr. *)
Record float : Type := Float { repr : string }.

(** [self.hparams] after [save_hyperparameters()].  [source_train_size] and
    [source_valid_size] are hyperparameters of data-source subclasses;
    [hparams.get] gives [None] where a subclass does not define them. *)
Module Hparams.

Record t : Type := {
  dataset_dir : string;
  tokenizer : string;
  max_seq_len : Z;
  task : Task;
  mask_prob : float;
  mask_words : bool;
  static_masking : bool;
  add_special_tokens : bool;
  add_eos_token : bool;
  padding_side : option string;
  random_train_shift : bool;
  random_valid_shift : bool;
  random_train_truncation : bool;
  random_valid_truncation : bool;
  random_min_seq_len : Z;
  preproc_batch_size : Z;
  preproc_workers : option Z;
  batch_size : Z;
  valid_batch_size : option Z;
  num_workers : Z;
  pin_memory : bool;
  source_train_size : option Z;
  source_valid_size : option Z
}.

End Hparams.

(** The collators of [perceiver.data.text.collator], as constructed here. *)
Inductive Collator : Type :=
  | DefaultCollator (tok : Tokenizer.t) (max_seq_len : Z)
  | WordMaskingCollator (tok : Tokenizer.t) (mask_prob : float)
  | TokenMaskingCollator (tok : Tokenizer.t) (mask_prob : float)
  | RandomTruncateCollator (collator : Collator) (min_seq_len : Z).

(** [PerceiverTokenizerUtil] of [perceiver.data.text.utils]: word ids for a
    tokenizer that is not a fast tokenizer. *)
Record PerceiverTokenizerUtil : Type := {
  util_word_ids : list Z → result (list (option Z))
}.

(** ** The world outside: cache directories and calls to collaborators *)

Inductive event : Type :=
  | FromPretrained (name : string)
  | LoadSourceDataset
  | MapSplit (desc : string) (split : string)
  | TrainTestSplit (shuffle : bool)
  | SaveToDisk (path : string)
  | LoadFromDisk (path : string).

Record world : Type := {
  fs : gmap string DatasetDict;
  log : list event
}.

(** Computations that act on the world and may raise; what was done before
    an exception stays done. *)
Definition io (A : Type) : Type := world → world * result A.

#[global] Instance io_ret : MRet io := fun A a w => (w, Ok a).
#[global] Instance io_bind : MBind io := fun A B f m w =>
  match m w with
  | (w', Ok a) => f a w'
  | (w', Raise e) => (w', Raise e)
  end.

Definition lift {A : Type} (r : result A) : io A := fun w => (w, r).
Definition raise {A : Type} (e : exn) : io A := lift (Raise e).
Definition emit (e : event) : io unit :=
  fun w => ({| fs := fs w; log := log w ++ [e] |}, Ok tt).

(** [for x in l: body(x)], threading an accumulator. *)
Fixpoint for_each {A S : Type} (l : list A) (body : A → S → io S) (acc : S) : io S :=
  match l with
  | [] => mret acc
  | x :: l' => acc' ← body x acc; for_each l' body acc'
  end.

(** [os.path.exists(path)] *)
Definition path_exists (path : string) : io bool :=
  fun w => (w, Ok (bool_decide (is_Some (fs w !! path)))).

(** [dataset.save_to_disk(path)] *)
Definition save_to_disk (dataset : DatasetDict) (path : string) : io unit :=
  fun w => ({| fs := <[path := dataset]> (fs w); log := log w ++ [SaveToDisk path] |}, Ok tt).

(** [DatasetDict.load_from_disk(path)] *)
Definition load_from_disk (path : string) : io DatasetDict :=
  fun w => ({| fs := fs w; log := log w ++ [LoadFromDisk path] |},
            match fs w !! path with
            | Some d => Ok d
            | None => Raise (OSError "Directory is neither a Dataset nor a DatasetDict")
            end).

(** ** Collaborators

    What the module calls and does not define: the tokenizer hub, the word
    alignment utility and word masking of sibling modules, the storage
    engine's batching and shuffling, and the data source a subclass
    supplies. *)
Class Collaborators : Type := {
  (** [AutoTokenizer.from_pretrained(name, verbose=False)] *)
  from_pretrained : string → result Tokenizer.t;
  (** [PerceiverTokenizerUtil(tokenizer)] *)
  new_PerceiverTokenizerUtil : Tokenizer.t → result PerceiverTokenizerUtil;
  (** the checks a collator's constructor makes *)
  collator_init : Collator → result Collator;
  (** [WordMaskingCollator.mask_words_1(example)], its draws fixed *)
  mask_words_1 : Tokenizer.t → float → Dict.t Py.value → result (Dict.t Py.value);
  (** the batches [Dataset.map] forms for a batch size and a number of
      worker processes *)
  batches : Z → Z → Dataset.t → list Dataset.t;
  (** the row counts [train_test_split] derives from its size arguments *)
  split_sizes : option Z → option Z → nat → result (nat * nat);
  (** the permutation of [n] row indices a shuffle draws *)
  permutation : nat → list nat;
  (** [load_source_dataset()] of the concrete subclass *)
  load_source_dataset : Hparams.t → result DatasetDict
}.

(** [TextDataModule.load_source_dataset] itself: the abstract contract. *)
Definition load_source_dataset_abstract (_ : Hparams.t) : result DatasetDict :=
  Raise NotImplementedError.

(** [dataset.train_test_split(train_size, test_size, shuffle)] of the storage
    engine: without shuffling the first rows are the train split and the
    following rows the test split; with shuffling both are taken from a
    permutation of the rows, the test rows first. *)
Definition train_test_split `{Collaborators} (dataset : Dataset.t)
    (train_size test_size : option Z) (shuffle : bool) : io DatasetDict :=
  _ ← emit (TrainTestSplit shuffle);
  '(n_train, n_test) ← lift (split_sizes train_size test_size (Dataset.num_rows dataset));
  if shuffle then
    let perm := permutation (Dataset.num_rows dataset) in
    mret [("train", Dataset.select (take n_train (drop n_test perm)) dataset);
          ("test", Dataset.select (take n_test perm) dataset)]
  else
    mret [("train", Dataset.slice_rows 0 n_train dataset);
          ("test", Dataset.slice_rows n_train n_test dataset)].

(** ** Random draws

    A computation that draws from [torch.randint] is a tree: a leaf is a
    result, a node draws an integer uniformly from [[0, high)] and goes on
    with it. *)
Module Rand.

Inductive t (A : Type) : Type :=
  | Ret (r : result A)
  | Draw (high : Z) (k : Z → t A).
Arguments Ret {A} r.
Arguments Draw {A} high k.

Fixpoint bind {A B : Type} (m : t A) (f : A → t B) : t B :=
  match m with
  | Ret (Ok a) => f a
  | Ret (Raise e) => Ret (Raise e)
  | Draw high k => Draw high (fun z => bind (k z) f)
  end.

Definition lift {A : Type} (r : result A) : t A := Ret r.

(** [torch.randint(high, (1,)).item()] *)
Definition randint (high : Z) : t Z :=
  if high <=? 0
  then Ret (Raise (RuntimeError ("random_ expects 'from' to be less than 'to', but got from=0 >= to="
                                 ++ Py.str_int high)))
  else Draw high (fun z => Ret (Ok z)).

(** The outcomes of a computation, each with the number [d] of equally
    likely draw sequences it is one of: its probability is [1/d]. *)
Fixpoint outcomes {A : Type} (m : t A) : list (Z * result A) :=
  match m with
  | Ret r => [(1, r)]
  | Draw high k =>
      flat_map (fun z : nat => map (fun o => (high * fst o, snd o)) (outcomes (k (Z.of_nat z))))
               (seq 0 (Z.to_nat high))
  end.

End Rand.

#[global] Instance rand_ret : MRet Rand.t := fun A a => Rand.Ret (Ok a).
#[global] Instance rand_bind : MBind Rand.t := fun A B f m => Rand.bind m f.

(** ** Map-style datasets: anything with [__getitem__] and [__len__] *)
Record TorchDataset : Type := {
  getitem : Z → Rand.t (Dict.t Py.value);
  len : Z
}.

Definition of_Dataset (ds : Dataset.t) : TorchDataset :=
  {| getitem := fun idx => Rand.lift (Dataset.getitem ds idx);
     len := Dataset.len ds |}.

(** ** [class RandomShiftDataset] *)
Module RandomShiftDataset.

(** The body of the loop [for key in example_1.keys()], run over the
    remaining keys with the loop's variables [shift] and [result]. *)
Fixpoint shift_records (keys : list string) (example_1 example_2 : Dict.t Py.value)
    (shift : option Z) (result : Dict.t Py.value) : Rand.t (Dict.t Py.value) :=
  match keys with
  | [] => mret result
  | key :: keys' =>
      record_1 ← Rand.lift (Dict.getitem example_1 key);
      record_2 ← Rand.lift (Dict.getitem example_2 key);
      shift' ← match shift with
               | None => n ← Rand.lift (Py.len record_1); Rand.randint n
               | Some s => mret s
               end;
      head ← Rand.lift (Py.slice_value (Some shift') None record_1);
      tail ← Rand.lift (Py.slice_value None (Some shift') record_2);
      shifted ← Rand.lift (Py.add head tail);
      shift_records keys' example_1 example_2 (Some shift') (Dict.set key shifted result)
  end.

Definition __getitem__ (dataset : TorchDataset) (idx : Z) : Rand.t (Dict.t Py.value) :=
  example_1 ← getitem dataset idx;
  example_2 ← getitem dataset (idx + 1);
  shift_records (Dict.keys example_1) example_1 example_2 None [].

Definition __len__ (dataset : TorchDataset) : Z := len dataset - 1.

Definition __init__ (dataset : TorchDataset) : TorchDataset :=
  {| getitem := __getitem__ dataset; len := __len__ dataset |}.

End RandomShiftDataset.

(** ** [class CLMDataset] *)
Module CLMDataset.

(** What [__getitem__] makes of the example [self.dataset[idx]]. *)
Definition shift_labels (example : Dict.t Py.value) : result (Dict.t Py.value) :=
  record ← Dict.getitem example "input_ids";
  input_ids ← Py.slice_value None (Some (-1)) record;
  label_ids ← Py.slice_value (Some 1) None record;
  Ok [("input_ids", input_ids); ("label_ids", label_ids)].

Definition __getitem__ (dataset : TorchDataset) (idx : Z) : Rand.t (Dict.t Py.value) :=
  example ← getitem dataset idx;
  Rand.lift (shift_labels example).

Definition __len__ (dataset : TorchDataset) : Z := len dataset.

Definition __init__ (dataset : TorchDataset) : TorchDataset :=
  {| getitem := __getitem__ dataset; len := __len__ dataset |}.

End CLMDataset.

(** ** [class TextPreprocessor] *)
Module TextPreprocessor.

Record t : Type := {
  tokenizer : Tokenizer.t;
  max_seq_len : Z;
  add_special_tokens : bool
}.

Definition __init__ `{Collaborators} (tokenizer : string) (max_seq_len : Z)
    (add_special_tokens : bool) : io t :=
  _ ← emit (FromPretrained tokenizer);
  tok ← lift (from_pretrained tokenizer);
  mret {| tokenizer := tok; max_seq_len := max_seq_len;
          add_special_tokens := add_special_tokens |}.

(** [~mask.type(torch.bool)]: true where the attention mask is zero. *)
Definition invert_mask (mask : list (list Z)) : list (list bool) :=
  map (map (fun a => negb (negb (a =? 0)))) mask.

Definition preprocess_batch (self : t) (text_batch : list string)
    : result (list (list Z) * list (list bool)) :=
  result ← Tokenizer.__call__ (tokenizer self)
    {| Tokenizer.padding := bool_decide (is_Some (Tokenizer.pad_token (tokenizer self)));
       Tokenizer.truncation := true;
       Tokenizer.add_special_tokens := add_special_tokens self;
       Tokenizer.return_token_type_ids := false;
       Tokenizer.return_attention_mask := true;
       Tokenizer.max_length := Some (max_seq_len self);
       Tokenizer.return_tensors := Some "pt" |}
    text_batch;
  attention_mask ← Tokenizer.getitem_attention_mask result;
  Ok (Tokenizer.input_ids result, invert_mask attention_mask).

Definition preprocess (self : t) (text : string) : result (list Z * list bool) :=
  '(xs, pad_mask) ← preprocess_batch self [text];
  x ← Py.index xs 0;
  m ← Py.index pad_mask 0;
  Ok (x, m).

End TextPreprocessor.

(** [DataLoader(dataset, shuffle=.., collate_fn=.., ...)], as configured. *)
Record DataLoader : Type := {
  dl_dataset : option TorchDataset;
  dl_shuffle : bool;
  dl_collate_fn : Collator;
  dl_batch_size : Z;
  dl_num_workers : Z;
  dl_pin_memory : bool
}.

(** ** [class TextDataModule] *)
Module TextDataModule.
Section WithCollaborators.
Context `{Collaborators}.

Record t : Type := {
  hparams : Hparams.t;
  tokenizer : Tokenizer.t;
  perceiver_tokenizer_configured : bool;
  perceiver_tokenizer_util : option PerceiverTokenizerUtil;
  collator : Collator;
  ds_train : option TorchDataset;
  ds_valid : option TorchDataset
}.

Definition __init__ (hp : Hparams.t) : io t :=
  if Hparams.static_masking hp && negb (Hparams.mask_words hp)
  then raise (ValueError "static_masking=true is only supported for mask_words=true")
  else
    _ ← emit (FromPretrained (Hparams.tokenizer hp));
    tok ← lift (from_pretrained (Hparams.tokenizer hp));
    let tok := match Hparams.padding_side hp with
               | Some side => Tokenizer.set_padding_side side tok
               | None => tok
               end in
    let configured :=
      existsb (String.eqb (Hparams.tokenizer hp))
              ["krasserm/perceiver-io-mlm"; "deepmind/language-perceiver"] in
    util ← (if configured
            then u ← lift (new_PerceiverTokenizerUtil tok); mret (Some u)
            else mret None);
    collator ← lift (collator_init
      (if Task_eqb (Hparams.task hp) mlm && negb (Hparams.static_masking hp)
       then if Hparams.mask_words hp
            then WordMaskingCollator tok (Hparams.mask_prob hp)
            else TokenMaskingCollator tok (Hparams.mask_prob hp)
       else DefaultCollator tok (Hparams.max_seq_len hp)));
    mret {| hparams := hp; tokenizer := tok;
            perceiver_tokenizer_configured := configured;
            perceiver_tokenizer_util := util;
            collator := collator; ds_train := None; ds_valid := None |}.

Definition valid_batch_size (self : t) : Z :=
  match Hparams.valid_batch_size (hparams self) with
  | None => Hparams.batch_size (hparams self)
  | Some n => n
  end.

Definition vocab_size (self : t) : Z := Tokenizer.vocab_size (tokenizer self).

Definition max_seq_len (self : t) : Z := Hparams.max_seq_len (hparams self).

Definition random_shift (self : t) : bool :=
  Hparams.random_train_shift (hparams self) || Hparams.random_valid_shift (hparams self).

Definition preproc_workers (self : t) : Z :=
  match Hparams.preproc_workers (hparams self) with
  | Some n => n
  | None => Z.max 1 (Hparams.num_workers (hparams self))
  end.

Definition preproc_dir_hash_input (self : t) : string :=
  let hp := hparams self in
  let hash_input :=
    (Hparams.tokenizer hp ++ "-" ++ Py.str_int (max_seq_len self) ++ "-"
     ++ Task_name (Hparams.task hp) ++ "-" ++ Py.str_bool (random_shift self))%string in
  let hash_input :=
    if Task_eqb (Hparams.task hp) mlm && Hparams.static_masking hp
    then (hash_input ++ "-" ++ Py.str_bool (Hparams.mask_words hp) ++ "-"
          ++ repr (Hparams.mask_prob hp))%string
    else hash_input in
  let hash_input :=
    if Hparams.add_special_tokens hp then (hash_input ++ "-st")%string else hash_input in
  let hash_input :=
    if Hparams.add_eos_token hp then (hash_input ++ "-eos")%string else hash_input in
  let hash_input :=
    match Hparams.source_train_size hp with
    | Some n => (hash_input ++ "-ts-" ++ Py.str_int n)%string
    | None => hash_input
    end in
  let hash_input :=
    match Hparams.source_valid_size hp with
    | Some n => (hash_input ++ "-vs-" ++ Py.str_int n)%string
    | None => hash_input
    end in
  hash_input.

Definition preproc_dir (self : t) : string :=
  OsPath.join (Hparams.dataset_dir (hparams self))
              ["preproc"; MD5.hexdigest (preproc_dir_hash_input self)].

(** *** Pipeline stages *)

Definition as_text (v : Py.value) : result string :=
  match v with
  | Py.VStr s => Ok s
  | _ => Raise (ValueError "text input must be of type str")
  end.

Definition opt_str (o : option string) : Py.value :=
  match o with Some s => Py.VStr s | None => Py.VNone end.

Definition opt_int (o : option Z) : Py.value :=
  match o with Some z => Py.VInt z | None => Py.VNone end.

(** The inner function [tokenize(examples)] of [_tokenize_dataset]. *)
Definition tokenize (self : t) (padding truncation : bool) (max_length : option Z)
    (return_word_ids : bool) (args : Dataset.fn_args) : result Dataset.t :=
  match args with
  | Dataset.Columns _ => Raise TypeError
  | Dataset.Batch examples =>
      texts ← Dict.getitem examples "text";
      texts ← (if Hparams.add_eos_token (hparams self)
               then traverse (fun text =>
                      Py.add text (opt_str (Tokenizer.eos_token (tokenizer self)))) texts
               else Ok texts);
      strs ← traverse as_text texts;
      encoding ← Tokenizer.__call__ (tokenizer self)
        {| Tokenizer.padding := padding;
           Tokenizer.truncation := truncation;
           Tokenizer.max_length := max_length;
           Tokenizer.add_special_tokens := Hparams.add_special_tokens (hparams self);
           Tokenizer.return_token_type_ids := false;
           Tokenizer.return_attention_mask := false;
           Tokenizer.return_tensors := None |}
        strs;
      let items :=
        ("input_ids", map Py.ints (Tokenizer.input_ids encoding))
        :: match Tokenizer.attention_mask encoding with
           | Some m => [("attention_mask", map Py.ints m)]
           | None => []
           end in
      if return_word_ids then
        word_ids ←
          (if perceiver_tokenizer_configured self then
             match perceiver_tokenizer_util self with
             | Some util => traverse (util_word_ids util) (Tokenizer.input_ids encoding)
             | None => Raise TypeError
             end
           else
             traverse (fun i : nat => Tokenizer.word_ids encoding (Z.of_nat i))
                      (seq 0 (length (Tokenizer.input_ids encoding))));
        Ok (Dict.set "word_ids" (map (fun w => Py.VList (map opt_int w)) word_ids) items)
      else Ok items
  end.

(** [result = DatasetDict(); for key in dataset.keys(): result[key] =
    dataset[key].map(fn, ...)] *)
Definition map_splits (desc : string) (dataset : DatasetDict)
    (map_split : Dataset.t → result Dataset.t) : io DatasetDict :=
  for_each dataset
    (fun kv result =>
       _ ← emit (MapSplit desc (fst kv));
       mapped ← lift (map_split (snd kv));
       mret (Dict.set (fst kv) mapped result))
    [].

Definition _tokenize_dataset (self : t) (dataset : DatasetDict)
    (padding truncation : bool) (max_length : option Z) (return_word_ids : bool)
    : io DatasetDict :=
  map_splits "Running tokenizer on dataset" dataset
    (fun ds =>
       Dataset.map_batches (tokenize self padding truncation max_length return_word_ids)
         None ["text"] ds
         (batches (Hparams.preproc_batch_size (hparams self)) (preproc_workers self) ds)).

(** The comprehension [chained = {k: list(chain(...args[i])) for i, k in
    enumerate(include_keys)}], from position [i] on. *)
Fixpoint chain_columns (i : nat) (include_keys : list string)
    (args : list (list Py.value)) (chained : Dict.t (list Py.value))
    : result (Dict.t (list Py.value)) :=
  match include_keys with
  | [] => Ok chained
  | k :: keys' =>
      col ← Py.index args (Z.of_nat i);
      t ← Py.chain col;
      chain_columns (Datatypes.S i) keys' args (Dict.set k t chained)
  end.

(** The inner function [chunk] of [_chunk_dataset], on its positional
    arguments.  The range of
    chunk starts is the same for every key and is computed once. *)
Definition chunk (chunk_size : Z) (include_keys : list string)
    (args : list (list Py.value)) : result (Dict.t (list Py.value)) :=
  chained ← chain_columns 0 include_keys args [];
  key0 ← Py.index include_keys 0;
  first ← Dict.getitem chained key0;
  let chained_len := Z.of_nat (length first) in
  chained_len ← (if chunk_size <=? chained_len
                 then q ← Py.floordiv chained_len chunk_size; Ok (q * chunk_size)
                 else Ok chained_len);
  starts ← Py.range 0 chained_len chunk_size;
  Ok (Dict.map_values
        (fun t => map (fun i => Py.VList (Py.slice (Some i) (Some (i + chunk_size)) t)) starts)
        chained).

Definition chunk_fn (chunk_size : Z) (include_keys : list string)
    (args : Dataset.fn_args) : result Dataset.t :=
  match args with
  | Dataset.Columns cols => chunk chunk_size include_keys cols
  | Dataset.Batch _ => Raise TypeError
  end.

Definition _chunk_dataset (self : t) (dataset : DatasetDict) (chunk_size : Z)
    (include_keys remove_keys : list string) : io DatasetDict :=
  map_splits ("Split dataset into chunks of size " ++ Py.str_int chunk_size) dataset
    (fun ds =>
       Dataset.map_batches (chunk_fn chunk_size include_keys)
         (Some include_keys) remove_keys ds
         (batches (Hparams.preproc_batch_size (hparams self)) (preproc_workers self) ds)).

(** The inner function [mask(example)] of [_mask_dataset], on the
    one-example batch of [batched=False]. *)
Definition mask (wmc_tokenizer : Tokenizer.t) (wmc_mask_prob : float)
    (args : Dataset.fn_args) : result Dataset.t :=
  match args with
  | Dataset.Batch b =>
      match Dataset.row b 0 with
      | Some example =>
          masked ← mask_words_1 wmc_tokenizer wmc_mask_prob example;
          Ok (Dict.map_values (fun v => [v]) masked)
      | None => Raise IndexError
      end
  | Dataset.Columns _ => Raise TypeError
  end.

Definition _mask_dataset (self : t) (dataset : DatasetDict) : io DatasetDict :=
  _ ← lift (collator_init
             (WordMaskingCollator (tokenizer self) (Hparams.mask_prob (hparams self))));
  map_splits "Mask words in dataset" dataset
    (fun ds =>
       Dataset.map_batches (mask (tokenizer self) (Hparams.mask_prob (hparams self)))
         None [] ds (Dataset.single_rows ds)).

(** [assert "label" in dataset[split].column_names] *)
Definition assert_label (dataset : DatasetDict) (split : string) : io unit :=
  ds ← lift (Dict.getitem dataset split);
  if existsb (String.eqb "label") (Dataset.column_names ds) then mret tt
  else raise AssertionError.

Definition _prepare_dataset (self : t) (dataset : DatasetDict) : io DatasetDict :=
  match Hparams.task (hparams self) with
  | clm =>
      dataset ← _tokenize_dataset self dataset false false None false;
      _chunk_dataset self dataset (Hparams.max_seq_len (hparams self) + 1) ["input_ids"] []
  | mlm =>
      dataset ← _tokenize_dataset self dataset false false None true;
      dataset ← _chunk_dataset self dataset (Hparams.max_seq_len (hparams self))
                  ["input_ids"; "word_ids"] [];
      if Hparams.static_masking (hparams self) then _mask_dataset self dataset
      else mret dataset
  | clf =>
      _ ← assert_label dataset "train";
      _ ← assert_label dataset "valid";
      _tokenize_dataset self dataset false true (Some (max_seq_len self)) false
  end.

Definition prepare_data (self : t) : io unit :=
  found ← path_exists (preproc_dir self);
  if negb found then
    _ ← emit LoadSourceDataset;
    dataset ← lift (load_source_dataset (hparams self));
    dataset ← _prepare_dataset self dataset;
    save_to_disk dataset (preproc_dir self)
  else mret tt.

Definition load_prepared_dataset (self : t) : io DatasetDict :=
  load_from_disk (preproc_dir self).

Definition with_datasets (self : t) (train valid : option TorchDataset) : t :=
  {| hparams := hparams self; tokenizer := tokenizer self;
     perceiver_tokenizer_configured := perceiver_tokenizer_configured self;
     perceiver_tokenizer_util := perceiver_tokenizer_util self;
     collator := collator self; ds_train := train; ds_valid := valid |}.

Definition setup (self : t) : io t :=
  dataset ← load_prepared_dataset self;
  train ← lift (Dict.getitem dataset "train");
  valid ← lift (Dict.getitem dataset "valid");
  let ds_train := of_Dataset train in
  let ds_valid := of_Dataset valid in
  let shifting := match Hparams.task (hparams self) with clm | mlm => true | clf => false end in
  let ds_train :=
    if shifting && Hparams.random_train_shift (hparams self)
    then RandomShiftDataset.__init__ ds_train else ds_train in
  let ds_valid :=
    if shifting && Hparams.random_valid_shift (hparams self)
    then RandomShiftDataset.__init__ ds_valid else ds_valid in
  let clm_task := Task_eqb (Hparams.task (hparams self)) clm in
  let ds_train := if clm_task then CLMDataset.__init__ ds_train else ds_train in
  let ds_valid := if clm_task then CLMDataset.__init__ ds_valid else ds_valid in
  mret (with_datasets self (Some ds_train) (Some ds_valid)).

Definition train_dataloader (self : t) : DataLoader :=
  {| dl_dataset := ds_train self;
     dl_shuffle := true;
     dl_collate_fn :=
       if Hparams.random_train_truncation (hparams self)
       then RandomTruncateCollator (collator self) (Hparams.random_min_seq_len (hparams self))
       else collator self;
     dl_batch_size := Hparams.batch_size (hparams self);
     dl_num_workers := Hparams.num_workers (hparams self);
     dl_pin_memory := Hparams.pin_memory (hparams self) |}.

Definition val_dataloader (self : t) : DataLoader :=
  {| dl_dataset := ds_valid self;
     dl_shuffle := false;
     dl_collate_fn :=
       if Hparams.random_valid_truncation (hparams self)
       then RandomTruncateCollator (collator self) (Hparams.random_min_seq_len (hparams self))
       else collator self;
     dl_batch_size := valid_batch_size self;
     dl_num_workers := Hparams.num_workers (hparams self);
     dl_pin_memory := Hparams.pin_memory (hparams self) |}.

Definition text_preprocessor (self : t) : io TextPreprocessor.t :=
  preproc ← TextPreprocessor.__init__ (Hparams.tokenizer (hparams self))
              (Hparams.max_seq_len (hparams self))
              (Hparams.add_special_tokens (hparams self));
  match Hparams.padding_side (hparams self) with
  | Some side =>
      mret {| TextPreprocessor.tokenizer :=
                Tokenizer.set_padding_side side (TextPreprocessor.tokenizer preproc);
              TextPreprocessor.max_seq_len := TextPreprocessor.max_seq_len preproc;
              TextPreprocessor.add_special_tokens :=
                TextPreprocessor.add_special_tokens preproc |}
  | None => mret preproc
  end.

Definition _train_valid_split (self : t) (dataset : Dataset.t)
    (train_size test_size : option Z) : io DatasetDict :=
  dataset ← train_test_split dataset train_size test_size (negb (random_shift self));
  train ← lift (Dict.getitem dataset "train");
  test ← lift (Dict.getitem dataset "test");
  mret [("train", train); ("valid", test)].

End WithCollaborators.
End TextDataModule.

(** ** A concrete setting: a byte-level tokenizer and a single-process engine

    One instance of the collaborators, on which the module can be run. *)
Module Bytes.

Definition byte_ids (s : string) : list Z :=
  map (fun c => Z.of_N (N_of_ascii c)) (list_ascii_of_string s).

Definition truncated (kw : Tokenizer.call_args) (ids : list Z) : list Z :=
  match Tokenizer.truncation kw, Tokenizer.max_length kw with
  | true, Some n => take (Z.to_nat n) ids
  | _, _ => ids
  end.

(** Every byte is a token and a word of its own; there is no padding
    token. *)
Definition call (_ : string) (kw : Tokenizer.call_args) (texts : list string)
    : result Tokenizer.BatchEncoding :=
  let ids := map (fun s => truncated kw (byte_ids s)) texts in
  Ok {| Tokenizer.input_ids := ids;
        Tokenizer.attention_mask :=
          if Tokenizer.return_attention_mask kw
          then Some (map (map (fun _ => 1)) ids) else None;
        Tokenizer.word_ids := fun i =>
          row ← Py.index ids i;
          Ok (map (fun k : nat => Some (Z.of_nat k)) (seq 0 (length row))) |}.

Definition tokenizer (name : string) : Tokenizer.t :=
  {| Tokenizer.name_or_path := name;
     Tokenizer.pad_token := None;
     Tokenizer.eos_token := Some "$";
     Tokenizer.padding_side := "right";
     Tokenizer.vocab_size := 256;
     Tokenizer.call := call |}.

(** Consecutive batches of [batch_size] rows. *)
Fixpoint batches_from (fuel : nat) (batch_size start : nat) (ds : Dataset.t) : list Dataset.t :=
  match fuel with
  | O => []
  | Datatypes.S fuel' =>
      if (Dataset.num_rows ds <=? start)%nat then []
      else Dataset.slice_rows start batch_size ds
           :: batches_from fuel' batch_size (start + batch_size) ds
  end.

(** [ds.shard(num_shards, index, contiguous=True)] *)
Definition shard (num_shards index : nat) (ds : Dataset.t) : Dataset.t :=
  let n := Dataset.num_rows ds in
  let div := (n / num_shards)%nat in
  let rest := (n mod num_shards)%nat in
  Dataset.slice_rows (div * index + Nat.min index rest)
                     (div + if (index <? rest)%nat then 1 else 0) ds.

(** The batches of [Dataset.map]: with one process, consecutive batches of
    the rows; with [num_proc] processes, no more than there are rows, the
    rows are cut into that many contiguous shards and each shard into
    consecutive batches of its own. *)
Definition consecutive (batch_size num_proc : Z) (ds : Dataset.t) : list Dataset.t :=
  let size := Nat.max 1 (Z.to_nat batch_size) in
  let num_proc := Nat.min (Z.to_nat num_proc) (Dataset.num_rows ds) in
  if (num_proc <=? 1)%nat then batches_from (Dataset.num_rows ds) size 0 ds
  else flat_map (fun rank => let part := shard num_proc rank ds in
                             batches_from (Dataset.num_rows part) size 0 part)
                (seq 0 num_proc).

Definition absolute_sizes (train_size test_size : option Z) (n : nat) : result (nat * nat) :=
  match train_size, test_size with
  | Some a, Some b =>
      if (0 <? a) && (0 <? b) && (a + b <=? Z.of_nat n)
      then Ok (Z.to_nat a, Z.to_nat b)
      else Raise (ValueError "train_size and test_size do not fit the dataset")
  | _, _ => Raise (ValueError "train_size and test_size are both required")
  end.

Definition source : DatasetDict :=
  [("train", [("text", [Py.VStr "ab"; Py.VStr "cde"])]);
   ("valid", [("text", [Py.VStr "fg"])])].

#[export] Instance collaborators : Collaborators := {|
  from_pretrained := fun name =>
    if String.eqb name "" then Raise (OSError "not a valid model identifier")
    else Ok (tokenizer name);
  new_PerceiverTokenizerUtil := fun _ =>
    Ok {| util_word_ids := fun ids =>
            Ok (map (fun k : nat => Some (Z.of_nat k)) (seq 0 (length ids))) |};
  collator_init := fun c => Ok c;
  mask_words_1 := fun _ _ example => Ok example;
  batches := consecutive;
  split_sizes := absolute_sizes;
  permutation := fun n => rev (seq 0 n);
  load_source_dataset := fun _ => Ok source
|}.

(** The same setting without a data source: the base class on its own. *)
Definition base_class : Collaborators := {|
  from_pretrained := from_pretrained (Collaborators := collaborators);
  new_PerceiverTokenizerUtil := new_PerceiverTokenizerUtil (Collaborators := collaborators);
  collator_init := collator_init (Collaborators := collaborators);
  mask_words_1 := mask_words_1 (Collaborators := collaborators);
  batches := consecutive;
  split_sizes := absolute_sizes;
  permutation := permutation (Collaborators := collaborators);
  load_source_dataset := load_source_dataset_abstract
|}.

Definition config : Hparams.t :=
  {| Hparams.dataset_dir := ".cache";
     Hparams.tokenizer := "bert-base-uncased";
     Hparams.max_seq_len := 512;
     Hparams.task := mlm;
     Hparams.mask_prob := Float "0.15";
     Hparams.mask_words := true;
     Hparams.static_masking := false;
     Hparams.add_special_tokens := false;
     Hparams.add_eos_token := false;
     Hparams.padding_side := None;
     Hparams.random_train_shift := false;
     Hparams.random_valid_shift := false;
     Hparams.random_train_truncation := false;
     Hparams.random_valid_truncation := false;
     Hparams.random_min_seq_len := 16;
     Hparams.preproc_batch_size := 1000;
     Hparams.preproc_workers := Some 1;
     Hparams.batch_size := 64;
     Hparams.valid_batch_size := None;
     Hparams.num_workers := 3;
     Hparams.pin_memory := true;
     Hparams.source_train_size := None;
     Hparams.source_valid_size := None |}.

Definition with_task (hp : Hparams.t) (task : Task) (max_seq_len : Z) : Hparams.t :=
  {| Hparams.dataset_dir := Hparams.dataset_dir hp;
     Hparams.tokenizer := Hparams.tokenizer hp;
     Hparams.max_seq_len := max_seq_len;
     Hparams.task := task;
     Hparams.mask_prob := Hparams.mask_prob hp;
     Hparams.mask_words := Hparams.mask_words hp;
     Hparams.static_masking := Hparams.static_masking hp;
     Hparams.add_special_tokens := Hparams.add_special_tokens hp;
     Hparams.add_eos_token := Hparams.add_eos_token hp;
     Hparams.padding_side := Hparams.padding_side hp;
     Hparams.random_train_shift := Hparams.random_train_shift hp;
     Hparams.random_valid_shift := Hparams.random_valid_shift hp;
     Hparams.random_train_truncation := Hparams.random_train_truncation hp;
     Hparams.random_valid_truncation := Hparams.random_valid_truncation hp;
     Hparams.random_min_seq_len := Hparams.random_min_seq_len hp;
     Hparams.preproc_batch_size := Hparams.preproc_batch_size hp;
     Hparams.preproc_workers := Hparams.preproc_workers hp;
     Hparams.batch_size := Hparams.batch_size hp;
     Hparams.valid_batch_size := Hparams.valid_batch_size hp;
     Hparams.num_workers := Hparams.num_workers hp;
     Hparams.pin_memory := Hparams.pin_memory hp;
     Hparams.source_train_size := Hparams.source_train_size hp;
     Hparams.source_valid_size := Hparams.source_valid_size hp |}.

Definition with_flags (hp : Hparams.t) (static_masking mask_words : bool) : Hparams.t :=
  {| Hparams.dataset_dir := Hparams.dataset_dir hp;
     Hparams.tokenizer := Hparams.tokenizer hp;
     Hparams.max_seq_len := Hparams.max_seq_len hp;
     Hparams.task := Hparams.task hp;
     Hparams.mask_prob := Hparams.mask_prob hp;
     Hparams.mask_words := mask_words;
     Hparams.static_masking := static_masking;
     Hparams.add_special_tokens := Hparams.add_special_tokens hp;
     Hparams.add_eos_token := Hparams.add_eos_token hp;
     Hparams.padding_side := Hparams.padding_side hp;
     Hparams.random_train_shift := Hparams.random_train_shift hp;
     Hparams.random_valid_shift := Hparams.random_valid_shift hp;
     Hparams.random_train_truncation := Hparams.random_train_truncation hp;
     Hparams.random_valid_truncation := Hparams.random_valid_truncation hp;
     Hparams.random_min_seq_len := Hparams.random_min_seq_len hp;
     Hparams.preproc_batch_size := Hparams.preproc_batch_size hp;
     Hparams.preproc_workers := Hparams.preproc_workers hp;
     Hparams.batch_size := Hparams.batch_size hp;
     Hparams.valid_batch_size := Hparams.valid_batch_size hp;
     Hparams.num_workers := Hparams.num_workers hp;
     Hparams.pin_memory := Hparams.pin_memory hp;
     Hparams.source_train_size := Hparams.source_train_size hp;
     Hparams.source_valid_size := Hparams.source_valid_size hp |}.

Definition empty_world : world := {| fs := ∅; log := [] |}.

(** The module as [__init__] leaves it once the tokenizer is loaded. *)
Definition module (hp : Hparams.t) : TextDataModule.t :=
  {| TextDataModule.hparams := hp;
     TextDataModule.tokenizer := tokenizer (Hparams.tokenizer hp);
     TextDataModule.perceiver_tokenizer_configured := false;
     TextDataModule.perceiver_tokenizer_util := None;
     TextDataModule.collator :=
       DefaultCollator (tokenizer (Hparams.tokenizer hp)) (Hparams.max_seq_len hp);
     TextDataModule.ds_train := None;
     TextDataModule.ds_valid := None |}.

End Bytes.

(** ** Vocabulary of the properties *)

(** The [n] consecutive windows of width [c] of a list. *)
Definition windows {A : Type} (c n : nat) (t : list A) : list (list A) :=
  map (fun k => take c (drop (k * c) t)) (seq 0 n).

(** How many chunks [chunk] cuts from a concatenation of length [l]. *)
Definition chunk_count (c l : nat) : nat :=
  if (c <=? l)%nat then (l / c)%nat else if (l =? 0)%nat then 0%nat else 1%nat.

(** The example a shift offset determines: every field of [example_1] from
    the offset on, followed by the same field of [example_2] up to it. *)
Definition shifted_record (shift : nat) (example_2 : Dict.t Py.value)
    (kv : string * Py.value) : string * Py.value :=
  (fst kv,
   match snd kv, Dict.get (fst kv) example_2 with
   | Py.VList r1, Some (Py.VList r2) => Py.VList (drop shift r1 ++ take shift r2)
   | _, _ => Py.VNone
   end).

Definition shifted (shift : nat) (example_1 example_2 : Dict.t Py.value) : Dict.t Py.value :=
  map (shifted_record shift example_2) example_1.

(** Every field of [example_1] is a list, and so is that field of
    [example_2]. *)
Definition list_fields (example_1 example_2 : Dict.t Py.value) : Prop :=
  Forall (fun kv => ∃ r1 r2, snd kv = Py.VList r1
                             ∧ Dict.get (fst kv) example_2 = Some (Py.VList r2))
         example_1.



(** Two distinct hash inputs with the same MD5 digest. *)
Definition md5_collision (a b : string) : Prop :=
  a ≠ b ∧ MD5.hexdigest a = MD5.hexdigest b.

(** Events of mapping over a split. *)
Definition is_MapSplit (e : event) : Prop :=
  match e with MapSplit _ _ => True | _ => False end.

(** A computation that leaves the cache directories alone and only adds
    events satisfying [P] to the log. *)
Definition logs_only {A : Type} (P : event → Prop) (m : io A) : Prop :=
  ∀ w, ∃ evs, fs (fst (m w)) = fs w ∧ log (fst (m w)) = log w ++ evs ∧ Forall P evs.


(** The stages [_prepare_dataset] runs for a configuration, each named by
    the description it passes to [Dataset.map]. *)
Definition stages (hp : Hparams.t) : list string :=
  match Hparams.task hp with
  | clm =>
      ["Running tokenizer on dataset";
       ("Split dataset into chunks of size "
        ++ Py.str_int (Hparams.max_seq_len hp + 1))%string]
  | mlm =>
      ["Running tokenizer on dataset";
       ("Split dataset into chunks of size "
        ++ Py.str_int (Hparams.max_seq_len hp))%string]
      ++ (if Hparams.static_masking hp then ["Mask words in dataset"] else [])
  | clf => ["Running tokenizer on dataset"]
  end.

(** Whether [setup] wraps a split in [RandomShiftDataset]. *)
Definition shifts (hp : Hparams.t) (random_shift : bool) : bool :=
  match Hparams.task hp with
  | clm | mlm => random_shift
  | clf => false
  end.

(** The configuration with other random-shift options. *)
Definition with_random_shift (hp : Hparams.t) (train valid : bool) : Hparams.t :=
  {| Hparams.dataset_dir := Hparams.dataset_dir hp;
     Hparams.tokenizer := Hparams.tokenizer hp;
     Hparams.max_seq_len := Hparams.max_seq_len hp;
     Hparams.task := Hparams.task hp;
     Hparams.mask_prob := Hparams.mask_prob hp;
     Hparams.mask_words := Hparams.mask_words hp;
     Hparams.static_masking := Hparams.static_masking hp;
     Hparams.add_special_tokens := Hparams.add_special_tokens hp;
     Hparams.add_eos_token := Hparams.add_eos_token hp;
     Hparams.padding_side := Hparams.padding_side hp;
     Hparams.random_train_shift := train;
     Hparams.random_valid_shift := valid;
     Hparams.random_train_truncation := Hparams.random_train_truncation hp;
     Hparams.random_valid_truncation := Hparams.random_valid_truncation hp;
     Hparams.random_min_seq_len := Hparams.random_min_seq_len hp;
     Hparams.preproc_batch_size := Hparams.preproc_batch_size hp;
     Hparams.preproc_workers := Hparams.preproc_workers hp;
     Hparams.batch_size := Hparams.batch_size hp;
     Hparams.valid_batch_size := Hparams.valid_batch_size hp;
     Hparams.num_workers := Hparams.num_workers hp;
     Hparams.pin_memory := Hparams.pin_memory hp;
     Hparams.source_train_size := Hparams.source_train_size hp;
     Hparams.source_valid_size := Hparams.source_valid_size hp |}.

(** The configuration with another [add_eos_token]. *)
Definition with_add_eos_token (hp : Hparams.t) (add_eos_token : bool) : Hparams.t :=
  {| Hparams.dataset_dir := Hparams.dataset_dir hp;
     Hparams.tokenizer := Hparams.tokenizer hp;
     Hparams.max_seq_len := Hparams.max_seq_len hp;
     Hparams.task := Hparams.task hp;
     Hparams.mask_prob := Hparams.mask_prob hp;
     Hparams.mask_words := Hparams.mask_words hp;
     Hparams.static_masking := Hparams.static_masking hp;
     Hparams.add_special_tokens := Hparams.add_special_tokens hp;
     Hparams.add_eos_token := add_eos_token;
     Hparams.padding_side := Hparams.padding_side hp;
     Hparams.random_train_shift := Hparams.random_train_shift hp;
     Hparams.random_valid_shift := Hparams.random_valid_shift hp;
     Hparams.random_train_truncation := Hparams.random_train_truncation hp;
     Hparams.random_valid_truncation := Hparams.random_valid_truncation hp;
     Hparams.random_min_seq_len := Hparams.random_min_seq_len hp;
     Hparams.preproc_batch_size := Hparams.preproc_batch_size hp;
     Hparams.preproc_workers := Hparams.preproc_workers hp;
     Hparams.batch_size := Hparams.batch_size hp;
     Hparams.valid_batch_size := Hparams.valid_batch_size hp;
     Hparams.num_workers := Hparams.num_workers hp;
     Hparams.pin_memory := Hparams.pin_memory hp;
     Hparams.source_train_size := Hparams.source_train_size hp;
     Hparams.source_valid_size := Hparams.source_valid_size hp |}.

(** The module with other hyperparameters and everything else as it is. *)
Definition with_hparams (self : TextDataModule.t) (hp : Hparams.t) : TextDataModule.t :=
  {| TextDataModule.hparams := hp;
     TextDataModule.tokenizer := TextDataModule.tokenizer self;
     TextDataModule.perceiver_tokenizer_configured :=
       TextDataModule.perceiver_tokenizer_configured self;
     TextDataModule.perceiver_tokenizer_util := TextDataModule.perceiver_tokenizer_util self;
     TextDataModule.collator := TextDataModule.collator self;
     TextDataModule.ds_train := TextDataModule.ds_train self;
     TextDataModule.ds_valid := TextDataModule.ds_valid self |}.

(** The values [preproc_dir_hash_input] reads, in the order it writes
    them.  The shift options enter only through their disjunction; the
    masking options only under static MLM masking. *)
Inductive key_component : Type :=
  | KTokenizer (name : string)
  | KMaxSeqLen (n : Z)
  | KTask (task : Task)
  | KRandomShift (b : bool)
  | KStaticMasking (masking : option (bool * float))
  | KSpecialTokens (b : bool)
  | KEosToken (b : bool)
  | KSourceTrainSize (n : option Z)
  | KSourceValidSize (n : option Z).

Definition key_components (hp : Hparams.t) : list key_component :=
  [ KTokenizer (Hparams.tokenizer hp);
    KMaxSeqLen (Hparams.max_seq_len hp);
    KTask (Hparams.task hp);
    KRandomShift (Hparams.random_train_shift hp || Hparams.random_valid_shift hp);
    KStaticMasking (if Task_eqb (Hparams.task hp) mlm && Hparams.static_masking hp
                    then Some (Hparams.mask_words hp, Hparams.mask_prob hp)
                    else None);
    KSpecialTokens (Hparams.add_special_tokens hp);
    KEosToken (Hparams.add_eos_token hp);
    KSourceTrainSize (Hparams.source_train_size hp);
    KSourceValidSize (Hparams.source_valid_size hp) ].

(** What a component contributes to the hash input. *)
Definition key_text (c : key_component) : string :=
  match c with
  | KTokenizer name => name
  | KMaxSeqLen n => "-" ++ Py.str_int n
  | KTask task => "-" ++ Task_name task
  | KRandomShift b => "-" ++ Py.str_bool b
  | KStaticMasking (Some (mask_words, mask_prob)) =>
      "-" ++ Py.str_bool mask_words ++ "-" ++ repr mask_prob
  | KStaticMasking None => ""
  | KSpecialTokens b => if b then "-st" else ""
  | KEosToken b => if b then "-eos" else ""
  | KSourceTrainSize (Some n) => "-ts-" ++ Py.str_int n
  | KSourceTrainSize None => ""
  | KSourceValidSize (Some n) => "-vs-" ++ Py.str_int n
  | KSourceValidSize None => ""
  end%string.

Definition join_texts (l : list string) : string := foldr String.append "" l.

(** Two lists that differ at position [i] and nowhere else. *)
Definition differ_only_at {A : Type} (i : nat) (l1 l2 : list A) : Prop :=
  l1 !! i ≠ l2 !! i ∧ ∀ j : nat, j ≠ i → l1 !! j = l2 !! j.

(** The characters of a lower-case hexadecimal numeral. *)
Definition is_hex_char (c : ascii) : bool :=
  existsb (Ascii.eqb c) (list_ascii_of_string "0123456789abcdef").
(** * Properties *)

(** ** MD5 test vectors

    The first two are from RFC 1321, appendix A.5; the third spans two
    blocks. *)

Example md5_empty : MD5.hexdigest "" = "d41d8cd98f00b204e9800998ecf8427e".
Proof. vm_compute. reflexivity. Qed.
Example md5_abc : MD5.hexdigest "abc" = "900150983cd24fb0d6963f7d28e17f72".
Proof. vm_compute. reflexivity. Qed.
Example md5_two_blocks :
  MD5.hexdigest "aaaaaaaaaaaaaaaaaaaaaaaaaaaaaaaaaaaaaaaaaaaaaaaaaaaaaaaaaaaaaaaaaaaaaa"
  = "0f5c6c4e740bfcc08c3c26ccb2673d46".
Proof. vm_compute. reflexivity. Qed.

(** ** Slices, ranges and windows *)
Section Windows.
Context {A : Type}.
Implicit Types (t : list A) (c i n : nat).

(** [t[i : i + c]] for a start and a width that are not negative. *)
Lemma slice_window t i c :
  Py.slice (Some (Z.of_nat i)) (Some (Z.of_nat i + Z.of_nat c)) t = take c (drop i t).
Proof.
  unfold Py.slice, Py.slice_bound.
  destruct (Z.ltb_spec (Z.of_nat i) 0); [lia|].
  destruct (Z.ltb_spec (Z.of_nat i + Z.of_nat c) 0); [lia|].
  assert (Z.to_nat (Z.min (Z.of_nat i) (Z.of_nat (length t))) = Nat.min i (length t))
    as -> by lia.
  assert (Z.to_nat (Z.min (Z.of_nat i + Z.of_nat c) (Z.of_nat (length t))
                    - Z.min (Z.of_nat i) (Z.of_nat (length t)))
          = (Nat.min (i + c) (length t) - Nat.min i (length t))%nat) as -> by lia.
  destruct (Nat.le_gt_cases (length t) i) as [Hge|Hlt].
  - rewrite Nat.min_r by lia. rewrite !drop_ge by lia. by rewrite !take_nil.
  - rewrite (Nat.min_l i) by lia.
    destruct (Nat.le_gt_cases (i + c) (length t)).
    + rewrite Nat.min_l by lia. f_equal. lia.
    + rewrite Nat.min_r by lia.
      rewrite !take_ge; [done | rewrite length_drop; lia | rewrite length_drop; lia].
Qed.

Lemma windows_length c n t : length (windows c n t) = n.
Proof. unfold windows. by rewrite length_map, length_seq. Qed.

Lemma windows_full c n t :
  (n * c ≤ length t)%nat → Forall (fun w => length w = c) (windows c n t).
Proof.
  intros Hn. unfold windows. apply Forall_map, Forall_forall.
  intros k Hk%list_elem_of_In%in_seq. simpl.
  rewrite length_take, length_drop. nia.
Qed.

Lemma windows_concat c n t :
  (n * c ≤ length t)%nat → concat (windows c n t) = take (n * c) t.
Proof.
  unfold windows. induction n as [|n IH]; intros Hn; [done|].
  rewrite seq_S, map_app, concat_app, IH by lia. simpl.
  rewrite app_nil_r, take_take_drop. f_equal. lia.
Qed.

(** A single window wider than the list is the list. *)
Lemma windows_short c t :
  (length t ≤ c)%nat → windows c 1 t = [t].
Proof. intros Hc. unfold windows. simpl. by rewrite drop_0, take_ge. Qed.

End Windows.

Lemma range_len_multiple (q c : Z) :
  0 < c → 0 ≤ q → Py.range_len 0 (q * c) c = Z.to_nat q.
Proof.
  intros Hc Hq. unfold Py.range_len.
  destruct (Z.ltb_spec 0 c); [|lia]. f_equal.
  replace (q * c - 0 + c - 1) with (c - 1 + q * c) by lia.
  rewrite Z.div_add by lia. rewrite Z.div_small; lia.
Qed.

Lemma range_len_short (l c : Z) :
  0 < l → l < c → Py.range_len 0 l c = 1%nat.
Proof.
  intros Hl Hc. unfold Py.range_len.
  destruct (Z.ltb_spec 0 c); [|lia].
  replace (l - 0 + c - 1) with (l - 1 + 1 * c) by lia.
  rewrite Z.div_add by lia. rewrite Z.div_small; lia.
Qed.

(** The chunk starts [range(0, stop, c)], as multiples of [c]. *)
Lemma range_starts (stop c : Z) :
  0 < c → Py.range 0 stop c
          = Ok (map (fun k : nat => Z.of_nat k * c) (seq 0 (Py.range_len 0 stop c))).
Proof.
  intros Hc. unfold Py.range. destruct (Z.eqb_spec c 0); [lia|]. done.
Qed.

(** Slicing at the starts of a range gives the windows. *)
Lemma slices_are_windows {A : Type} (t : list A) (c : nat) (n : nat) :
  map (fun i => Py.slice (Some i) (Some (i + Z.of_nat c)) t)
      (map (fun k : nat => Z.of_nat k * Z.of_nat c) (seq 0 n))
  = windows c n t.
Proof.
  unfold windows. rewrite map_map. apply map_ext. intros k.
  replace (Z.of_nat k * Z.of_nat c) with (Z.of_nat (k * c)) by lia.
  apply slice_window.
Qed.

(** ** Dictionaries *)
Section DictFacts.
Context {V : Type}.
Implicit Types (d : Dict.t V) (k : string) (v : V).

Lemma dict_get_set_eq d k v : Dict.get k (Dict.set k v d) = Some v.
Proof.
  induction d as [|[k' v'] d IH]; simpl.
  - by rewrite String.eqb_refl.
  - destruct (String.eqb_spec k k') as [->|Hne]; simpl.
    + by rewrite String.eqb_refl.
    + destruct (String.eqb_spec k k'); [done | apply IH].
Qed.

Lemma dict_get_set_ne d k k' v : k ≠ k' → Dict.get k' (Dict.set k v d) = Dict.get k' d.
Proof.
  intros Hne. induction d as [|[k0 v0] d IH]; simpl.
  - destruct (String.eqb_spec k' k); congruence.
  - destruct (String.eqb_spec k k0) as [->|Hk]; simpl.
    + destruct (String.eqb_spec k' k0); congruence.
    + destruct (String.eqb_spec k' k0); [done | apply IH].
Qed.

Lemma dict_get_map_values {W : Type} (f : V → W) d k :
  Dict.get k (Dict.map_values f d) = f <$> Dict.get k d.
Proof.
  induction d as [|[k' v'] d IH]; simpl; [done|].
  destruct (String.eqb k k'); [done | apply IH].
Qed.

Lemma dict_getitem_get d k v : Dict.get k d = Some v → Dict.getitem d k = Ok v.
Proof. unfold Dict.getitem. by intros ->. Qed.

End DictFacts.

Section DictOrder.
Context {V : Type}.
Implicit Types (d : Dict.t V) (k : string) (v : V).

Lemma dict_set_fresh d k v : k ∉ Dict.keys d → Dict.set k v d = d ++ [(k, v)].
Proof.
  unfold Dict.keys. induction d as [|[k' v'] d IH]; simpl; intros Hk; [done|].
  apply not_elem_of_cons in Hk as [Hne Hk].
  destruct (String.eqb_spec k k'); [done|]. by rewrite IH.
Qed.

Lemma dict_get_middle (pre rest : Dict.t V) k v :
  k ∉ Dict.keys pre → Dict.get k (pre ++ (k, v) :: rest) = Some v.
Proof.
  unfold Dict.keys. induction pre as [|[k' v'] pre IH]; simpl; intros Hk.
  - by rewrite String.eqb_refl.
  - apply not_elem_of_cons in Hk as [Hne Hk].
    destruct (String.eqb_spec k k'); [done | by apply IH].
Qed.

Lemma dict_get_Some_elem d k v : Dict.get k d = Some v → (k, v) ∈ d.
Proof.
  induction d as [|[k' v'] d IH]; simpl; [done|].
  destruct (String.eqb_spec k k') as [->|Hne].
  - intros [= ->]. apply list_elem_of_here.
  - intros Hget. apply list_elem_of_further. by apply IH.
Qed.

End DictOrder.

Lemma index_lookup {A : Type} (l : list A) (i : nat) (x : A) :
  l !! i = Some x → Py.index l (Z.of_nat i) = Ok x.
Proof.
  intros Hx. pose proof (lookup_lt_Some _ _ _ Hx) as Hlt. unfold Py.index.
  destruct (Z.ltb_spec (Z.of_nat i) 0); [lia|].
  destruct (Z.ltb_spec (Z.of_nat i) 0); [lia|].
  destruct (Z.leb_spec (Z.of_nat (length l)) (Z.of_nat i)); [lia|]. simpl.
  by rewrite Nat2Z.id, Hx.
Qed.

(** ** The chunking stage *)

Lemma traverse_iter_lists (seqs : list (list Py.value)) :
  traverse Py.iter (map Py.VList seqs) = Ok seqs.
Proof. induction seqs as [|s seqs IH]; simpl; [done|]. by rewrite IH. Qed.

Lemma chain_lists (seqs : list (list Py.value)) :
  Py.chain (map Py.VList seqs) = Ok (concat seqs).
Proof. unfold Py.chain. by rewrite traverse_iter_lists. Qed.

(** The comprehension that builds [chained] succeeds on columns of lists and
    maps the key at each position to the concatenation of its column. *)
Lemma chain_columns_lists (keys : list string) :
  ∀ (i : nat) (cols : list (list (list Py.value))) (acc : Dict.t (list Py.value)),
    (i + length keys ≤ length cols)%nat →
    ∃ d, TextDataModule.chain_columns i keys (map (map Py.VList) cols) acc = Ok d
         ∧ (∀ k, k ∉ keys → Dict.get k d = Dict.get k acc)
         ∧ (∀ j k, NoDup keys → keys !! j = Some k →
                   Dict.get k d = @concat _ <$> cols !! (i + j)%nat).
Proof.
  induction keys as [|k0 keys IH]; intros i cols acc Hlen; simpl in *.
  - exists acc. split_and!; [done | done | intros j k _ Hj; by rewrite lookup_nil in Hj].
  - destruct (lookup_lt_is_Some_2 cols i ltac:(lia)) as [col Hcol].
    rewrite (index_lookup _ i (map Py.VList col)) by (by rewrite list_lookup_fmap, Hcol).
    simpl. rewrite chain_lists. simpl.
    destruct (IH (S i) cols (Dict.set k0 (concat col) acc) ltac:(lia)) as (d & Hd & Hout & Hin).
    exists d. split_and!; [done | |].
    + intros k Hk. apply not_elem_of_cons in Hk as [Hne Hk].
      rewrite Hout by done. by apply dict_get_set_ne.
    + intros j k Hnd Hj. apply NoDup_cons in Hnd as [Hk0 Hnd].
      destruct j as [|j]; simpl in Hj.
      * injection Hj as <-. rewrite Hout by done.
        rewrite dict_get_set_eq, Nat.add_0_r, Hcol. done.
      * rewrite (Hin j k Hnd Hj). f_equal. f_equal. lia.
Qed.

(** [chunk] on columns of lists: every field is cut into the windows at the
    starts computed from the first field. *)
Lemma chunk_windows (c : nat) (keys : list string) (cols : list (list (list Py.value)))
    (seqs0 : list (list Py.value)) :
  (0 < c)%nat → NoDup keys → keys ≠ [] → length keys = length cols →
  cols !! 0%nat = Some seqs0 →
  ∃ d, TextDataModule.chunk (Z.of_nat c) keys (map (map Py.VList) cols) = Ok d
       ∧ ∀ j k seqs, keys !! j = Some k → cols !! j = Some seqs →
           Dict.get k d
           = Some (map Py.VList
                     (windows c (chunk_count c (length (concat seqs0))) (concat seqs))).
Proof.
  intros Hc Hnd Hne Hlen H0. unfold TextDataModule.chunk.
  destruct (chain_columns_lists keys 0 cols [] ltac:(simpl; lia)) as (ch & -> & _ & Hget).
  simpl. destruct keys as [|key0 keys']; [done|].
  replace (Py.index (key0 :: keys') 0) with (@Ok string key0)
    by (symmetry; by apply (index_lookup _ 0%nat)).
  simpl.
  rewrite (dict_getitem_get ch key0 (concat seqs0))
    by (rewrite (Hget 0%nat key0 Hnd eq_refl); simpl; by rewrite H0).
  simpl. set (l := length (concat seqs0)).
  assert (∃ n, (chained_len ← (if Z.of_nat c <=? Z.of_nat l
                    then q ← Py.floordiv (Z.of_nat l) (Z.of_nat c); Ok (q * Z.of_nat c)
                    else Ok (Z.of_nat l)); Py.range 0 chained_len (Z.of_nat c))
               = Ok (map (fun k : nat => Z.of_nat k * Z.of_nat c) (seq 0 n))
               ∧ n = chunk_count c l) as (n & Hstarts & Hn).
  { unfold chunk_count. destruct (Z.leb_spec (Z.of_nat c) (Z.of_nat l)).
    - destruct (Nat.leb_spec c l); [|lia].
      unfold Py.floordiv. destruct (Z.eqb_spec (Z.of_nat c) 0); [lia|]. simpl.
      eexists. split; [apply range_starts; lia|].
      rewrite range_len_multiple by (try apply Z.div_pos; lia).
      rewrite <- Nat2Z.inj_div. apply Nat2Z.id.
    - destruct (Nat.leb_spec c l); [lia|]. simpl.
      eexists. split; [apply range_starts; lia|].
      destruct (Nat.eqb_spec l 0) as [->|Hl].
      + change (Z.of_nat 0) with (0 * Z.of_nat c). by rewrite range_len_multiple by lia.
      + apply range_len_short; lia. }
  destruct (if Z.of_nat c <=? Z.of_nat l then _ else _) as [chained_len|e];
    simpl in Hstarts |- *; [|done].
  rewrite Hstarts. simpl. eexists. split; [done|].
  intros j k seqs Hj Hseqs. rewrite dict_get_map_values.
  rewrite (Hget j k Hnd Hj). simpl. rewrite Hseqs. simpl. f_equal.
  rewrite <- Hn, <- slices_are_windows, !map_map. done.
Qed.

Lemma chunk_count_full (c l : nat) :
  (0 < c)%nat → (c ≤ l)%nat ∨ l = 0%nat →
  chunk_count c l = (l / c)%nat ∧ (chunk_count c l * c ≤ l)%nat.
Proof.
  intros Hc Hl. unfold chunk_count. destruct (Nat.leb_spec c l).
  - split; [done|]. rewrite Nat.mul_comm. apply Nat.Div0.mul_div_le.
  - destruct Hl as [? | ->]; [lia|]. simpl. rewrite Nat.Div0.div_0_l. lia.
Qed.

(** C1, as the code has it: for a chunk size [C > 0], on a batch whose
    fields are aligned with the first one and concatenate to length [L], the
    inner function [chunk] of [_chunk_dataset] returns, for every field,
    chunks that are windows of the concatenation.  When [L >= C] or [L = 0]
    there are exactly [floor(L/C)] of them, each of length exactly [C], and
    in order they concatenate to the first [C * floor(L/C)] elements.  When
    [0 < L < C] the guard [if chained_len >= chunk_size] leaves the length
    alone and the whole concatenation is emitted as one chunk of length
    [L]. *)
Theorem chunk_exact (C : Z) (keys : list string) (cols : list (list (list Py.value)))
    (seqs0 seqs : list (list Py.value)) (j : nat) (k : string) :
  0 < C → NoDup keys → length keys = length cols →
  cols !! 0%nat = Some seqs0 → keys !! j = Some k → cols !! j = Some seqs →
  length (concat seqs) = length (concat seqs0) →
  ∃ d chunks,
    TextDataModule.chunk C keys (map (map Py.VList) cols) = Ok d
    ∧ Dict.get k d = Some (map Py.VList chunks)
    ∧ (C ≤ Z.of_nat (length (concat seqs)) ∨ length (concat seqs) = 0%nat →
       Z.of_nat (length chunks) = Z.of_nat (length (concat seqs)) / C
       ∧ Forall (fun ch => Z.of_nat (length ch) = C) chunks
       ∧ concat chunks
         = take (Z.to_nat (C * (Z.of_nat (length (concat seqs)) / C))) (concat seqs))
    ∧ (0 < Z.of_nat (length (concat seqs)) < C → chunks = [concat seqs]).
Proof.
  intros HC Hnd Hlen H0 Hj Hseqs Hal.
  assert (keys ≠ []) as Hne by (intros ->; by rewrite lookup_nil in Hj).
  destruct (chunk_windows (Z.to_nat C) keys cols seqs0 ltac:(lia) Hnd Hne Hlen H0)
    as (d & Hd & Hget).
  rewrite Z2Nat.id in Hd by lia.
  exists d, (windows (Z.to_nat C) (chunk_count (Z.to_nat C) (length (concat seqs0)))
                     (concat seqs)).
  split_and!; [done | by apply (Hget j k seqs) | |]; rewrite <- Hal.
  - intros Hfull.
    destruct (chunk_count_full (Z.to_nat C) (length (concat seqs)) ltac:(lia) ltac:(lia))
      as [Hq Hle].
    assert (Z.of_nat (length (concat seqs)) / C
            = Z.of_nat (length (concat seqs) / Z.to_nat C)) as ->
      by (rewrite Nat2Z.inj_div, Z2Nat.id; lia).
    split_and!.
    + by rewrite windows_length, Hq.
    + eapply Forall_impl; [by apply windows_full|]. simpl. intros ch Hch. lia.
    + rewrite windows_concat by done. f_equal. rewrite Hq. lia.
  - intros [Hpos Hlt]. unfold chunk_count.
    destruct (Nat.leb_spec (Z.to_nat C) (length (concat seqs))); [lia|].
    destruct (Nat.eqb_spec (length (concat seqs)) 0); [lia|].
    apply windows_short. lia.
Qed.

Lemma chunk_exact_witness :
  ∃ d chunks,
    TextDataModule.chunk 2 ["input_ids"; "word_ids"]
      (map (map Py.VList)
         [[[Py.VInt 7; Py.VInt 8; Py.VInt 9]; [Py.VInt 10; Py.VInt 11]];
          [[Py.VInt 0; Py.VInt 0; Py.VInt 1]; [Py.VNone; Py.VInt 0]]]) = Ok d
    ∧ Dict.get "word_ids" d = Some (map Py.VList chunks)
    ∧ (2 ≤ 5 ∨ 5%nat = 0%nat →
       Z.of_nat (length chunks) = 5 / 2
       ∧ Forall (fun ch => Z.of_nat (length ch) = 2) chunks
       ∧ concat chunks
         = take (Z.to_nat (2 * (5 / 2)))
             [Py.VInt 0; Py.VInt 0; Py.VInt 1; Py.VNone; Py.VInt 0])
    ∧ (0 < 5 < 2 → chunks = [[Py.VInt 0; Py.VInt 0; Py.VInt 1; Py.VNone; Py.VInt 0]]).
Proof.
  apply (chunk_exact 2 ["input_ids"; "word_ids"]
           [[[Py.VInt 7; Py.VInt 8; Py.VInt 9]; [Py.VInt 10; Py.VInt 11]];
            [[Py.VInt 0; Py.VInt 0; Py.VInt 1]; [Py.VNone; Py.VInt 0]]]
           [[Py.VInt 7; Py.VInt 8; Py.VInt 9]; [Py.VInt 10; Py.VInt 11]]
           [[Py.VInt 0; Py.VInt 0; Py.VInt 1]; [Py.VNone; Py.VInt 0]]
           1%nat "word_ids").
  - lia.
  - refine (bool_decide_unpack _ _). vm_compute. exact I.
  - reflexivity.
  - reflexivity.
  - reflexivity.
  - reflexivity.
  - reflexivity.
Defined.

(** C1 as stated fails on a batch shorter than the chunk size: three tokens
    and [chunk_size = 4] give one chunk of three tokens, where
    [floor(3/4) = 0] chunks of four are claimed. *)
Lemma chunk_short_batch :
  TextDataModule.chunk 4 ["input_ids"] [[Py.ints [1; 2; 3]]]
  = Ok [("input_ids", [Py.ints [1; 2; 3]])]
  ∧ Z.of_nat (length [Py.ints [1; 2; 3]]) ≠ 3 / 4
  ∧ Z.of_nat (length [1; 2; 3]) ≠ 4.
Proof. split_and!; [reflexivity | vm_compute; discriminate | vm_compute; discriminate]. Qed.

(** C5: with [chunk_size = 1] nothing is lost: for every field aligned with
    the first one, the chunks emitted by [chunk], concatenated in order, are
    the original concatenation. *)
Theorem chunk_size_one_roundtrip (keys : list string) (cols : list (list (list Py.value)))
    (seqs0 seqs : list (list Py.value)) (j : nat) (k : string) :
  NoDup keys → length keys = length cols →
  cols !! 0%nat = Some seqs0 → keys !! j = Some k → cols !! j = Some seqs →
  length (concat seqs) = length (concat seqs0) →
  ∃ d chunks,
    TextDataModule.chunk 1 keys (map (map Py.VList) cols) = Ok d
    ∧ Dict.get k d = Some (map Py.VList chunks)
    ∧ Forall (fun ch => length ch = 1%nat) chunks
    ∧ concat chunks = concat seqs.
Proof.
  intros Hnd Hlen H0 Hj Hseqs Hal.
  assert (keys ≠ []) as Hne by (intros ->; by rewrite lookup_nil in Hj).
  destruct (chunk_windows 1 keys cols seqs0 ltac:(lia) Hnd Hne Hlen H0) as (d & Hd & Hget).
  exists d, (windows 1 (chunk_count 1 (length (concat seqs0))) (concat seqs)).
  assert (chunk_count 1 (length (concat seqs0)) = length (concat seqs)) as Hn.
  { rewrite <- Hal. unfold chunk_count.
    destruct (Nat.leb_spec 1 (length (concat seqs))); [apply Nat.div_1_r|].
    destruct (Nat.eqb_spec (length (concat seqs)) 0); lia. }
  split_and!; [done | by apply (Hget j k seqs) | |]; rewrite Hn.
  - apply windows_full. lia.
  - rewrite windows_concat by lia. rewrite Nat.mul_1_r. by apply take_ge.
Qed.

Lemma chunk_size_one_roundtrip_witness :
  ∃ d chunks,
    TextDataModule.chunk 1 ["input_ids"]
      (map (map Py.VList) [[[Py.VInt 7; Py.VInt 8]; []; [Py.VInt 9]]]) = Ok d
    ∧ Dict.get "input_ids" d = Some (map Py.VList chunks)
    ∧ Forall (fun ch => length ch = 1%nat) chunks
    ∧ concat chunks = [Py.VInt 7; Py.VInt 8; Py.VInt 9].
Proof.
  apply (chunk_size_one_roundtrip ["input_ids"] [[[Py.VInt 7; Py.VInt 8]; []; [Py.VInt 9]]]
           [[Py.VInt 7; Py.VInt 8]; []; [Py.VInt 9]]
           [[Py.VInt 7; Py.VInt 8]; []; [Py.VInt 9]] 0%nat "input_ids").
  - refine (bool_decide_unpack _ _). vm_compute. exact I.
  - reflexivity.
  - reflexivity.
  - reflexivity.
  - reflexivity.
  - reflexivity.
Defined.

(** ** Slices with an omitted bound *)
Section Slices.
Context {A : Type}.
Implicit Types (t : list A) (s : nat).

(** [t[s:]] *)
Lemma slice_from t s : Py.slice (Some (Z.of_nat s)) None t = drop s t.
Proof.
  unfold Py.slice, Py.slice_bound. destruct (Z.ltb_spec (Z.of_nat s) 0); [lia|].
  destruct (Nat.le_gt_cases s (length t)).
  - rewrite Z.min_l by lia. rewrite Nat2Z.id. apply take_ge. rewrite length_drop. lia.
  - rewrite Z.min_r by lia. rewrite Nat2Z.id. rewrite !drop_ge by lia. apply take_nil.
Qed.

(** [t[:s]] *)
Lemma slice_to t s : Py.slice None (Some (Z.of_nat s)) t = take s t.
Proof.
  unfold Py.slice, Py.slice_bound. destruct (Z.ltb_spec (Z.of_nat s) 0); [lia|].
  rewrite drop_0. destruct (Nat.le_gt_cases s (length t)).
  - rewrite Z.min_l by lia. f_equal. lia.
  - rewrite Z.min_r by lia. rewrite !take_ge; [done | lia | lia].
Qed.

(** [t[:-1]] *)
Lemma slice_init t : Py.slice None (Some (-1)) t = take (length t - 1) t.
Proof.
  unfold Py.slice, Py.slice_bound. simpl. rewrite drop_0. f_equal. lia.
Qed.

(** [t[1:]] *)
Lemma slice_tail t : Py.slice (Some 1) None t = drop 1 t.
Proof. apply (slice_from t 1). Qed.

End Slices.

(** ** [CLMDataset] *)

(** The next-token shift on a record of any length: both outputs are one
    shorter than a non-empty record, and each label is the following
    input. *)
Lemma shift_labels_record (example : Dict.t Py.value) (record : list Py.value) :
  Dict.get "input_ids" example = Some (Py.VList record) →
  CLMDataset.shift_labels example
  = Ok [("input_ids", Py.VList (take (length record - 1) record));
        ("label_ids", Py.VList (drop 1 record))].
Proof.
  intros Hrec. unfold CLMDataset.shift_labels.
  rewrite (dict_getitem_get _ _ _ Hrec). simpl.
  by rewrite slice_init, slice_tail.
Qed.

(** [chunk] over [input_ids] only returns that one field, cut in windows. *)
Lemma chunk_input_ids (c : nat) (seqs : list (list Py.value)) :
  (0 < c)%nat →
  TextDataModule.chunk (Z.of_nat c) ["input_ids"] [map Py.VList seqs]
  = Ok [("input_ids",
         map Py.VList (windows c (chunk_count c (length (concat seqs))) (concat seqs)))].
Proof.
  intros Hc.
  destruct (chunk_windows c ["input_ids"] [seqs] seqs Hc) as (d & Hd & Hget);
    [apply NoDup_singleton | done | done | done |].
  pose proof (Hget 0%nat "input_ids" seqs eq_refl eq_refl) as Hk.
  simpl in Hd. rewrite Hd. f_equal.
  unfold TextDataModule.chunk in Hd. simpl in Hd.
  rewrite chain_lists in Hd. simpl in Hd.
  destruct (if _ <=? _ then _ else _) as [n|]; simpl in Hd; [|done].
  destruct (Py.range 0 n _) as [starts|]; simpl in Hd; [|done].
  injection Hd as <-. simpl in Hk |- *.
  injection Hk as ->. done.
Qed.


(** ** The chunking stage over a dataset *)

Lemma traverse_Forall2 {A B : Type} (f : A → result B) (l : list A) (r : list B) :
  traverse f l = Ok r → Forall2 (fun x y => f x = Ok y) l r.
Proof.
  revert r. induction l as [|x l IH]; intros r; simpl.
  - intros [= <-]. constructor.
  - destruct (f x) as [y|] eqn:Hy; simpl; [|done].
    destruct (traverse f l) as [ys|]; simpl; [|done].
    intros [= <-]. constructor; [done | by apply IH].
Qed.

(** A column of the concatenation of batches is the concatenation of that
    column over the batches. *)
Lemma concat_batches_column (parts : list Dataset.t) (ds : Dataset.t)
    (k : string) (col : list Py.value) :
  Dataset.concat_batches parts = Ok ds → Dict.get k ds = Some col →
  ∃ cols, Forall2 (fun p c => Dict.get k p = Some c) parts cols ∧ col = concat cols.
Proof.
  unfold Dataset.concat_batches. destruct parts as [|first rest]; [by intros [= <-]|].
  generalize (Dataset.column_names first). intros names. revert ds.
  induction names as [|k' names IH]; intros ds; simpl.
  - by intros [= <-].
  - destruct (Dict.getitem first k') as [c0|] eqn:H0; simpl; [|done].
    destruct (traverse (fun p => Dict.getitem p k') rest) as [cs|] eqn:Hrest; simpl; [|done].
    destruct (traverse _ names) as [tl|] eqn:Htl; simpl; [|done].
    intros [= <-]. simpl. destruct (String.eqb_spec k k') as [->|Hne].
    + intros [= <-]. exists (c0 :: cs). split; [|done]. constructor.
      * unfold Dict.getitem in H0. by destruct (Dict.get k' first); simplify_eq.
      * apply traverse_Forall2 in Hrest. eapply Forall2_impl; [exact Hrest|].
        simpl. intros p c Hp. unfold Dict.getitem in Hp.
        by destruct (Dict.get k' p); simplify_eq.
    + intros Hget. by apply (IH tl).
Qed.

Lemma rectangular_empty (ds : Dataset.t) (k : string) (col : list Py.value) :
  Dataset.rectangular ds = true → Dataset.num_rows ds = 0%nat →
  Dict.get k ds = Some col → col = [].
Proof.
  unfold Dataset.rectangular. intros Hrect Hn Hget. rewrite Hn in Hrect.
  apply dict_get_Some_elem, list_elem_of_In in Hget.
  rewrite forallb_forall in Hrect. specialize (Hrect _ Hget). simpl in Hrect.
  apply Nat.eqb_eq in Hrect. by destruct col.
Qed.

(** Every chunk of a chunked split has the chunk size, when every batch the
    engine formed had at least that many tokens, or none. *)
Lemma chunked_split_lengths (c : nat) (ds chunked : Dataset.t) (bs : list Dataset.t)
    (col : list Py.value) :
  (0 < c)%nat → Dataset.rectangular ds = true →
  Forall (fun b => ∃ seqs, Dict.get "input_ids" b = Some (map Py.VList seqs)
                           ∧ ((c ≤ length (concat seqs))%nat ∨ concat seqs = [])) bs →
  Dataset.map_batches (TextDataModule.chunk_fn (Z.of_nat c) ["input_ids"])
    (Some ["input_ids"]) [] ds bs = Ok chunked →
  Dict.get "input_ids" chunked = Some col →
  Forall (fun v => ∃ ch, v = Py.VList ch ∧ length ch = c) col.
Proof.
  intros Hc Hrect Hbs. unfold Dataset.map_batches.
  destruct (Nat.eqb_spec (Dataset.num_rows ds) 0) as [Hempty|_].
  - intros [= <-] Hget.
    by rewrite (rectangular_empty ds "input_ids" col Hrect Hempty Hget).
  - destruct (negb (forallb _ _)); [done|]. destruct (negb (forallb _ _)); [done|].
    destruct (traverse _ bs) as [outs|] eqn:Houts; simpl; [|done].
    intros Hcat Hget.
    destruct (concat_batches_column outs chunked "input_ids" col Hcat Hget)
      as (cols & Hcols & ->).
    apply Forall_concat. apply traverse_Forall2 in Houts.
    assert (Forall2 (fun b c' => Forall (fun v => ∃ ch, v = Py.VList ch ∧ length ch = c) c')
                    bs cols) as Hall.
    { clear Hcat Hget. revert cols Hcols.
      induction Houts as [|b out bs outs Hb _ IH]; intros cols Hcols.
      - inversion Hcols. constructor.
      - inversion Hcols as [|? col0 ? cols' Hout Hrest]; subst.
        apply Forall_cons in Hbs as [(seqs & Hseqs & Hfull) Hbs].
        constructor; [|by apply IH].
        unfold Dataset.fn_input in Hb. simpl in Hb.
        rewrite (dict_getitem_get _ _ _ Hseqs) in Hb. simpl in Hb.
        rewrite chunk_input_ids in Hb by done. simpl in Hb.
        match type of Hb with (if ?r then _ else _) = _ => destruct r end; [|done].
        injection Hb as <-. rewrite dict_get_set_eq in Hout. injection Hout as <-.
        apply Forall_map. eapply Forall_impl; [apply windows_full|].
        + destruct (chunk_count_full c (length (concat seqs)) Hc) as [_ Hle]; [|done].
          destruct Hfull as [? | ->]; [by left | by right].
        + simpl. intros ch Hch. by exists ch. }
    clear -Hall. induction Hall; constructor; done.
Qed.

Section ChunkDataset.
Context `{Collaborators}.

(** Every split of the result of a stage is the stage's map of the split
    of that name. *)
Lemma map_splits_get (desc : string) (map_split : Dataset.t → result Dataset.t)
    (dataset : DatasetDict) :
  ∀ (acc out : DatasetDict) (w w' : world) (split : string) (mapped : Dataset.t),
    for_each dataset
      (fun kv result =>
         _ ← emit (MapSplit desc (fst kv));
         mapped ← lift (map_split (snd kv));
         mret (Dict.set (fst kv) mapped result)) acc w = (w', Ok out) →
    Dict.get split out = Some mapped →
    Dict.get split acc = Some mapped
    ∨ ∃ ds, (split, ds) ∈ dataset ∧ map_split ds = Ok mapped.
Proof.
  induction dataset as [|[k ds] dataset IH]; intros acc out w w' split mapped; simpl.
  - unfold mret, io_ret. intros [= <- <-]. by left.
  - unfold mbind, io_bind, emit, lift at 1. simpl.
    destruct (map_split ds) as [m|] eqn:Hm; [|done].
    unfold mret at 1, io_ret at 1. intros Hrest Hget.
    destruct (IH _ _ _ _ _ _ Hrest Hget) as [Hacc | (ds' & Hin & Hds')].
    + destruct (decide (k = split)) as [->|Hne].
      * rewrite dict_get_set_eq in Hacc. injection Hacc as ->.
        right. exists ds. split; [apply list_elem_of_here | done].
      * rewrite dict_get_set_ne in Hacc by done. by left.
    + right. exists ds'. split; [by apply list_elem_of_further | done].
Qed.

End ChunkDataset.

Section CLM.
Context `{Collaborators}.

(** C3, as the code has it.  (1) On an example whose [input_ids] has
    length [max_seq_len + 1], [CLMDataset.__getitem__] returns [input_ids]
    and [label_ids] both of length [max_seq_len], and [label_ids[k]] is
    the example's [input_ids[k + 1]], which is the returned
    [input_ids[k + 1]] wherever that exists.  (2) For the task [clm],
    [_prepare_dataset] tokenizes without word ids and chunks with
    [chunk_size = max_seq_len + 1] over [input_ids] only.  (3) That
    chunking gives every chunk the length [max_seq_len + 1] when the
    batch's concatenated [input_ids] has at least that many tokens, or
    none; a shorter batch is passed on as one chunk of its own length.
    (4) Hence every example of every chunked split has [input_ids] of
    length [max_seq_len + 1] when every processing batch of the tokenized
    splits has at least that many tokens, or none. *)
Theorem clm_next_token_shift (self : TextDataModule.t) :
  0 ≤ TextDataModule.max_seq_len self →
  (∀ (dataset : TorchDataset) (idx : Z) (example : Dict.t Py.value)
      (record : list Py.value),
      getitem dataset idx = Rand.Ret (Ok example) →
      Dict.get "input_ids" example = Some (Py.VList record) →
      Z.of_nat (length record) = TextDataModule.max_seq_len self + 1 →
      ∃ input_ids label_ids,
        getitem (CLMDataset.__init__ dataset) idx
        = Rand.Ret (Ok [("input_ids", Py.VList input_ids);
                        ("label_ids", Py.VList label_ids)])
        ∧ Z.of_nat (length input_ids) = TextDataModule.max_seq_len self
        ∧ Z.of_nat (length label_ids) = TextDataModule.max_seq_len self
        ∧ (∀ k : nat, (k < length label_ids)%nat → label_ids !! k = record !! S k)
        ∧ (∀ k : nat, (S k < length input_ids)%nat → label_ids !! k = input_ids !! S k))
  ∧ (Hparams.task (TextDataModule.hparams self) = clm →
     ∀ dataset : DatasetDict,
       TextDataModule._prepare_dataset self dataset
       = (tokenized ← TextDataModule._tokenize_dataset self dataset false false None false;
          TextDataModule._chunk_dataset self tokenized
            (TextDataModule.max_seq_len self + 1) ["input_ids"] []))
  ∧ (∀ seqs : list (list Py.value),
       ∃ chunks,
         TextDataModule.chunk (TextDataModule.max_seq_len self + 1) ["input_ids"]
           [map Py.VList seqs]
         = Ok [("input_ids", map Py.VList chunks)]
         ∧ (TextDataModule.max_seq_len self + 1 ≤ Z.of_nat (length (concat seqs))
            ∨ concat seqs = [] →
            Forall (fun ch => Z.of_nat (length ch) = TextDataModule.max_seq_len self + 1)
                   chunks)
         ∧ (0 < Z.of_nat (length (concat seqs)) < TextDataModule.max_seq_len self + 1 →
            chunks = [concat seqs]))
  ∧ (∀ (tokenized out : DatasetDict) (w w' : world),
       TextDataModule._chunk_dataset self tokenized
         (TextDataModule.max_seq_len self + 1) ["input_ids"] [] w = (w', Ok out) →
       (∀ split ds, (split, ds) ∈ tokenized →
          Dataset.rectangular ds = true
          ∧ Forall (fun b => ∃ seqs,
                      Dict.get "input_ids" b = Some (map Py.VList seqs)
                      ∧ (TextDataModule.max_seq_len self + 1
                         ≤ Z.of_nat (length (concat seqs))
                         ∨ concat seqs = []))
                   (batches (Hparams.preproc_batch_size (TextDataModule.hparams self))
                            (TextDataModule.preproc_workers self) ds)) →
       ∀ split chunked col,
         Dict.get split out = Some chunked →
         Dict.get "input_ids" chunked = Some col →
         Forall (fun v => ∃ ch, v = Py.VList ch
                                ∧ Z.of_nat (length ch) = TextDataModule.max_seq_len self + 1)
                col).
Proof.
  intros Hmax. split_and!.
  - intros dataset idx example record Hex Hrec Hlen.
    exists (take (length record - 1) record), (drop 1 record).
    split_and!.
    + simpl. unfold CLMDataset.__getitem__. rewrite Hex. simpl.
      by rewrite (shift_labels_record _ _ Hrec).
    + rewrite length_take. lia.
    + rewrite length_drop. lia.
    + intros k _. by rewrite lookup_drop.
    + intros k Hk. rewrite length_take in Hk.
      rewrite lookup_drop, lookup_take_lt by lia. done.
  - intros Htask dataset. unfold TextDataModule._prepare_dataset. by rewrite Htask.
  - intros seqs. eexists. split_and!.
    + rewrite <- (Z2Nat.id (TextDataModule.max_seq_len self + 1)) by lia.
      apply chunk_input_ids. lia.
    + intros Hfull.
      destruct (chunk_count_full (Z.to_nat (TextDataModule.max_seq_len self + 1))
                  (length (concat seqs))) as [_ Hle]; [lia | |].
      { destruct Hfull as [? | ->]; [left; lia | by right]. }
      eapply Forall_impl; [by apply windows_full|]. simpl. intros ch Hch. lia.
    + intros [Hpos Hlt]. unfold chunk_count.
      destruct (Nat.leb_spec (Z.to_nat (TextDataModule.max_seq_len self + 1))
                  (length (concat seqs))); [lia|].
      destruct (Nat.eqb_spec (length (concat seqs)) 0); [lia|].
      apply windows_short. lia.
  - intros tokenized out w w' Hrun Hbatches split chunked col Hsplit Hcol.
    unfold TextDataModule._chunk_dataset, TextDataModule.map_splits in Hrun.
    destruct (map_splits_get
                ("Split dataset into chunks of size "
                 ++ Py.str_int (TextDataModule.max_seq_len self + 1))
                (fun ds =>
                   Dataset.map_batches
                     (TextDataModule.chunk_fn (TextDataModule.max_seq_len self + 1)
                        ["input_ids"])
                     (Some ["input_ids"]) [] ds
                     (batches (Hparams.preproc_batch_size (TextDataModule.hparams self))
                              (TextDataModule.preproc_workers self) ds))
                tokenized [] out w w' split chunked Hrun Hsplit)
      as [Hnil | (ds & Hin & Hmap)]; [done|].
    destruct (Hbatches split ds Hin) as [Hrect Hfull].
    rewrite <- (Z2Nat.id (TextDataModule.max_seq_len self + 1)) in Hmap by lia.
    eapply Forall_impl.
    + eapply (chunked_split_lengths (Z.to_nat (TextDataModule.max_seq_len self + 1))
                ds chunked); [lia | exact Hrect | | exact Hmap | exact Hcol].
      eapply Forall_impl; [exact Hfull|]. simpl.
      intros b (seqs & Hseqs & Hlen). exists seqs. split; [done|].
      destruct Hlen as [? | ?]; [left; lia | by right].
    + simpl. intros v (ch & -> & Hch). exists ch. split; [done | lia].
Qed.

End CLM.

Lemma clm_next_token_shift_witness :
  0 ≤ 3
  ∧ ∃ input_ids label_ids,
      getitem (CLMDataset.__init__ (of_Dataset [("input_ids", [Py.ints [5; 6; 7; 8]])])) 0
      = Rand.Ret (Ok [("input_ids", Py.VList input_ids); ("label_ids", Py.VList label_ids)])
      ∧ Z.of_nat (length input_ids) = 3
      ∧ Z.of_nat (length label_ids) = 3
      ∧ (∀ k : nat, (k < length label_ids)%nat →
                    label_ids !! k = [Py.VInt 5; Py.VInt 6; Py.VInt 7; Py.VInt 8] !! S k)
      ∧ (∀ k : nat, (S k < length input_ids)%nat → label_ids !! k = input_ids !! S k).
Proof.
  split; [lia|].
  apply (proj1 (clm_next_token_shift (H := Bytes.collaborators) (Bytes.module (Bytes.with_task Bytes.config clm 3))
                  ltac:(vm_compute; discriminate))
           (of_Dataset [("input_ids", [Py.ints [5; 6; 7; 8]])]) 0
           [("input_ids", Py.ints [5; 6; 7; 8])]
           [Py.VInt 5; Py.VInt 6; Py.VInt 7; Py.VInt 8]).
  - reflexivity.
  - reflexivity.
  - reflexivity.
Defined.

(** C3 as stated fails where a processing batch is shorter than a chunk: with
    [max_seq_len = 3] the validation split of two tokens is prepared into one
    chunk of length 2, not 4, and [CLMDataset] returns [input_ids] and
    [label_ids] of length 1, not 3. *)
Lemma clm_pipeline_short_chunk :
  let self := Bytes.module (Bytes.with_task Bytes.config clm 3) in
  TextDataModule.max_seq_len self = 3
  ∧ snd (TextDataModule._prepare_dataset (H := Bytes.collaborators) self
           Bytes.source Bytes.empty_world)
    = Ok [("train", [("input_ids", [Py.ints [97; 98; 99; 100]])]);
          ("valid", [("input_ids", [Py.ints [102; 103]])])]
  ∧ getitem (CLMDataset.__init__ (of_Dataset [("input_ids", [Py.ints [102; 103]])])) 0
    = Rand.Ret (Ok [("input_ids", Py.ints [102]); ("label_ids", Py.ints [103])])
  ∧ Z.of_nat (length [102; 103]) ≠ 3 + 1
  ∧ Z.of_nat (length [102]) ≠ 3.
Proof.
  split_and!; [reflexivity | vm_compute; reflexivity | vm_compute; reflexivity
              | vm_compute; discriminate | vm_compute; discriminate].
Qed.

(** ** [RandomShiftDataset] *)


Lemma shifted_keys (shift : nat) (example_1 example_2 : Dict.t Py.value) :
  Dict.keys (shifted shift example_1 example_2) = Dict.keys example_1.
Proof. unfold Dict.keys, shifted. rewrite map_map. by apply map_ext. Qed.

Lemma shifted_get (shift : nat) (example_1 example_2 : Dict.t Py.value)
    (key : string) (r1 r2 : list Py.value) :
  Dict.get key example_1 = Some (Py.VList r1) →
  Dict.get key example_2 = Some (Py.VList r2) →
  Dict.get key (shifted shift example_1 example_2)
  = Some (Py.VList (drop shift r1 ++ take shift r2)).
Proof.
  intros H1 H2. unfold shifted.
  induction example_1 as [|[k' v'] d IH]; simpl in *; [done|].
  destruct (String.eqb_spec key k') as [->|Hne].
  - injection H1 as ->. by rewrite H2.
  - by apply IH.
Qed.

(** Once the offset is drawn, the loop shifts the remaining fields by it. *)
Lemma shift_records_drawn (s : nat) (example_2 : Dict.t Py.value) :
  ∀ rest pre : Dict.t Py.value,
    NoDup (Dict.keys (pre ++ rest)) →
    list_fields (pre ++ rest) example_2 →
    RandomShiftDataset.shift_records (Dict.keys rest) (pre ++ rest) example_2
      (Some (Z.of_nat s)) (shifted s pre example_2)
    = Rand.Ret (Ok (shifted s (pre ++ rest) example_2)).
Proof.
  induction rest as [|[key v1] rest IH]; intros pre Hnd Hwf.
  - by rewrite app_nil_r.
  - assert (key ∉ Dict.keys pre) as Hfresh.
    { unfold Dict.keys in *. rewrite map_app in Hnd. simpl in Hnd.
      apply NoDup_app in Hnd as (_ & Hdisj & _). intros Hin.
      apply (Hdisj key Hin). apply list_elem_of_here. }
    pose proof Hwf as Hwf'. unfold list_fields in Hwf'.
    rewrite Forall_app, Forall_cons in Hwf'.
    destruct Hwf' as (_ & (r1 & r2 & Hv1 & Hv2) & _). simpl in Hv1, Hv2. subst v1.
    simpl. rewrite (dict_getitem_get _ _ _ (dict_get_middle pre rest key _ Hfresh)).
    simpl. rewrite (dict_getitem_get _ _ _ Hv2). simpl.
    rewrite slice_from, slice_to. simpl.
    rewrite dict_set_fresh by (by rewrite shifted_keys).
    replace (shifted s pre example_2 ++ [(key, Py.VList (drop s r1 ++ take s r2))])
      with (shifted s (pre ++ [(key, Py.VList r1)]) example_2)
      by (unfold shifted; rewrite map_app; simpl; unfold shifted_record at 2; simpl;
          by rewrite Hv2).
    rewrite (cons_middle _ pre rest), app_assoc in Hnd, Hwf |- *.
    by apply IH.
Qed.

(** Every index within a table holds an example with the table's columns. *)
Lemma dataset_getitem_valid (ds : Dataset.t) (idx : Z) :
  Dataset.rectangular ds = true → 0 ≤ idx < Dataset.len ds →
  ∃ example, Dataset.getitem ds idx = Ok example
             ∧ Dict.keys example = Dataset.column_names ds.
Proof.
  unfold Dataset.rectangular, Dataset.getitem, Dataset.len.
  generalize (Dataset.num_rows ds). intros n Hrect [H0 Hn].
  destruct (Z.ltb_spec idx 0); [lia|]. destruct (Z.ltb_spec idx 0); [lia|].
  destruct (Z.leb_spec (Z.of_nat n) idx); [lia|]. simpl.
  assert (∃ r, Dataset.row ds (Z.to_nat idx) = Some r
               ∧ Dict.keys r = Dataset.column_names ds) as (r & -> & Hkeys);
    [|by exists r].
  induction ds as [|[k col] ds IH]; simpl in *; [by exists []|].
  apply andb_true_iff in Hrect as [Hlen Hrect]. apply Nat.eqb_eq in Hlen.
  destruct (IH Hrect) as (r & -> & Hkeys).
  destruct (lookup_lt_is_Some_2 col (Z.to_nat idx) ltac:(lia)) as [v ->].
  exists ((k, v) :: r). unfold Dict.keys, Dataset.column_names, Dict.keys in *.
  simpl. by rewrite Hkeys.
Qed.

(** The first pass of the loop draws the offset and goes on as if it had
    been drawn before. *)
Lemma shift_records_draw (key : string) (keys : list string)
    (example_1 example_2 acc : Dict.t Py.value) (r1 : list Py.value) :
  Dict.get key example_1 = Some (Py.VList r1) →
  is_Some (Dict.get key example_2) →
  r1 ≠ [] →
  RandomShiftDataset.shift_records (key :: keys) example_1 example_2 None acc
  = Rand.Draw (Z.of_nat (length r1))
      (fun z => RandomShiftDataset.shift_records (key :: keys) example_1 example_2
                  (Some z) acc).
Proof.
  intros H1 [v2 H2] Hne. simpl.
  rewrite (dict_getitem_get _ _ _ H1), (dict_getitem_get _ _ _ H2). simpl.
  unfold Rand.randint.
  destruct (Z.leb_spec (Z.of_nat (length r1)) 0) as [Hle|_]; [|reflexivity].
  destruct r1; [done | simpl in Hle; lia].
Qed.

Lemma outcomes_draw_ret {A : Type} (n : nat) (k : Z → Rand.t A) (r : nat → result A) :
  (∀ z : nat, (z < n)%nat → k (Z.of_nat z) = Rand.Ret (r z)) →
  Rand.outcomes (Rand.Draw (Z.of_nat n) k) = map (fun z => (Z.of_nat n, r z)) (seq 0 n).
Proof.
  intros Hk. simpl. rewrite Nat2Z.id.
  assert (∀ (l : list nat) (h : Z), Forall (fun z => (z < n)%nat) l →
            flat_map (fun z : nat => map (fun o => (h * fst o, snd o))
                                       (Rand.outcomes (k (Z.of_nat z)))) l
            = map (fun z => (h, r z)) l) as Hflat.
  { intros l h. induction 1 as [|z l Hz _ IH]; simpl; [done|].
    rewrite Hk by done. simpl. rewrite IH. f_equal. f_equal. lia. }
  apply Hflat, Forall_forall. intros z Hz%list_elem_of_In%in_seq. lia.
Qed.

(** C4: [RandomShiftDataset] has the underlying length minus one; fetching
    index [i], where [example_i] and [example_{i+1}] are dictionaries of lists
    and the first field of [example_i] is not empty, makes exactly one draw,
    uniform over [[0, len)] for the length of that first field, and for the
    offset [shift] drawn returns, for every field, [example_i[field][shift:]]
    followed by [example_{i+1}[field][:shift]]: one offset for all fields.
    Each of the [len] results has probability [1/len]. *)
Theorem random_shift_getitem (dataset : TorchDataset) (idx : Z)
    (example_1 example_2 : Dict.t Py.value) (key0 : string) (record0 : list Py.value) :
  getitem dataset idx = Rand.Ret (Ok example_1) →
  getitem dataset (idx + 1) = Rand.Ret (Ok example_2) →
  NoDup (Dict.keys example_1) →
  list_fields example_1 example_2 →
  head example_1 = Some (key0, Py.VList record0) →
  record0 ≠ [] →
  len (RandomShiftDataset.__init__ dataset) = len dataset - 1
  ∧ (∃ k, getitem (RandomShiftDataset.__init__ dataset) idx
          = Rand.Draw (Z.of_nat (length record0)) k
          ∧ ∀ shift : nat, (shift < length record0)%nat →
              ∃ result,
                k (Z.of_nat shift) = Rand.Ret (Ok result)
                ∧ Dict.keys result = Dict.keys example_1
                ∧ ∀ key r1 r2,
                    Dict.get key example_1 = Some (Py.VList r1) →
                    Dict.get key example_2 = Some (Py.VList r2) →
                    Dict.get key result = Some (Py.VList (drop shift r1 ++ take shift r2)))
  ∧ Rand.outcomes (getitem (RandomShiftDataset.__init__ dataset) idx)
    = map (fun shift => (Z.of_nat (length record0),
                         Ok (shifted shift example_1 example_2)))
          (seq 0 (length record0)).
Proof.
  intros H1 H2 Hnd Hwf Hhead Hne.
  destruct example_1 as [|[k0 v0] rest]; [done|]. injection Hhead as -> ->.
  assert (∃ r2, Dict.get key0 example_2 = Some (Py.VList r2)) as [r2 Hr2].
  { apply Forall_cons in Hwf as [(r1 & r2 & _ & Hr2) _]. by exists r2. }
  assert (∃ k, getitem (RandomShiftDataset.__init__ dataset) idx
               = Rand.Draw (Z.of_nat (length record0)) k
               ∧ ∀ shift : nat, (shift < length record0)%nat →
                   k (Z.of_nat shift)
                   = Rand.Ret (Ok (shifted shift ((key0, Py.VList record0) :: rest)
                                           example_2))) as (k & Hk & Hshift).
  { change (getitem (RandomShiftDataset.__init__ dataset) idx)
      with (RandomShiftDataset.__getitem__ dataset idx).
    unfold RandomShiftDataset.__getitem__. rewrite H1, H2.
    change (Rand.Ret (Ok ?e) ≫= ?f) with (f e). cbv beta.
    change (Rand.Ret (Ok ?e) ≫= ?f) with (f e). cbv beta.
    change (Dict.keys ((key0, Py.VList record0) :: rest)) with (key0 :: Dict.keys rest).
    rewrite (shift_records_draw key0 _ _ _ _ record0);
      [| simpl; by rewrite String.eqb_refl | by rewrite Hr2 | done].
    eexists. split; [reflexivity|].
    intros shift Hlt. cbv beta.
    apply (shift_records_drawn shift example_2 ((key0, Py.VList record0) :: rest) []);
      done. }
  split_and!.
  - reflexivity.
  - exists k. split; [done|]. intros shift Hlt. eexists. split_and!.
    + by apply Hshift.
    + apply shifted_keys.
    + intros key r1 r2'. apply shifted_get.
  - rewrite Hk. by apply outcomes_draw_ret.
Qed.

Lemma random_shift_getitem_witness :
  let dataset := of_Dataset [("input_ids", [Py.ints [1; 2; 3]; Py.ints [4; 5; 6]]);
                             ("word_ids", [Py.ints [0; 0; 1]; Py.ints [2; 2; 3]])] in
  len (RandomShiftDataset.__init__ dataset) = len dataset - 1
  ∧ (∃ k, getitem (RandomShiftDataset.__init__ dataset) 0 = Rand.Draw 3 k
          ∧ ∀ shift : nat, (shift < 3)%nat →
              ∃ result,
                k (Z.of_nat shift) = Rand.Ret (Ok result)
                ∧ Dict.keys result = ["input_ids"; "word_ids"]
                ∧ ∀ key r1 r2,
                    Dict.get key [("input_ids", Py.ints [1; 2; 3]);
                                  ("word_ids", Py.ints [0; 0; 1])] = Some (Py.VList r1) →
                    Dict.get key [("input_ids", Py.ints [4; 5; 6]);
                                  ("word_ids", Py.ints [2; 2; 3])] = Some (Py.VList r2) →
                    Dict.get key result = Some (Py.VList (drop shift r1 ++ take shift r2)))
  ∧ Rand.outcomes (getitem (RandomShiftDataset.__init__ dataset) 0)
    = [(3, Ok [("input_ids", Py.ints [1; 2; 3]); ("word_ids", Py.ints [0; 0; 1])]);
       (3, Ok [("input_ids", Py.ints [2; 3; 4]); ("word_ids", Py.ints [0; 1; 2])]);
       (3, Ok [("input_ids", Py.ints [3; 4; 5]); ("word_ids", Py.ints [1; 2; 2])])].
Proof.
  apply (random_shift_getitem
           (of_Dataset [("input_ids", [Py.ints [1; 2; 3]; Py.ints [4; 5; 6]]);
                        ("word_ids", [Py.ints [0; 0; 1]; Py.ints [2; 2; 3]])]) 0
           [("input_ids", Py.ints [1; 2; 3]); ("word_ids", Py.ints [0; 0; 1])]
           [("input_ids", Py.ints [4; 5; 6]); ("word_ids", Py.ints [2; 2; 3])]
           "input_ids" [Py.VInt 1; Py.VInt 2; Py.VInt 3]).
  - reflexivity.
  - reflexivity.
  - refine (bool_decide_unpack _ _). vm_compute. exact I.
  - repeat constructor; simpl; eauto.
  - reflexivity.
  - discriminate.
Defined.

(** ** The cache key *)

Section Strings.
Implicit Types (a b s : string).

Lemma append_cons (c : ascii) a b : (String c a ++ b)%string = String c (a ++ b)%string.
Proof. reflexivity. Qed.

Lemma append_nil a : ("" ++ a)%string = a.
Proof. reflexivity. Qed.

Lemma append_cancel_l s a b : (s ++ a)%string = (s ++ b)%string → a = b.
Proof.
  induction s as [|c s IH]; [by rewrite !append_nil|].
  rewrite !append_cons. intros [= Heq]. by apply IH.
Qed.

Lemma append_length a b :
  String.length (a ++ b)%string = (String.length a + String.length b)%nat.
Proof.
  induction a as [|c a IH]; [done|]. rewrite append_cons. simpl. by rewrite IH.
Qed.

Lemma append_cancel_r s : ∀ a b, (a ++ s)%string = (b ++ s)%string → a = b.
Proof.
  induction a as [|c a IH]; intros [|c' b] Heq.
  - done.
  - apply (f_equal String.length) in Heq. rewrite !append_length in Heq.
    simpl in Heq. lia.
  - apply (f_equal String.length) in Heq. rewrite !append_length in Heq.
    simpl in Heq. lia.
  - rewrite !append_cons in Heq. injection Heq as -> Heq. f_equal. by apply IH.
Qed.

Lemma append_assoc a b s : ((a ++ b) ++ s)%string = (a ++ (b ++ s))%string.
Proof.
  induction a as [|c a IH]; [done|]. rewrite !append_cons. by rewrite IH.
Qed.

End Strings.

(** A hex digest never starts with the path separator. *)
Lemma hex_digit_not_sep (x : Z) : 0 ≤ x < 16 → MD5.hex_digit x ≠ "/"%char.
Proof.
  intros Hx.
  assert (x = 0 ∨ x = 1 ∨ x = 2 ∨ x = 3 ∨ x = 4 ∨ x = 5 ∨ x = 6 ∨ x = 7 ∨ x = 8
          ∨ x = 9 ∨ x = 10 ∨ x = 11 ∨ x = 12 ∨ x = 13 ∨ x = 14 ∨ x = 15) as Hcases by lia.
  repeat (destruct Hcases as [-> | Hcases]; [vm_compute; discriminate|]).
  subst. vm_compute. discriminate.
Qed.

Lemma hexdigest_not_absolute (s : string) : OsPath.startswith_sep (MD5.hexdigest s) = false.
Proof.
  unfold MD5.hexdigest, MD5.digest.
  destruct (MD5.blocks _ _ _) as [[[a b] c] d].
  change (MD5.bytes_le 4 a) with (a mod 256 :: MD5.bytes_le 3 (a / 256)).
  unfold MD5.hex. simpl flat_map. simpl string_of_list_ascii.
  unfold OsPath.startswith_sep.
  pose proof (hex_digit_not_sep (a mod 256 / 16)) as Hd.
  destruct (MD5.hex_digit (a mod 256 / 16)) as [[] [] [] [] [] [] [] []]; try done.
  exfalso. apply Hd; [|done].
  pose proof (Z.mod_pos_bound a 256 ltac:(lia)).
  split; [apply Z.div_pos; lia | apply Z.div_lt_upper_bound; lia].
Qed.

(** Joining a directory and a relative name is injective in the name. *)
Lemma join2_relative_inj (path a b : string) :
  OsPath.startswith_sep a = false → OsPath.startswith_sep b = false →
  OsPath.join2 path a = OsPath.join2 path b → a = b.
Proof.
  intros Ha Hb. unfold OsPath.join2. rewrite Ha, Hb.
  destruct (_ || _); intros Heq.
  - by apply append_cancel_l in Heq.
  - apply append_cancel_l in Heq. by apply (append_cancel_l "/") in Heq.
Qed.

Section CacheKey.
Implicit Types (self : TextDataModule.t).




End CacheKey.


(** ** Effects of the pipeline *)

Section LogsOnly.
Context {A B : Type} (P : event → Prop).

Lemma logs_only_lift (r : result A) : logs_only P (lift r).
Proof. intros w. exists []. by rewrite app_nil_r. Qed.

Lemma logs_only_ret (a : A) : logs_only P (mret a).
Proof. apply logs_only_lift. Qed.

Lemma logs_only_raise (e : exn) : logs_only P (raise e : io A).
Proof. apply logs_only_lift. Qed.

Lemma logs_only_bind (m : io A) (f : A → io B) :
  logs_only P m → (∀ a, logs_only P (f a)) → logs_only P (m ≫= f).
Proof.
  intros Hm Hf w. destruct (Hm w) as (evs & Hfs & Hlog & HP).
  unfold mbind, io_bind. destruct (m w) as [w1 [a|e]]; simpl in *.
  - destruct (Hf a w1) as (evs' & Hfs' & Hlog' & HP').
    exists (evs ++ evs'). rewrite Hfs', Hlog', Hfs, Hlog, app_assoc.
    split_and!; [done | done | by apply Forall_app].
  - by exists evs.
Qed.

End LogsOnly.

Lemma logs_only_emit (P : event → Prop) (e : event) : P e → logs_only P (emit e).
Proof. intros He w. exists [e]. simpl. split_and!; [done | done | by constructor]. Qed.

Lemma logs_only_for_each {A S : Type} (P : event → Prop) (l : list A)
    (body : A → S → io S) :
  (∀ x acc, logs_only P (body x acc)) → ∀ acc, logs_only P (for_each l body acc).
Proof.
  intros Hbody. induction l as [|x l IH]; intros acc; simpl.
  - apply logs_only_ret.
  - apply logs_only_bind; [apply Hbody | apply IH].
Qed.

Section Pipeline.
Context `{Collaborators}.
Implicit Types (self : TextDataModule.t) (dataset : DatasetDict).

Lemma map_splits_logs desc dataset (map_split : Dataset.t → result Dataset.t) :
  logs_only is_MapSplit (TextDataModule.map_splits desc dataset map_split).
Proof.
  unfold TextDataModule.map_splits. apply logs_only_for_each. intros kv acc.
  apply logs_only_bind; [by apply logs_only_emit|]. intros _.
  apply logs_only_bind; [apply logs_only_lift|]. intros mapped. apply logs_only_ret.
Qed.

(** Preparing a dataset maps over splits and touches nothing else. *)
Lemma prepare_dataset_logs self dataset :
  logs_only is_MapSplit (TextDataModule._prepare_dataset self dataset).
Proof.
  unfold TextDataModule._prepare_dataset, TextDataModule._tokenize_dataset,
    TextDataModule._chunk_dataset, TextDataModule._mask_dataset,
    TextDataModule.assert_label.
  destruct (Hparams.task _).
  - apply logs_only_bind; [apply map_splits_logs|]. intros d1.
    apply logs_only_bind; [apply map_splits_logs|]. intros d2.
    destruct (Hparams.static_masking _); [|apply logs_only_ret].
    apply logs_only_bind; [apply logs_only_lift|]. intros _. apply map_splits_logs.
  - apply logs_only_bind; [apply map_splits_logs|]. intros d1. apply map_splits_logs.
  - apply logs_only_bind.
    { apply logs_only_bind; [apply logs_only_lift|]. intros ds.
      destruct (existsb _ _); [apply logs_only_ret | apply logs_only_raise]. }
    intros _. apply logs_only_bind.
    { apply logs_only_bind; [apply logs_only_lift|]. intros ds.
      destruct (existsb _ _); [apply logs_only_ret | apply logs_only_raise]. }
    intros _. apply map_splits_logs.
Qed.

End Pipeline.

Section PrepareData.
Context `{Collaborators}.
Implicit Types (self : TextDataModule.t) (w : world).


End PrepareData.


(** ** The constructor *)

Section Init.
Context `{Collaborators}.

(** C7: with [static_masking = true] and [mask_words = false] the
    constructor raises [ValueError] with its message before it calls
    anything: the world, log included, is as it was.  Every other
    combination of the two flags passes this check, and construction
    succeeds once the tokenizer is loaded and the collaborating
    constructors succeed; the only call made is the tokenizer's loading. *)
Theorem init_static_masking_needs_mask_words (hp : Hparams.t) (w : world) :
  (Hparams.static_masking hp = true → Hparams.mask_words hp = false →
   TextDataModule.__init__ hp w
   = (w, Raise (ValueError "static_masking=true is only supported for mask_words=true")))
  ∧ (Hparams.static_masking hp = false ∨ Hparams.mask_words hp = true →
     is_ok (from_pretrained (Hparams.tokenizer hp)) = true →
     (∀ tok, is_ok (new_PerceiverTokenizerUtil tok) = true) →
     (∀ c, is_ok (collator_init c) = true) →
     ∃ self, snd (TextDataModule.__init__ hp w) = Ok self
             ∧ TextDataModule.hparams self = hp
             ∧ fs (fst (TextDataModule.__init__ hp w)) = fs w
             ∧ log (fst (TextDataModule.__init__ hp w))
               = log w ++ [FromPretrained (Hparams.tokenizer hp)]).
Proof.
  unfold TextDataModule.__init__. split.
  - intros -> ->. simpl. unfold raise, lift. reflexivity.
  - intros Hflags Htok Hutil Hcoll.
    assert (Hparams.static_masking hp && negb (Hparams.mask_words hp) = false) as ->
      by (destruct Hflags as [-> | ->]; [done | apply andb_false_r]).
    unfold mbind, io_bind, emit, lift. simpl.
    destruct (from_pretrained (Hparams.tokenizer hp)) as [tok|]; [|done].
    set (tok' := match Hparams.padding_side hp with
                 | Some side => Tokenizer.set_padding_side side tok
                 | None => tok
                 end).
    destruct (_ || _).
    + specialize (Hutil tok').
      destruct (new_PerceiverTokenizerUtil tok') as [u|]; [|done].
      unfold mret, io_ret.
      match goal with |- context [collator_init ?c] => specialize (Hcoll c);
        destruct (collator_init c) as [c'|]; [|done] end.
      simpl. by eexists.
    + unfold mret, io_ret.
      match goal with |- context [collator_init ?c] => specialize (Hcoll c);
        destruct (collator_init c) as [c'|]; [|done] end.
      simpl. by eexists.
Qed.

End Init.

Lemma init_static_masking_needs_mask_words_witness :
  TextDataModule.__init__ (H := Bytes.collaborators)
    (Bytes.with_flags Bytes.config true false) Bytes.empty_world
  = (Bytes.empty_world,
     Raise (ValueError "static_masking=true is only supported for mask_words=true"))
  ∧ ∃ self, snd (TextDataModule.__init__ (H := Bytes.collaborators)
                   (Bytes.with_flags Bytes.config true true) Bytes.empty_world) = Ok self
            ∧ TextDataModule.hparams self = Bytes.with_flags Bytes.config true true
            ∧ fs (fst (TextDataModule.__init__ (H := Bytes.collaborators)
                         (Bytes.with_flags Bytes.config true true) Bytes.empty_world)) = ∅
            ∧ log (fst (TextDataModule.__init__ (H := Bytes.collaborators)
                          (Bytes.with_flags Bytes.config true true) Bytes.empty_world))
              = [] ++ [FromPretrained "bert-base-uncased"].
Proof.
  split.
  - apply (proj1 (init_static_masking_needs_mask_words (H := Bytes.collaborators)
                    (Bytes.with_flags Bytes.config true false) Bytes.empty_world));
      reflexivity.
  - apply (proj2 (init_static_masking_needs_mask_words (H := Bytes.collaborators)
                    (Bytes.with_flags Bytes.config true true) Bytes.empty_world)).
    + right. reflexivity.
    + reflexivity.
    + intros tok. reflexivity.
    + intros c. reflexivity.
Defined.

(** ** Required fields of the classification task *)

Lemma existsb_label (cols : list string) :
  existsb (String.eqb "label") cols = false ↔ "label" ∉ cols.
Proof.
  induction cols as [|c cols IH].
  - split; [intros _; apply not_elem_of_nil | done].
  - change (existsb (String.eqb "label") (c :: cols))
      with (String.eqb "label" c || existsb (String.eqb "label") cols).
    rewrite not_elem_of_cons, orb_false_iff, IH.
    destruct (String.eqb_spec "label" c); split; intros [? ?]; split;
      done || congruence.
Qed.

Section Labels.
Context `{Collaborators}.

(** C8: for the classification task, when the train split or the valid
    split of the source dataset has no [label] column, [_prepare_dataset]
    raises [AssertionError] and has done nothing by then: no split was
    mapped, the world is as it was. *)
Theorem prepare_dataset_clf_asserts_label (self : TextDataModule.t)
    (dataset : DatasetDict) (train valid : Dataset.t) (w : world) :
  Hparams.task (TextDataModule.hparams self) = clf →
  Dict.get "train" dataset = Some train →
  Dict.get "valid" dataset = Some valid →
  "label" ∉ Dataset.column_names train ∨ "label" ∉ Dataset.column_names valid →
  TextDataModule._prepare_dataset self dataset w = (w, Raise AssertionError).
Proof.
  intros Htask Htrain Hvalid Hmissing.
  unfold TextDataModule._prepare_dataset, TextDataModule.assert_label.
  rewrite Htask. unfold mbind, io_bind, lift, raise, lift.
  rewrite (dict_getitem_get _ _ _ Htrain), (dict_getitem_get _ _ _ Hvalid).
  destruct (existsb (String.eqb "label") (Dataset.column_names train)) eqn:Ht.
  - destruct Hmissing as [Hm | Hm]; apply existsb_label in Hm.
    + congruence.
    + unfold mret, io_ret. by rewrite Hm.
  - reflexivity.
Qed.

End Labels.

Lemma prepare_dataset_clf_asserts_label_witness :
  TextDataModule._prepare_dataset (H := Bytes.collaborators)
    (Bytes.module (Bytes.with_task Bytes.config clf 8))
    [("train", [("text", [Py.VStr "ab"]); ("label", [Py.VInt 1])]);
     ("valid", [("text", [Py.VStr "fg"])])]
    Bytes.empty_world
  = (Bytes.empty_world, Raise AssertionError).
Proof.
  apply (prepare_dataset_clf_asserts_label (H := Bytes.collaborators)
           (Bytes.module (Bytes.with_task Bytes.config clf 8))
           [("train", [("text", [Py.VStr "ab"]); ("label", [Py.VInt 1])]);
            ("valid", [("text", [Py.VStr "fg"])])]
           [("text", [Py.VStr "ab"]); ("label", [Py.VInt 1])]
           [("text", [Py.VStr "fg"])]).
  - reflexivity.
  - reflexivity.
  - reflexivity.
  - right. apply existsb_label. reflexivity.
Defined.

(** ** The train/valid split *)

(** Row [i] of a block of consecutive rows is row [start + i] of the
    dataset. *)
Lemma slice_rows_row (ds : Dataset.t) (start count i : nat) :
  (i < count)%nat →
  Dataset.row (Dataset.slice_rows start count ds) i = Dataset.row ds (start + i).
Proof.
  intros Hi. unfold Dataset.slice_rows, Dict.map_values.
  induction ds as [|[k col] ds IH]; simpl; [done|].
  rewrite lookup_take_lt, lookup_drop, IH by done. done.
Qed.

Section Split.
Context `{Collaborators}.

(** C6: [_train_valid_split] asks the storage engine for a split with
    [shuffle = not (random_train_shift or random_valid_shift)]: it shuffles
    exactly when neither shift option is enabled.  When either is enabled
    the train split is the first rows of the dataset and the valid split
    the rows that follow, each in the original order. *)
Theorem train_valid_split_shuffle (self : TextDataModule.t) (dataset : Dataset.t)
    (train_size test_size : option Z) (w : world) :
  let hp := TextDataModule.hparams self in
  let shuffle := negb (Hparams.random_train_shift hp || Hparams.random_valid_shift hp) in
  let out := TextDataModule._train_valid_split self dataset train_size test_size w in
  log (fst out) = log w ++ [TrainTestSplit shuffle]
  ∧ (shuffle = true
     ↔ Hparams.random_train_shift hp = false ∧ Hparams.random_valid_shift hp = false)
  ∧ ∀ n_train n_test,
      split_sizes train_size test_size (Dataset.num_rows dataset) = Ok (n_train, n_test) →
      (Hparams.random_train_shift hp = true ∨ Hparams.random_valid_shift hp = true →
       ∃ train valid,
         snd out = Ok [("train", train); ("valid", valid)]
         ∧ train = Dataset.slice_rows 0 n_train dataset
         ∧ valid = Dataset.slice_rows n_train n_test dataset
         ∧ (∀ i, (i < n_train)%nat → Dataset.row train i = Dataset.row dataset i)
         ∧ (∀ i, (i < n_test)%nat →
                 Dataset.row valid i = Dataset.row dataset (n_train + i)))
      ∧ (Hparams.random_train_shift hp = false ∧ Hparams.random_valid_shift hp = false →
         let perm := permutation (Dataset.num_rows dataset) in
         snd out
         = Ok [("train", Dataset.select (take n_train (drop n_test perm)) dataset);
               ("valid", Dataset.select (take n_test perm) dataset)]).
Proof.
  intros hp shuffle out. subst out.
  unfold TextDataModule._train_valid_split, TextDataModule.random_shift, train_test_split.
  fold hp. fold shuffle. unfold mbind, io_bind, emit, lift, mret, io_ret.
  split_and!.
  - destruct (split_sizes _ _ _) as [[n_train n_test]|]; [|done].
    by destruct shuffle.
  - subst shuffle. rewrite negb_true_iff. apply orb_false_iff.
  - intros n_train n_test ->. split.
    + intros Hshift.
      assert (shuffle = false) as ->
        by (subst shuffle; destruct Hshift as [-> | ->];
            [done | by rewrite orb_true_r]).
      simpl. eexists _, _. split_and!; [done | done | done | |].
      * intros i Hi. by apply slice_rows_row.
      * intros i Hi. by apply slice_rows_row.
    + intros [Ht Hv].
      assert (shuffle = true) as -> by (subst shuffle; by rewrite Ht, Hv).
      done.
Qed.

End Split.

Lemma train_valid_split_shuffle_witness :
  let dataset := [("input_ids", [Py.ints [1]; Py.ints [2]; Py.ints [3]])] in
  let self := Bytes.module
                {| Hparams.dataset_dir := ".cache";
                   Hparams.tokenizer := "bert-base-uncased";
                   Hparams.max_seq_len := 512;
                   Hparams.task := mlm;
                   Hparams.mask_prob := Float "0.15";
                   Hparams.mask_words := true;
                   Hparams.static_masking := false;
                   Hparams.add_special_tokens := false;
                   Hparams.add_eos_token := false;
                   Hparams.padding_side := None;
                   Hparams.random_train_shift := true;
                   Hparams.random_valid_shift := false;
                   Hparams.random_train_truncation := false;
                   Hparams.random_valid_truncation := false;
                   Hparams.random_min_seq_len := 16;
                   Hparams.preproc_batch_size := 1000;
                   Hparams.preproc_workers := None;
                   Hparams.batch_size := 64;
                   Hparams.valid_batch_size := None;
                   Hparams.num_workers := 3;
                   Hparams.pin_memory := true;
                   Hparams.source_train_size := None;
                   Hparams.source_valid_size := None |} in
  ∃ train valid,
    snd (TextDataModule._train_valid_split (H := Bytes.collaborators) self dataset
           (Some 2) (Some 1) Bytes.empty_world)
    = Ok [("train", train); ("valid", valid)]
    ∧ train = Dataset.slice_rows 0 2 dataset
    ∧ valid = Dataset.slice_rows 2 1 dataset
    ∧ (∀ i, (i < 2)%nat → Dataset.row train i = Dataset.row dataset i)
    ∧ (∀ i, (i < 1)%nat → Dataset.row valid i = Dataset.row dataset (2 + i)).
Proof.
  intros dataset self.
  apply (proj1 (proj2 (proj2 (train_valid_split_shuffle (H := Bytes.collaborators)
                                self dataset (Some 2) (Some 1) Bytes.empty_world))
                  2%nat 1%nat eq_refl)).
  left. reflexivity.
Defined.

(** ** [TextPreprocessor] *)

Lemma index_first {A : Type} (l : list A) (x : A) :
  Py.index l 0 = Ok x ↔ l !! 0%nat = Some x.
Proof.
  split.
  - destruct l as [|y l]; [done|]. unfold Py.index.
    destruct (Z.leb_spec (Z.of_nat (length (y :: l))) 0) as [Hle|_];
      [simpl in Hle; lia|].
    simpl. by intros [= ->].
  - apply (index_lookup l 0%nat).
Qed.

(** C10: [preprocess(text)] returns exactly the first row of each of the two
    tensors that [preprocess_batch([text])] returns, and raises what the
    batch path raises. *)
Theorem preprocess_is_first_row_of_batch (self : TextPreprocessor.t) (text : string) :
  (∀ x m,
     TextPreprocessor.preprocess self text = Ok (x, m)
     ↔ ∃ xs pad_mask,
         TextPreprocessor.preprocess_batch self [text] = Ok (xs, pad_mask)
         ∧ xs !! 0%nat = Some x ∧ pad_mask !! 0%nat = Some m)
  ∧ (∀ e, TextPreprocessor.preprocess_batch self [text] = Raise e →
          TextPreprocessor.preprocess self text = Raise e).
Proof.
  unfold TextPreprocessor.preprocess. split.
  - intros x m.
    destruct (TextPreprocessor.preprocess_batch self [text]) as [[xs pad_mask]|e]; simpl.
    + split.
      * destruct (Py.index xs 0) as [x'|] eqn:Hx; simpl; [|done].
        destruct (Py.index pad_mask 0) as [m'|] eqn:Hm; simpl; [|done].
        intros [= -> ->]. exists xs, pad_mask. by rewrite <- !index_first.
      * intros (xs' & pm' & [= <- <-] & Hx & Hm).
        apply index_first in Hx, Hm. by rewrite Hx, Hm.
    + split; [done | by intros (? & ? & ? & _)].
  - by intros e ->.
Qed.

Lemma preprocess_is_first_row_of_batch_witness :
  let self := {| TextPreprocessor.tokenizer := Bytes.tokenizer "bert-base-uncased";
                 TextPreprocessor.max_seq_len := 3;
                 TextPreprocessor.add_special_tokens := false |} in
  TextPreprocessor.preprocess self "abcd" = Ok ([97; 98; 99], [false; false; false]).
Proof.
  intros self.
  apply (proj1 (preprocess_is_first_row_of_batch self "abcd")).
  exists [[97; 98; 99]], [[false; false; false]].
  split_and!; reflexivity.
Defined.

(** ** Scenarios *)

(** Two tokenized texts of three and four tokens, chunked with
    [chunk_size = 4]: one chunk of four tokens, with its word ids, and the
    remaining three tokens dropped. *)
Example chunk_two_texts :
  TextDataModule.chunk 4 ["input_ids"; "word_ids"]
    [[Py.ints [11; 12; 13]; Py.ints [21; 22; 23; 24]];
     [Py.ints [0; 1; 2]; Py.ints [0; 1; 2; 3]]]
  = Ok [("input_ids", [Py.ints [11; 12; 13; 21]]);
        ("word_ids", [Py.ints [0; 1; 2; 0]])].
Proof. reflexivity. Qed.

(** [chunk_size = 0] divides by zero; a negative one emits nothing. *)
Example chunk_size_zero :
  TextDataModule.chunk 0 ["input_ids"] [[Py.ints [1; 2; 3]]] = Raise ZeroDivisionError.
Proof. reflexivity. Qed.

Example chunk_size_negative :
  TextDataModule.chunk (-2) ["input_ids"] [[Py.ints [1; 2; 3]]] = Ok [("input_ids", [])].
Proof. reflexivity. Qed.

(** Without a subclass supplying the data source, [prepare_data] raises
    [NotImplementedError] and writes nothing. *)
Example prepare_data_abstract_source :
  TextDataModule.prepare_data (H := Bytes.base_class) (Bytes.module Bytes.config)
    Bytes.empty_world
  = ({| fs := ∅; log := [LoadSourceDataset] |}, Raise NotImplementedError).
Proof. vm_compute. reflexivity. Qed.

(** The MLM pipeline on the two-split source, run from an empty cache: both
    stages map both splits, then the artifact is saved. *)
Example prepare_data_mlm_run :
  log (fst (TextDataModule.prepare_data (H := Bytes.collaborators)
              (Bytes.module (Bytes.with_task Bytes.config mlm 2)) Bytes.empty_world))
  = [LoadSourceDataset;
     MapSplit "Running tokenizer on dataset" "train";
     MapSplit "Running tokenizer on dataset" "valid";
     MapSplit "Split dataset into chunks of size 2" "train";
     MapSplit "Split dataset into chunks of size 2" "valid";
     SaveToDisk ".cache/preproc/17053fb76b78953c0b1d4731442c1f0a"].
Proof. vm_compute. reflexivity. Qed.

(** * Further properties *)

(** ** The chunking stage: shape of the result *)

Lemma windows_lookup {A : Type} (c n i : nat) (t : list A) :
  (i < n)%nat → windows c n t !! i = Some (take c (drop (i * c) t)).
Proof.
  intros Hi. unfold windows. rewrite list_lookup_fmap, lookup_seq_lt by done. done.
Qed.

Lemma dict_keys_map_values {V W : Type} (f : V → W) (d : Dict.t V) :
  Dict.keys (Dict.map_values f d) = Dict.keys d.
Proof. unfold Dict.keys, Dict.map_values. rewrite map_map. by apply map_ext. Qed.

(** The comprehension that builds [chained] adds the keys in order. *)
Lemma chain_columns_keys (keys : list string) :
  ∀ (i : nat) (args : list (list Py.value)) (acc d : Dict.t (list Py.value)),
    NoDup (Dict.keys acc ++ keys) →
    TextDataModule.chain_columns i keys args acc = Ok d →
    Dict.keys d = Dict.keys acc ++ keys.
Proof.
  induction keys as [|k keys IH]; intros i args acc d Hnd; simpl.
  - intros [= <-]. by rewrite app_nil_r.
  - destruct (Py.index args (Z.of_nat i)) as [col|]; simpl; [|done].
    destruct (Py.chain col) as [t|]; simpl; [|done].
    intros Hd.
    assert (k ∉ Dict.keys acc) as Hfresh.
    { apply NoDup_app in Hnd as (_ & Hdisj & _).
      intros Hin. apply (Hdisj k Hin). apply list_elem_of_here. }
    rewrite dict_set_fresh in Hd by done.
    assert (Dict.keys (acc ++ [(k, t)]) = Dict.keys acc ++ [k]) as Hkeys
      by (unfold Dict.keys; by rewrite map_app).
    apply IH in Hd.
    + by rewrite Hd, Hkeys, <- app_assoc.
    + by rewrite Hkeys, <- app_assoc.
Qed.

(** X1: [chunk] returns exactly the fields named by [include_keys], in order,
    each with the same number [n] of chunks; chunk [i] of every field is the
    slice [[i * C, i * C + C)] of that field's concatenation, so the chunks
    of different fields cover the same positions. *)
Theorem chunk_fields_aligned (C : Z) (keys : list string)
    (cols : list (list (list Py.value))) (seqs0 : list (list Py.value)) :
  0 < C → NoDup keys → length keys = length cols → cols !! 0%nat = Some seqs0 →
  ∃ d n,
    TextDataModule.chunk C keys (map (map Py.VList) cols) = Ok d
    ∧ Dict.keys d = keys
    ∧ ∀ j k seqs, keys !! j = Some k → cols !! j = Some seqs →
        ∃ chunks,
          Dict.get k d = Some (map Py.VList chunks)
          ∧ length chunks = n
          ∧ ∀ i, (i < n)%nat →
                 chunks !! i
                 = Some (take (Z.to_nat C) (drop (i * Z.to_nat C) (concat seqs))).
Proof.
  intros HC Hnd Hlen H0.
  assert (keys ≠ []) as Hne.
  { intros ->. apply lookup_lt_Some in H0. simpl in Hlen. lia. }
  destruct (chunk_windows (Z.to_nat C) keys cols seqs0 ltac:(lia) Hnd Hne Hlen H0)
    as (d & Hd & Hget).
  rewrite Z2Nat.id in Hd by lia.
  exists d, (chunk_count (Z.to_nat C) (length (concat seqs0))). split_and!; [done | |].
  - unfold TextDataModule.chunk in Hd.
    destruct (TextDataModule.chain_columns _ _ _ _) as [chained|] eqn:Hch; simpl in Hd; [|done].
    apply chain_columns_keys in Hch; [|done]. simpl in Hch.
    destruct (Py.index keys 0) as [key0|]; simpl in Hd; [|done].
    destruct (Dict.getitem chained key0) as [first|]; simpl in Hd; [|done].
    destruct (if _ <=? _ then _ else _) as [len|]; simpl in Hd; [|done].
    destruct (Py.range 0 len C) as [starts|]; simpl in Hd; [|done].
    injection Hd as <-. by rewrite dict_keys_map_values.
  - intros j k seqs Hj Hseqs. eexists. split_and!.
    + by apply (Hget j k seqs).
    + apply windows_length.
    + intros i Hi. by apply windows_lookup.
Qed.

Lemma chunk_fields_aligned_witness :
  ∃ d n,
    TextDataModule.chunk 2 ["input_ids"; "word_ids"]
      (map (map Py.VList)
         [[[Py.VInt 7; Py.VInt 8; Py.VInt 9]; [Py.VInt 10; Py.VInt 11]];
          [[Py.VInt 0; Py.VInt 0; Py.VInt 1]; [Py.VNone; Py.VInt 0]]]) = Ok d
    ∧ Dict.keys d = ["input_ids"; "word_ids"]
    ∧ ∀ j k seqs,
        ["input_ids"; "word_ids"] !! j = Some k →
        [[[Py.VInt 7; Py.VInt 8; Py.VInt 9]; [Py.VInt 10; Py.VInt 11]];
         [[Py.VInt 0; Py.VInt 0; Py.VInt 1]; [Py.VNone; Py.VInt 0]]] !! j = Some seqs →
        ∃ chunks,
          Dict.get k d = Some (map Py.VList chunks)
          ∧ length chunks = n
          ∧ ∀ i, (i < n)%nat →
                 chunks !! i = Some (take (Z.to_nat 2) (drop (i * Z.to_nat 2) (concat seqs))).
Proof.
  apply (chunk_fields_aligned 2 ["input_ids"; "word_ids"]
           [[[Py.VInt 7; Py.VInt 8; Py.VInt 9]; [Py.VInt 10; Py.VInt 11]];
            [[Py.VInt 0; Py.VInt 0; Py.VInt 1]; [Py.VNone; Py.VInt 0]]]
           [[Py.VInt 7; Py.VInt 8; Py.VInt 9]; [Py.VInt 10; Py.VInt 11]]).
  - lia.
  - refine (bool_decide_unpack _ _). vm_compute. exact I.
  - reflexivity.
  - reflexivity.
Defined.

(** X2: for a chunk size [C > 0], no field aligned with the first one is ever
    given an empty chunk: every emitted chunk holds at least one element. *)
Theorem chunk_no_empty_chunk (C : Z) (keys : list string)
    (cols : list (list (list Py.value))) (seqs0 seqs : list (list Py.value))
    (j : nat) (k : string) :
  0 < C → NoDup keys → length keys = length cols →
  cols !! 0%nat = Some seqs0 → keys !! j = Some k → cols !! j = Some seqs →
  length (concat seqs) = length (concat seqs0) →
  ∃ d chunks,
    TextDataModule.chunk C keys (map (map Py.VList) cols) = Ok d
    ∧ Dict.get k d = Some (map Py.VList chunks)
    ∧ Forall (fun ch => ch ≠ []) chunks.
Proof.
  intros HC Hnd Hlen H0 Hj Hseqs Hal.
  assert (keys ≠ []) as Hne by (intros ->; by rewrite lookup_nil in Hj).
  destruct (chunk_windows (Z.to_nat C) keys cols seqs0 ltac:(lia) Hnd Hne Hlen H0)
    as (d & Hd & Hget).
  rewrite Z2Nat.id in Hd by lia.
  eexists d, _. split_and!; [done | by apply (Hget j k seqs) |].
  rewrite <- Hal. set (c := Z.to_nat C). set (l := length (concat seqs)).
  apply Forall_lookup. intros i ch Hi.
  pose proof (lookup_lt_Some _ _ _ Hi) as Hlt. rewrite windows_length in Hlt.
  rewrite windows_lookup in Hi by done. injection Hi as <-.
  assert (i * c < l)%nat as Hin.
  { unfold chunk_count in Hlt. destruct (Nat.leb_spec c l).
    - pose proof (Nat.Div0.mul_div_le l c). nia.
    - destruct (Nat.eqb_spec l 0); lia. }
  intros Hnil. apply (f_equal length) in Hnil.
  rewrite length_take, length_drop in Hnil. simpl in Hnil. fold l in Hnil. lia.
Qed.

Lemma chunk_no_empty_chunk_witness :
  ∃ d chunks,
    TextDataModule.chunk 4 ["input_ids"]
      (map (map Py.VList) [[[Py.VInt 7; Py.VInt 8]; [Py.VInt 9]]]) = Ok d
    ∧ Dict.get "input_ids" d = Some (map Py.VList chunks)
    ∧ Forall (fun ch => ch ≠ []) chunks.
Proof.
  apply (chunk_no_empty_chunk 4 ["input_ids"] [[[Py.VInt 7; Py.VInt 8]; [Py.VInt 9]]]
           [[Py.VInt 7; Py.VInt 8]; [Py.VInt 9]] [[Py.VInt 7; Py.VInt 8]; [Py.VInt 9]]
           0%nat "input_ids").
  - lia.
  - refine (bool_decide_unpack _ _). vm_compute. exact I.
  - reflexivity.
  - reflexivity.
  - reflexivity.
  - reflexivity.
  - reflexivity.
Defined.

(** ** The chunking stage: chunk sizes that are not positive *)

(** What [chunk] computes up to the length of the first field, on columns
    of lists. *)
Lemma chunk_chained (C : Z) (keys : list string) (cols : list (list (list Py.value))) :
  NoDup keys → keys ≠ [] → length keys = length cols →
  ∃ chained seqs0,
    cols !! 0%nat = Some seqs0
    ∧ (∀ j k, keys !! j = Some k → Dict.get k chained = @concat _ <$> cols !! j)
    ∧ TextDataModule.chunk C keys (map (map Py.VList) cols)
      = (chained_len ← (if C <=? Z.of_nat (length (concat seqs0))
                        then q ← Py.floordiv (Z.of_nat (length (concat seqs0))) C;
                             Ok (q * C)
                        else Ok (Z.of_nat (length (concat seqs0))));
         starts ← Py.range 0 chained_len C;
         Ok (Dict.map_values
               (fun t => map (fun i => Py.VList (Py.slice (Some i) (Some (i + C)) t)) starts)
               chained)).
Proof.
  intros Hnd Hne Hlen.
  destruct (chain_columns_lists keys 0 cols [] ltac:(simpl; lia)) as (ch & Hch & _ & Hget).
  destruct keys as [|key0 keys']; [done|].
  destruct (lookup_lt_is_Some_2 cols 0 ltac:(simpl in Hlen; lia)) as [seqs0 H0].
  exists ch, seqs0. split_and!; [done | intros j k Hj; by apply Hget |].
  unfold TextDataModule.chunk. rewrite Hch.
  replace (Py.index (key0 :: keys') 0) with (@Ok string key0)
    by (symmetry; by apply (index_lookup _ 0%nat)).
  simpl.
  rewrite (dict_getitem_get ch key0 (concat seqs0))
    by (rewrite (Hget 0%nat key0 Hnd eq_refl); simpl; by rewrite H0).
  reflexivity.
Qed.

(** X3: with [chunk_size = 0] the inner function [chunk] raises
    [ZeroDivisionError] on every batch, empty or not. *)
Theorem chunk_size_zero_raises (keys : list string) (cols : list (list (list Py.value))) :
  NoDup keys → keys ≠ [] → length keys = length cols →
  TextDataModule.chunk 0 keys (map (map Py.VList) cols) = Raise ZeroDivisionError.
Proof.
  intros Hnd Hne Hlen.
  destruct (chunk_chained 0 keys cols Hnd Hne Hlen) as (ch & seqs0 & _ & _ & ->).
  destruct (Z.leb_spec 0 (Z.of_nat (length (concat seqs0)))); [done | lia].
Qed.

Lemma chunk_size_zero_raises_witness :
  TextDataModule.chunk 0 ["input_ids"; "word_ids"]
    (map (map Py.VList) [[[Py.VInt 7]]; [[Py.VInt 0]]]) = Raise ZeroDivisionError.
Proof.
  apply (chunk_size_zero_raises ["input_ids"; "word_ids"] [[[Py.VInt 7]]; [[Py.VInt 0]]]).
  - refine (bool_decide_unpack _ _). vm_compute. exact I.
  - discriminate.
  - reflexivity.
Defined.

(** X4: with a negative [chunk_size] the inner function [chunk] raises
    nothing and emits no chunk at all: every field of the result is the empty
    list, whatever the batch holds. *)
Theorem chunk_size_negative_emits_nothing (C : Z) (keys : list string)
    (cols : list (list (list Py.value))) :
  C < 0 → NoDup keys → keys ≠ [] → length keys = length cols →
  ∃ d, TextDataModule.chunk C keys (map (map Py.VList) cols) = Ok d
       ∧ Dict.keys d = keys
       ∧ ∀ k, k ∈ keys → Dict.get k d = Some [].
Proof.
  intros HC Hnd Hne Hlen.
  destruct (chunk_chained C keys cols Hnd Hne Hlen) as (ch & seqs0 & H0 & Hget & Hchunk).
  set (l := Z.of_nat (length (concat seqs0))) in *.
  assert (0 ≤ l) as Hl by (subst l; lia).
  destruct (Z.leb_spec C l); [|lia].
  unfold Py.floordiv in Hchunk. destruct (Z.eqb_spec C 0); [lia|]. simpl in Hchunk.
  assert (Py.range 0 (l / C * C) C = Ok []) as Hrange.
  { unfold Py.range, Py.range_len. destruct (Z.eqb_spec C 0); [lia|].
    destruct (Z.ltb_spec 0 C); [lia|].
    assert ((0 - l / C * C - C - 1) / - C ≤ 0) as Hq.
    { pose proof (Z.div_mod l C ltac:(lia)). pose proof (Z.mod_neg_bound l C ltac:(lia)).
      assert ((0 - l / C * C - C - 1) / - C < 1); [|lia].
      apply Z.div_lt_upper_bound; lia. }
    by replace (Z.to_nat ((0 - l / C * C - C - 1) / - C)) with 0%nat by lia. }
  rewrite Hrange in Hchunk. simpl in Hchunk.
  eexists. split_and!; [exact Hchunk | |].
  - rewrite dict_keys_map_values.
    pose proof Hchunk as Hd. unfold TextDataModule.chunk in Hd.
    destruct (TextDataModule.chain_columns _ _ _ _) as [chained|] eqn:Hch; simpl in Hd; [|done].
    apply chain_columns_keys in Hch; [|done]. simpl in Hch.
    destruct (Py.index keys 0) as [key0|]; simpl in Hd; [|done].
    destruct (Dict.getitem chained key0) as [first|]; simpl in Hd; [|done].
    destruct (if _ <=? _ then _ else _) as [len|]; simpl in Hd; [|done].
    destruct (Py.range 0 len C) as [starts|]; simpl in Hd; [|done].
    injection Hd as Hd. apply (f_equal Dict.keys) in Hd.
    rewrite !dict_keys_map_values in Hd. congruence.
  - intros k Hk. apply list_elem_of_lookup in Hk as [j Hj].
    rewrite dict_get_map_values, (Hget j k Hj).
    destruct (lookup_lt_is_Some_2 cols j) as [seqs ->]; [|done].
    rewrite <- Hlen. by apply lookup_lt_Some in Hj.
Qed.

Lemma chunk_size_negative_emits_nothing_witness :
  ∃ d, TextDataModule.chunk (-3) ["input_ids"]
         (map (map Py.VList) [[[Py.VInt 7; Py.VInt 8]; [Py.VInt 9]]]) = Ok d
       ∧ Dict.keys d = ["input_ids"]
       ∧ ∀ k, k ∈ ["input_ids"] → Dict.get k d = Some [].
Proof.
  apply (chunk_size_negative_emits_nothing (-3) ["input_ids"]
           [[[Py.VInt 7; Py.VInt 8]; [Py.VInt 9]]]).
  - lia.
  - refine (bool_decide_unpack _ _). vm_compute. exact I.
  - discriminate.
  - reflexivity.
Defined.

(** ** The chunking stage: example boundaries *)

Lemma index_out_of_range {A : Type} (l : list A) (i : nat) :
  (length l ≤ i)%nat → Py.index l (Z.of_nat i) = Raise IndexError.
Proof.
  intros Hi. unfold Py.index. destruct (Z.ltb_spec (Z.of_nat i) 0); [lia|].
  destruct (Z.ltb_spec (Z.of_nat i) 0); [lia|].
  destruct (Z.leb_spec (Z.of_nat (length l)) (Z.of_nat i)); [done | lia].
Qed.

Lemma chain_columns_concat (keys : list string) (cols cols' : list (list (list Py.value))) :
  map (@concat _) cols = map (@concat _) cols' →
  ∀ (i : nat) (acc : Dict.t (list Py.value)),
    TextDataModule.chain_columns i keys (map (map Py.VList) cols) acc
    = TextDataModule.chain_columns i keys (map (map Py.VList) cols') acc.
Proof.
  intros Heq. induction keys as [|k keys IH]; intros i acc; simpl; [done|].
  assert (length cols = length cols') as Hlen
    by (apply (f_equal length) in Heq; by rewrite !length_map in Heq).
  destruct (cols !! i) as [col|] eqn:Hcol.
  - destruct (lookup_lt_is_Some_2 cols' i) as [col' Hcol'];
      [rewrite <- Hlen; by apply lookup_lt_Some in Hcol|].
    assert (concat col = concat col') as Hcat.
    { apply (f_equal (fun l => l !! i)) in Heq.
      rewrite !list_lookup_fmap, Hcol, Hcol' in Heq. by injection Heq. }
    rewrite (index_lookup _ i (map Py.VList col)) by (by rewrite list_lookup_fmap, Hcol).
    rewrite (index_lookup _ i (map Py.VList col')) by (by rewrite list_lookup_fmap, Hcol').
    simpl. rewrite !chain_lists, Hcat. simpl. apply IH.
  - apply lookup_ge_None in Hcol.
    rewrite !index_out_of_range by (rewrite length_map; lia). done.
Qed.

(** X5: [chunk] sees only the concatenation of each column: two batches
    whose columns concatenate to the same sequences, however the tokens are
    divided into examples, give the same result, chunks and errors alike. *)
Theorem chunk_ignores_example_boundaries (C : Z) (keys : list string)
    (cols cols' : list (list (list Py.value))) :
  map (@concat _) cols = map (@concat _) cols' →
  TextDataModule.chunk C keys (map (map Py.VList) cols)
  = TextDataModule.chunk C keys (map (map Py.VList) cols').
Proof.
  intros Heq. unfold TextDataModule.chunk.
  by rewrite (chain_columns_concat keys cols cols' Heq).
Qed.

Lemma chunk_ignores_example_boundaries_witness :
  TextDataModule.chunk 2 ["input_ids"]
    (map (map Py.VList) [[[Py.VInt 1; Py.VInt 2]; [Py.VInt 3]]])
  = TextDataModule.chunk 2 ["input_ids"]
      (map (map Py.VList) [[[Py.VInt 1]; []; [Py.VInt 2; Py.VInt 3]]]).
Proof.
  apply (chunk_ignores_example_boundaries 2 ["input_ids"]
           [[[Py.VInt 1; Py.VInt 2]; [Py.VInt 3]]]
           [[[Py.VInt 1]; []; [Py.VInt 2; Py.VInt 3]]]).
  reflexivity.
Defined.

(** ** [CLMDataset] on records of any length *)

(** X6: on an example whose [input_ids] is a list of any length,
    [CLMDataset.__getitem__] returns exactly the two fields [input_ids] and
    [label_ids], both one shorter than the record (empty for a record of at
    most one token); [input_ids[k]] is the record's token [k] and
    [label_ids[k]] the record's token [k + 1]. *)
Theorem clm_shift_any_length (dataset : TorchDataset) (idx : Z)
    (example : Dict.t Py.value) (record : list Py.value) :
  getitem dataset idx = Rand.Ret (Ok example) →
  Dict.get "input_ids" example = Some (Py.VList record) →
  ∃ input_ids label_ids,
    getitem (CLMDataset.__init__ dataset) idx
    = Rand.Ret (Ok [("input_ids", Py.VList input_ids); ("label_ids", Py.VList label_ids)])
    ∧ length input_ids = (length record - 1)%nat
    ∧ length label_ids = (length record - 1)%nat
    ∧ (∀ k : nat, (k < length record - 1)%nat →
         input_ids !! k = record !! k ∧ label_ids !! k = record !! S k).
Proof.
  intros Hex Hrec.
  exists (take (length record - 1) record), (drop 1 record). split_and!.
  - simpl. unfold CLMDataset.__getitem__. rewrite Hex. simpl.
    by rewrite (shift_labels_record _ _ Hrec).
  - rewrite length_take. lia.
  - rewrite length_drop. lia.
  - intros k Hk. split; [by rewrite lookup_take_lt | by rewrite lookup_drop].
Qed.

Lemma clm_shift_any_length_witness :
  ∃ input_ids label_ids,
    getitem (CLMDataset.__init__ (of_Dataset [("input_ids", [Py.ints [5]])])) 0
    = Rand.Ret (Ok [("input_ids", Py.VList input_ids); ("label_ids", Py.VList label_ids)])
    ∧ length input_ids = (1 - 1)%nat
    ∧ length label_ids = (1 - 1)%nat
    ∧ (∀ k : nat, (k < 1 - 1)%nat →
         input_ids !! k = [Py.VInt 5] !! k ∧ label_ids !! k = [Py.VInt 5] !! S k).
Proof.
  apply (clm_shift_any_length (of_Dataset [("input_ids", [Py.ints [5]])]) 0
           [("input_ids", Py.ints [5])] [Py.VInt 5]).
  - reflexivity.
  - reflexivity.
Defined.

(** ** Chunking followed by the next-token shift *)

(** X7: chunking a token stream with [chunk_size = n + 1] and fetching chunk
    [i] through [CLMDataset] gives as [input_ids] the [n] tokens of the
    stream from position [i * (n + 1)] and as [label_ids] the [n] tokens from
    position [i * (n + 1) + 1]: the first token of a chunk is never a label
    and its last token never an input. *)
Theorem clm_examples_are_stream_windows (n i : nat) (seqs : list (list Py.value)) :
  (S i * S n ≤ length (concat seqs))%nat →
  ∃ chunks ch,
    TextDataModule.chunk (Z.of_nat n + 1) ["input_ids"] [map Py.VList seqs]
    = Ok [("input_ids", map Py.VList chunks)]
    ∧ chunks !! i = Some ch
    ∧ CLMDataset.shift_labels [("input_ids", Py.VList ch)]
      = Ok [("input_ids", Py.VList (take n (drop (i * S n) (concat seqs))));
            ("label_ids", Py.VList (take n (drop (i * S n + 1) (concat seqs))))].
Proof.
  intros Hlen. set (t := concat seqs) in *.
  assert (i < chunk_count (S n) (length t))%nat as Hi.
  { unfold chunk_count. destruct (Nat.leb_spec (S n) (length t)); [|lia].
    apply Nat.div_le_lower_bound; lia. }
  eexists _, _. split_and!.
  - replace (Z.of_nat n + 1) with (Z.of_nat (S n)) by lia. apply chunk_input_ids. lia.
  - by apply windows_lookup.
  - rewrite (shift_labels_record _ (take (S n) (drop (i * S n) t))) by done.
    assert (length (take (S n) (drop (i * S n) t)) = S n) as ->
      by (rewrite length_take, length_drop; lia).
    rewrite take_take, Nat.min_l by lia.
    replace (S n - 1)%nat with n by lia.
    assert (drop 1 (take (S n) (drop (i * S n) t)) = take n (drop (i * S n + 1) t)) as ->;
      [|done].
    rewrite <- drop_drop. destruct (drop (i * S n) t); simpl; [by rewrite take_nil | done].
Qed.

Lemma clm_examples_are_stream_windows_witness :
  ∃ chunks ch,
    TextDataModule.chunk (Z.of_nat 2 + 1) ["input_ids"]
      [map Py.VList [[Py.VInt 1; Py.VInt 2]; [Py.VInt 3; Py.VInt 4; Py.VInt 5; Py.VInt 6]]]
    = Ok [("input_ids", map Py.VList chunks)]
    ∧ chunks !! 1%nat = Some ch
    ∧ CLMDataset.shift_labels [("input_ids", Py.VList ch)]
      = Ok [("input_ids", Py.VList [Py.VInt 4; Py.VInt 5]);
            ("label_ids", Py.VList [Py.VInt 5; Py.VInt 6])].
Proof.
  apply (clm_examples_are_stream_windows 2 1
           [[Py.VInt 1; Py.VInt 2]; [Py.VInt 3; Py.VInt 4; Py.VInt 5; Py.VInt 6]]).
  simpl. lia.
Defined.

(** ** [RandomShiftDataset]: what a fetch returns and when it fails *)

(** The fetch as a single draw followed by the shift of every field. *)
Lemma random_shift_draw (dataset : TorchDataset) (idx : Z)
    (example_1 example_2 : Dict.t Py.value) (key0 : string) (record0 : list Py.value) :
  getitem dataset idx = Rand.Ret (Ok example_1) →
  getitem dataset (idx + 1) = Rand.Ret (Ok example_2) →
  NoDup (Dict.keys example_1) →
  list_fields example_1 example_2 →
  head example_1 = Some (key0, Py.VList record0) →
  record0 ≠ [] →
  ∃ k, getitem (RandomShiftDataset.__init__ dataset) idx
       = Rand.Draw (Z.of_nat (length record0)) k
       ∧ ∀ shift : nat, (shift < length record0)%nat →
           k (Z.of_nat shift) = Rand.Ret (Ok (shifted shift example_1 example_2)).
Proof.
  intros H1 H2 Hnd Hwf Hhead Hne.
  destruct example_1 as [|[k0 v0] rest]; [done|]. injection Hhead as -> ->.
  assert (∃ r2, Dict.get key0 example_2 = Some (Py.VList r2)) as [r2 Hr2].
  { apply Forall_cons in Hwf as [(r1 & r2 & _ & Hr2) _]. by exists r2. }
  change (getitem (RandomShiftDataset.__init__ dataset) idx)
    with (RandomShiftDataset.__getitem__ dataset idx).
  unfold RandomShiftDataset.__getitem__. rewrite H1, H2.
  change (Rand.Ret (Ok ?e) ≫= ?f) with (f e). cbv beta.
  change (Rand.Ret (Ok ?e) ≫= ?f) with (f e). cbv beta.
  change (Dict.keys ((key0, Py.VList record0) :: rest)) with (key0 :: Dict.keys rest).
  rewrite (shift_records_draw key0 _ _ _ _ record0);
    [| simpl; by rewrite String.eqb_refl | by rewrite Hr2 | done].
  eexists. split; [reflexivity|].
  intros shift Hlt. cbv beta.
  apply (shift_records_drawn shift example_2 ((key0, Py.VList record0) :: rest) []); done.
Qed.

Lemma shift_is_window {A : Type} (s : nat) (r1 r2 : list A) :
  (s ≤ length r1)%nat → (s ≤ length r2)%nat →
  drop s r1 ++ take s r2 = take (length r1) (drop s (r1 ++ r2)).
Proof.
  intros H1 H2. rewrite drop_app_le by done.
  rewrite take_app_ge by (rewrite length_drop; lia).
  rewrite length_drop. do 2 f_equal. lia.
Qed.

(** X8: when the fields of [example_i] and [example_{i+1}] are at least as
    long as the first field of [example_i], every field of the fetched
    example keeps the length it has in [example_i] and is the stretch of that
    length, starting at the offset drawn, of the field of [example_i]
    followed by the field of [example_{i+1}].  With offset 0 the fetched
    example is [example_i] itself. *)
Theorem random_shift_is_window (dataset : TorchDataset) (idx : Z)
    (example_1 example_2 : Dict.t Py.value) (key0 : string) (record0 : list Py.value) :
  getitem dataset idx = Rand.Ret (Ok example_1) →
  getitem dataset (idx + 1) = Rand.Ret (Ok example_2) →
  NoDup (Dict.keys example_1) →
  list_fields example_1 example_2 →
  head example_1 = Some (key0, Py.VList record0) →
  record0 ≠ [] →
  ∃ k, getitem (RandomShiftDataset.__init__ dataset) idx
       = Rand.Draw (Z.of_nat (length record0)) k
       ∧ k 0 = Rand.Ret (Ok example_1)
       ∧ ∀ shift : nat, (shift < length record0)%nat →
           ∃ result,
             k (Z.of_nat shift) = Rand.Ret (Ok result)
             ∧ ∀ key r1 r2,
                 Dict.get key example_1 = Some (Py.VList r1) →
                 Dict.get key example_2 = Some (Py.VList r2) →
                 (length record0 ≤ length r1)%nat → (length record0 ≤ length r2)%nat →
                 ∃ r, Dict.get key result = Some (Py.VList r)
                      ∧ r = take (length r1) (drop shift (r1 ++ r2))
                      ∧ length r = length r1.
Proof.
  intros H1 H2 Hnd Hwf Hhead Hne.
  destruct (random_shift_draw dataset idx example_1 example_2 key0 record0
              H1 H2 Hnd Hwf Hhead Hne) as (k & Hk & Hshift).
  exists k. split_and!; [done | |].
  - change (k 0) with (k (Z.of_nat 0)).
    rewrite (Hshift 0%nat) by (destruct record0; [done | simpl; lia]).
    do 2 f_equal. unfold shifted. clear -Hwf.
    induction Hwf as [|[key v] rest (r1 & r2 & Hv & Hget) _ IH]; [done|].
    simpl in *. subst v. rewrite IH. unfold shifted_record. simpl. rewrite Hget.
    by rewrite drop_0, take_0, app_nil_r.
  - intros shift Hlt. eexists. split; [by apply Hshift|].
    intros key r1 r2 Hr1 Hr2 Hl1 Hl2. eexists. split; [by apply shifted_get|].
    rewrite shift_is_window by lia. split; [done|].
    rewrite length_take, length_drop, length_app. lia.
Qed.

Lemma random_shift_is_window_witness :
  let dataset := of_Dataset [("input_ids", [Py.ints [1; 2; 3]; Py.ints [4; 5; 6]]);
                             ("word_ids", [Py.ints [0; 0; 1]; Py.ints [2; 2; 3]])] in
  let example_1 := [("input_ids", Py.ints [1; 2; 3]); ("word_ids", Py.ints [0; 0; 1])] in
  let example_2 := [("input_ids", Py.ints [4; 5; 6]); ("word_ids", Py.ints [2; 2; 3])] in
  ∃ k, getitem (RandomShiftDataset.__init__ dataset) 0 = Rand.Draw 3 k
       ∧ k 0 = Rand.Ret (Ok example_1)
       ∧ ∀ shift : nat, (shift < 3)%nat →
           ∃ result,
             k (Z.of_nat shift) = Rand.Ret (Ok result)
             ∧ ∀ key r1 r2,
                 Dict.get key example_1 = Some (Py.VList r1) →
                 Dict.get key example_2 = Some (Py.VList r2) →
                 (3 ≤ length r1)%nat → (3 ≤ length r2)%nat →
                 ∃ r, Dict.get key result = Some (Py.VList r)
                      ∧ r = take (length r1) (drop shift (r1 ++ r2))
                      ∧ length r = length r1.
Proof.
  intros dataset example_1 example_2.
  apply (random_shift_is_window dataset 0 example_1 example_2
           "input_ids" [Py.VInt 1; Py.VInt 2; Py.VInt 3]).
  - reflexivity.
  - reflexivity.
  - refine (bool_decide_unpack _ _). vm_compute. exact I.
  - repeat constructor; simpl; eauto.
  - reflexivity.
  - discriminate.
Defined.

(** X9: when the first field of [example_i] is an empty list, the fetch
    raises [RuntimeError]: [torch.randint] has nothing to draw from. *)
Theorem random_shift_empty_record (dataset : TorchDataset) (idx : Z)
    (example_1 example_2 : Dict.t Py.value) (key0 : string) :
  getitem dataset idx = Rand.Ret (Ok example_1) →
  getitem dataset (idx + 1) = Rand.Ret (Ok example_2) →
  head example_1 = Some (key0, Py.VList []) →
  is_Some (Dict.get key0 example_2) →
  getitem (RandomShiftDataset.__init__ dataset) idx
  = Rand.Ret (Raise (RuntimeError
                       "random_ expects 'from' to be less than 'to', but got from=0 >= to=0")).
Proof.
  intros H1 H2 Hhead [v2 Hv2].
  destruct example_1 as [|[k0 v0] rest]; [done|]. injection Hhead as -> ->.
  change (getitem (RandomShiftDataset.__init__ dataset) idx)
    with (RandomShiftDataset.__getitem__ dataset idx).
  unfold RandomShiftDataset.__getitem__. rewrite H1, H2.
  change (Rand.Ret (Ok ?e) ≫= ?f) with (f e). cbv beta.
  change (Rand.Ret (Ok ?e) ≫= ?f) with (f e). cbv beta.
  change (Dict.keys ((key0, Py.VList []) :: rest)) with (key0 :: Dict.keys rest).
  cbn [RandomShiftDataset.shift_records].
  rewrite (dict_getitem_get ((key0, Py.VList []) :: rest) key0 (Py.VList []))
    by (simpl; by rewrite String.eqb_refl).
  rewrite (dict_getitem_get _ _ _ Hv2). reflexivity.
Qed.

Lemma random_shift_empty_record_witness :
  getitem (RandomShiftDataset.__init__
             (of_Dataset [("input_ids", [Py.ints []; Py.ints [4; 5]])])) 0
  = Rand.Ret (Raise (RuntimeError
                       "random_ expects 'from' to be less than 'to', but got from=0 >= to=0")).
Proof.
  apply (random_shift_empty_record
           (of_Dataset [("input_ids", [Py.ints []; Py.ints [4; 5]])]) 0
           [("input_ids", Py.ints [])] [("input_ids", Py.ints [4; 5])] "input_ids").
  - reflexivity.
  - reflexivity.
  - reflexivity.
  - by eexists.
Defined.

Lemma dataset_getitem_out_of_range (ds : Dataset.t) (idx : Z) :
  idx < - Dataset.len ds ∨ Dataset.len ds ≤ idx → Dataset.getitem ds idx = Raise IndexError.
Proof.
  intros Hidx. unfold Dataset.getitem.
  assert (0 ≤ Dataset.len ds) by (unfold Dataset.len; lia).
  destruct (Z.ltb_spec idx 0).
  - destruct (Z.ltb_spec (idx + Dataset.len ds) 0); [done | lia].
  - destruct (Z.ltb_spec idx 0); [lia|].
    destruct (Z.leb_spec (Dataset.len ds) idx); [done | lia].
Qed.

(** X10: over a table of [n] rows, [RandomShiftDataset] raises [IndexError]
    at every index from [n - 1] on: index [n - 1], the last row, has no
    successor to shift into, which is why the logical length is [n - 1]. *)
Theorem random_shift_index_range (ds : Dataset.t) (idx : Z) :
  Dataset.rectangular ds = true →
  Dataset.len ds - 1 ≤ idx →
  getitem (RandomShiftDataset.__init__ (of_Dataset ds)) idx = Rand.Ret (Raise IndexError).
Proof.
  intros Hrect Hidx.
  change (getitem (RandomShiftDataset.__init__ (of_Dataset ds)) idx)
    with (RandomShiftDataset.__getitem__ (of_Dataset ds) idx).
  unfold RandomShiftDataset.__getitem__. simpl.
  destruct (Z_lt_le_dec idx (Dataset.len ds)) as [Hlt|Hge].
  - destruct (Z_lt_le_dec idx 0) as [Hneg|Hpos].
    + rewrite dataset_getitem_out_of_range by (left; lia). done.
    + destruct (dataset_getitem_valid ds idx Hrect ltac:(lia)) as (ex & -> & _).
      rewrite dataset_getitem_out_of_range by (right; lia). done.
  - rewrite dataset_getitem_out_of_range by (right; lia). done.
Qed.

Lemma random_shift_index_range_witness :
  getitem (RandomShiftDataset.__init__
             (of_Dataset [("input_ids", [Py.ints [1; 2]; Py.ints [4; 5]])])) 1
  = Rand.Ret (Raise IndexError).
Proof.
  apply (random_shift_index_range [("input_ids", [Py.ints [1; 2]; Py.ints [4; 5]])] 1).
  - reflexivity.
  - vm_compute. discriminate.
Defined.

(** X11: [CLMDataset] over [RandomShiftDataset], as [setup] stacks them for
    the task [clm] with random shifting: the length is the underlying length
    minus one, and a fetch makes one draw and returns the next-token shift of
    the shifted [input_ids], dropping every other field. *)
Theorem clm_over_random_shift (dataset : TorchDataset) (idx : Z)
    (example_1 example_2 : Dict.t Py.value) (key0 : string)
    (record0 r1 r2 : list Py.value) :
  getitem dataset idx = Rand.Ret (Ok example_1) →
  getitem dataset (idx + 1) = Rand.Ret (Ok example_2) →
  NoDup (Dict.keys example_1) →
  list_fields example_1 example_2 →
  head example_1 = Some (key0, Py.VList record0) →
  record0 ≠ [] →
  Dict.get "input_ids" example_1 = Some (Py.VList r1) →
  Dict.get "input_ids" example_2 = Some (Py.VList r2) →
  len (CLMDataset.__init__ (RandomShiftDataset.__init__ dataset)) = len dataset - 1
  ∧ ∃ k, getitem (CLMDataset.__init__ (RandomShiftDataset.__init__ dataset)) idx
         = Rand.Draw (Z.of_nat (length record0)) k
         ∧ ∀ shift : nat, (shift < length record0)%nat →
             k (Z.of_nat shift)
             = Rand.Ret (Ok [("input_ids",
                              Py.VList (take (length (drop shift r1 ++ take shift r2) - 1)
                                             (drop shift r1 ++ take shift r2)));
                             ("label_ids",
                              Py.VList (drop 1 (drop shift r1 ++ take shift r2)))]).
Proof.
  intros H1 H2 Hnd Hwf Hhead Hne Hr1 Hr2. split; [reflexivity|].
  destruct (random_shift_draw dataset idx example_1 example_2 key0 record0
              H1 H2 Hnd Hwf Hhead Hne) as (k & Hk & Hshift).
  change (getitem (CLMDataset.__init__ (RandomShiftDataset.__init__ dataset)) idx)
    with (CLMDataset.__getitem__ (RandomShiftDataset.__init__ dataset) idx).
  unfold CLMDataset.__getitem__. rewrite Hk.
  eexists. split; [reflexivity|].
  intros shift Hlt. cbv beta. rewrite (Hshift shift Hlt). simpl.
  by rewrite (shift_labels_record _ _ (shifted_get shift _ _ _ _ _ Hr1 Hr2)).
Qed.

Lemma clm_over_random_shift_witness :
  let dataset := of_Dataset [("input_ids", [Py.ints [1; 2; 3]; Py.ints [4; 5; 6]])] in
  len (CLMDataset.__init__ (RandomShiftDataset.__init__ dataset)) = len dataset - 1
  ∧ ∃ k, getitem (CLMDataset.__init__ (RandomShiftDataset.__init__ dataset)) 0
         = Rand.Draw 3 k
         ∧ ∀ shift : nat, (shift < 3)%nat →
             k (Z.of_nat shift)
             = Rand.Ret
                 (Ok [("input_ids",
                       Py.VList
                         (take (length (drop shift [Py.VInt 1; Py.VInt 2; Py.VInt 3]
                                        ++ take shift [Py.VInt 4; Py.VInt 5; Py.VInt 6]) - 1)
                               (drop shift [Py.VInt 1; Py.VInt 2; Py.VInt 3]
                                ++ take shift [Py.VInt 4; Py.VInt 5; Py.VInt 6])));
                      ("label_ids",
                       Py.VList
                         (drop 1 (drop shift [Py.VInt 1; Py.VInt 2; Py.VInt 3]
                                  ++ take shift [Py.VInt 4; Py.VInt 5; Py.VInt 6])))]).
Proof.
  intros dataset.
  apply (clm_over_random_shift dataset 0
           [("input_ids", Py.ints [1; 2; 3])] [("input_ids", Py.ints [4; 5; 6])]
           "input_ids" [Py.VInt 1; Py.VInt 2; Py.VInt 3]).
  - reflexivity.
  - reflexivity.
  - refine (bool_decide_unpack _ _). vm_compute. exact I.
  - repeat constructor; simpl; eauto.
  - reflexivity.
  - discriminate.
  - reflexivity.
  - reflexivity.
Defined.

(** ** The pipeline over the splits *)


Section Stages.
Context `{Collaborators}.
Implicit Types (self : TextDataModule.t) (dataset : DatasetDict) (w : world).

(** A stage that returns has mapped every split once, in order, and keeps
    the name of each. *)
Lemma for_each_splits (desc : string) (map_split : Dataset.t → result Dataset.t) :
  ∀ dataset (acc out : DatasetDict) w w',
    NoDup (Dict.keys acc ++ Dict.keys dataset) →
    for_each dataset
      (fun kv result =>
         _ ← emit (MapSplit desc (fst kv));
         mapped ← lift (map_split (snd kv));
         mret (Dict.set (fst kv) mapped result)) acc w = (w', Ok out) →
    fs w' = fs w
    ∧ log w' = log w ++ map (MapSplit desc) (Dict.keys dataset)
    ∧ Dict.keys out = Dict.keys acc ++ Dict.keys dataset.
Proof.
  induction dataset as [|[k ds] dataset IH]; intros acc out w w' Hnd; simpl.
  - unfold mret, io_ret. intros [= <- <-]. by rewrite !app_nil_r.
  - unfold mbind, io_bind, emit, lift at 1. simpl.
    destruct (map_split ds) as [m|] eqn:Hm; [|done].
    unfold mret at 1, io_ret at 1. intros Hrest.
    assert (k ∉ Dict.keys acc) as Hfresh.
    { unfold Dict.keys in Hnd. simpl in Hnd.
      apply NoDup_app in Hnd as (_ & Hdisj & _). intros Hin.
      apply (Hdisj k Hin). apply list_elem_of_here. }
    rewrite dict_set_fresh in Hrest by done.
    assert (Dict.keys (acc ++ [(k, m)]) = Dict.keys acc ++ [k]) as Hkeys
      by (unfold Dict.keys; by rewrite map_app).
    apply IH in Hrest as (Hfs & Hlog & Hout).
    + simpl in Hfs, Hlog. rewrite Hfs, Hlog, Hout, Hkeys, <- !app_assoc.
      unfold Dict.keys. simpl. done.
    + rewrite Hkeys, <- app_assoc. unfold Dict.keys in *. simpl in *. done.
Qed.

Lemma map_splits_run (desc : string) (map_split : Dataset.t → result Dataset.t)
    dataset (out : DatasetDict) w w' :
  NoDup (Dict.keys dataset) →
  TextDataModule.map_splits desc dataset map_split w = (w', Ok out) →
  fs w' = fs w
  ∧ log w' = log w ++ map (MapSplit desc) (Dict.keys dataset)
  ∧ Dict.keys out = Dict.keys dataset.
Proof.
  intros Hnd Hrun. by apply (for_each_splits desc map_split dataset [] out w w').
Qed.

(** X12: when [_prepare_dataset] returns, it has run the stages of the
    configured task in order (tokenize; then chunk unless the task is [clf];
    then mask only for [mlm] with static masking), each stage mapping every
    split exactly once in the order of the source; the result has the
    splits of the source under the same names, and no cache directory was
    touched. *)
Theorem prepare_dataset_trace self dataset (out : DatasetDict) w w' :
  NoDup (Dict.keys dataset) →
  TextDataModule._prepare_dataset self dataset w = (w', Ok out) →
  Dict.keys out = Dict.keys dataset
  ∧ fs w' = fs w
  ∧ log w' = log w
             ++ flat_map (fun desc => map (MapSplit desc) (Dict.keys dataset))
                         (stages (TextDataModule.hparams self)).
Proof.
  intros Hnd. unfold TextDataModule._prepare_dataset, stages,
    TextDataModule._tokenize_dataset, TextDataModule._chunk_dataset,
    TextDataModule._mask_dataset, TextDataModule.max_seq_len.
  destruct (Hparams.task (TextDataModule.hparams self)).
  - (* mlm *)
    unfold mbind at 1 2, io_bind at 1 2.
    destruct (TextDataModule.map_splits _ dataset _ w) as [w1 [d1|]] eqn:H1; [|done].
    apply map_splits_run in H1 as (Hfs1 & Hlog1 & Hk1); [|done].
    destruct (TextDataModule.map_splits _ d1 _ w1) as [w2 [d2|]] eqn:H2; [|done].
    apply map_splits_run in H2 as (Hfs2 & Hlog2 & Hk2); [|by rewrite Hk1].
    destruct (Hparams.static_masking _).
    + unfold mbind, io_bind, lift.
      destruct (collator_init _); [|done].
      intros H3. apply map_splits_run in H3 as (Hfs3 & Hlog3 & Hk3); [|by rewrite Hk2, Hk1].
      simpl. rewrite Hk3, Hk2, Hk1, Hfs3, Hfs2, Hfs1, Hlog3, Hlog2, Hlog1, Hk2, Hk1.
      by rewrite app_nil_r, <- !app_assoc.
    + unfold mret, io_ret. intros [= <- <-]. simpl.
      rewrite Hk2, Hk1, Hfs2, Hfs1, Hlog2, Hlog1, Hk1.
      by rewrite app_nil_r, <- !app_assoc.
  - (* clm *)
    unfold mbind, io_bind.
    destruct (TextDataModule.map_splits _ dataset _ w) as [w1 [d1|]] eqn:H1; [|done].
    apply map_splits_run in H1 as (Hfs1 & Hlog1 & Hk1); [|done].
    intros H2. apply map_splits_run in H2 as (Hfs2 & Hlog2 & Hk2); [|by rewrite Hk1].
    simpl. rewrite Hk2, Hk1, Hfs2, Hfs1, Hlog2, Hlog1, Hk1.
    by rewrite app_nil_r, <- !app_assoc.
  - (* clf *)
    unfold mbind at 1 2, io_bind at 1 2.
    destruct (TextDataModule.assert_label dataset "train" w) as [w1 [[]|]] eqn:Ha1; [|done].
    destruct (TextDataModule.assert_label dataset "valid" w1) as [w2 [[]|]] eqn:Ha2; [|done].
    assert (∀ split wa wb r, TextDataModule.assert_label dataset split wa = (wb, r) → wb = wa)
      as Hassert.
    { intros split wa wb r. unfold TextDataModule.assert_label, mbind, io_bind, lift.
      destruct (Dict.getitem dataset split); [|by intros [= <- _]].
      destruct (existsb _ _); by intros [= <- _]. }
    apply Hassert in Ha1, Ha2. subst w2 w1.
    intros H1. apply map_splits_run in H1 as (Hfs1 & Hlog1 & Hk1); [|done].
    simpl. by rewrite Hk1, Hfs1, Hlog1, app_nil_r.
Qed.

End Stages.

Lemma prepare_dataset_trace_witness :
  let self := Bytes.module (Bytes.with_task Bytes.config clm 3) in
  ∃ w' out,
    TextDataModule._prepare_dataset (H := Bytes.collaborators) self Bytes.source
      Bytes.empty_world = (w', Ok out)
    ∧ Dict.keys out = ["train"; "valid"]
    ∧ fs w' = ∅
    ∧ log w' = [MapSplit "Running tokenizer on dataset" "train";
                MapSplit "Running tokenizer on dataset" "valid";
                MapSplit "Split dataset into chunks of size 4" "train";
                MapSplit "Split dataset into chunks of size 4" "valid"].
Proof.
  intros self.
  destruct (TextDataModule._prepare_dataset (H := Bytes.collaborators) self Bytes.source
              Bytes.empty_world) as [w' [out|e]] eqn:Hrun; [|vm_compute in Hrun; discriminate].
  exists w', out. split; [reflexivity|].
  apply (prepare_dataset_trace (H := Bytes.collaborators) self Bytes.source out
           Bytes.empty_world w').
  - refine (bool_decide_unpack _ _). vm_compute. exact I.
  - exact Hrun.
Defined.

(** ** [prepare_data] and [setup] *)

Section Cache.
Context `{Collaborators}.
Implicit Types (self : TextDataModule.t) (w : world).

Lemma prepare_data_present self w :
  is_Some (fs w !! TextDataModule.preproc_dir self) →
  TextDataModule.prepare_data self w = (w, Ok tt).
Proof.
  intros Hex. unfold TextDataModule.prepare_data, path_exists, mbind, io_bind.
  rewrite bool_decide_eq_true_2 by done. by destruct w.
Qed.

(** The outcomes of [prepare_data] when the cache directory is absent. *)
Lemma prepare_data_absent self w :
  fs w !! TextDataModule.preproc_dir self = None →
  (∃ e w', TextDataModule.prepare_data self w = (w', Raise e) ∧ fs w' = fs w)
  ∨ (∃ source prepared w1,
       load_source_dataset (TextDataModule.hparams self) = Ok source
       ∧ TextDataModule._prepare_dataset self source
           {| fs := fs w; log := log w ++ [LoadSourceDataset] |} = (w1, Ok prepared)
       ∧ TextDataModule.prepare_data self w
         = ({| fs := <[TextDataModule.preproc_dir self := prepared]> (fs w);
               log := log w1 ++ [SaveToDisk (TextDataModule.preproc_dir self)] |}, Ok tt)).
Proof.
  intros Hnone. unfold TextDataModule.prepare_data, path_exists, mbind, io_bind.
  rewrite bool_decide_eq_false_2 by (rewrite Hnone; by apply is_Some_None).
  simpl. unfold lift.
  destruct (load_source_dataset (TextDataModule.hparams self)) as [source|e].
  - destruct (prepare_dataset_logs self source
                {| fs := fs w; log := log w ++ [LoadSourceDataset] |})
      as (evs & Hfs & _ & _).
    destruct (TextDataModule._prepare_dataset self source _)
      as [w1 [prepared|e]] eqn:Hprep; simpl in *.
    + right. exists source, prepared, w1. split_and!; [done | done |].
      unfold save_to_disk. by rewrite Hfs.
    + left. by exists e, w1.
  - left. eexists e, _. by split.
Qed.

(** X13: [prepare_data] is idempotent: once it has returned, running it
    again does nothing, whatever the data source would now deliver. *)
Theorem prepare_data_idempotent self w w' :
  TextDataModule.prepare_data self w = (w', Ok tt) →
  TextDataModule.prepare_data self w' = (w', Ok tt).
Proof.
  intros Hrun. apply prepare_data_present.
  destruct (fs w !! TextDataModule.preproc_dir self) as [cached|] eqn:Hdir.
  - rewrite prepare_data_present in Hrun by (by rewrite Hdir).
    injection Hrun as <-. by rewrite Hdir.
  - destruct (prepare_data_absent self w Hdir)
      as [(e & w1 & Hfail & _) | (source & prepared & w1 & _ & _ & Hok)]; [congruence|].
    rewrite Hok in Hrun. injection Hrun as <-. simpl.
    rewrite lookup_insert_eq. by eexists.
Qed.

(** X14: [prepare_data] never removes or replaces a cache directory: every
    directory present before is present after with the same content, and
    the only directory it can add is the one of its own key. *)
Theorem prepare_data_keeps_other_caches self w (path : string) :
  let w' := fst (TextDataModule.prepare_data self w) in
  (∀ cached, fs w !! path = Some cached → fs w' !! path = Some cached)
  ∧ (path ≠ TextDataModule.preproc_dir self → fs w' !! path = fs w !! path).
Proof.
  intros w'. subst w'.
  destruct (fs w !! TextDataModule.preproc_dir self) as [cached|] eqn:Hdir.
  - rewrite prepare_data_present by (by rewrite Hdir). done.
  - destruct (prepare_data_absent self w Hdir)
      as [(e & w1 & -> & Hfs) | (source & prepared & w1 & _ & _ & ->)]; simpl.
    + by rewrite Hfs.
    + split.
      * intros cached Hpath. rewrite lookup_insert_ne; [done | congruence].
      * intros Hne. by rewrite lookup_insert_ne.
Qed.

End Cache.

Lemma prepare_data_idempotent_witness :
  let self := Bytes.module (Bytes.with_task Bytes.config clm 3) in
  ∃ w', TextDataModule.prepare_data (H := Bytes.collaborators) self Bytes.empty_world
        = (w', Ok tt)
        ∧ TextDataModule.prepare_data (H := Bytes.collaborators) self w' = (w', Ok tt).
Proof.
  intros self.
  destruct (TextDataModule.prepare_data (H := Bytes.collaborators) self Bytes.empty_world)
    as [w' [[]|e]] eqn:Hrun; [|vm_compute in Hrun; discriminate].
  exists w'. split; [reflexivity|].
  exact (prepare_data_idempotent (H := Bytes.collaborators) self Bytes.empty_world w' Hrun).
Defined.

Lemma prepare_data_keeps_other_caches_witness :
  let self := Bytes.module (Bytes.with_task Bytes.config clm 3) in
  let w := {| fs := {[ "other" := Bytes.source ]}; log := [] |} in
  fs (fst (TextDataModule.prepare_data (H := Bytes.collaborators) self w)) !! "other"
  = Some Bytes.source.
Proof.
  intros self w.
  apply (proj1 (prepare_data_keeps_other_caches (H := Bytes.collaborators) self w "other")).
  apply lookup_singleton_eq.
Defined.

Section Setup.
Context `{Collaborators}.
Implicit Types (self : TextDataModule.t) (w : world).


(** What [setup] makes of a cache that holds both splits. *)
Lemma setup_run self w (cache : DatasetDict) (train valid : Dataset.t) :
  fs w !! TextDataModule.preproc_dir self = Some cache →
  Dict.get "train" cache = Some train →
  Dict.get "valid" cache = Some valid →
  let hp := TextDataModule.hparams self in
  let wrap (random_shift : bool) (ds : Dataset.t) :=
    let d := if shifts hp random_shift
             then RandomShiftDataset.__init__ (of_Dataset ds) else of_Dataset ds in
    if Task_eqb (Hparams.task hp) clm then CLMDataset.__init__ d else d in
  TextDataModule.setup self w
  = ({| fs := fs w; log := log w ++ [LoadFromDisk (TextDataModule.preproc_dir self)] |},
     Ok (TextDataModule.with_datasets self
           (Some (wrap (Hparams.random_train_shift hp) train))
           (Some (wrap (Hparams.random_valid_shift hp) valid)))).
Proof.
  intros Hdir Htrain Hvalid hp wrap. subst wrap.
  unfold TextDataModule.setup, TextDataModule.load_prepared_dataset, load_from_disk,
    mbind, io_bind, lift, mret, io_ret, shifts.
  rewrite Hdir, (dict_getitem_get _ _ _ Htrain), (dict_getitem_get _ _ _ Hvalid).
  fold hp. by destruct (Hparams.task hp).
Qed.

(** X15: on a cache that holds the splits [train] and [valid], [setup]
    reads the cache without changing it and leaves the configuration, the
    tokenizer and the collator as they were; [ds_train] then has the length
    of the cached split, less one exactly when the task is [mlm] or [clm] and
    [random_train_shift] is set, and likewise [ds_valid] with
    [random_valid_shift].  For the task [clf] the shift options are ignored
    and both datasets are the cached splits themselves. *)
Theorem setup_datasets self w (cache : DatasetDict) (train valid : Dataset.t) :
  fs w !! TextDataModule.preproc_dir self = Some cache →
  Dict.get "train" cache = Some train →
  Dict.get "valid" cache = Some valid →
  let hp := TextDataModule.hparams self in
  ∃ self' ds_train ds_valid,
    TextDataModule.setup self w
    = ({| fs := fs w; log := log w ++ [LoadFromDisk (TextDataModule.preproc_dir self)] |},
       Ok self')
    ∧ TextDataModule.hparams self' = hp
    ∧ TextDataModule.tokenizer self' = TextDataModule.tokenizer self
    ∧ TextDataModule.collator self' = TextDataModule.collator self
    ∧ TextDataModule.ds_train self' = Some ds_train
    ∧ TextDataModule.ds_valid self' = Some ds_valid
    ∧ len ds_train
      = Dataset.len train - (if shifts hp (Hparams.random_train_shift hp) then 1 else 0)
    ∧ len ds_valid
      = Dataset.len valid - (if shifts hp (Hparams.random_valid_shift hp) then 1 else 0)
    ∧ (Hparams.task hp = clf →
       ds_train = of_Dataset train ∧ ds_valid = of_Dataset valid).
Proof.
  intros Hdir Htrain Hvalid hp.
  rewrite (setup_run self w cache train valid Hdir Htrain Hvalid). fold hp.
  eexists _, _, _. split_and!; try reflexivity.
  - unfold shifts. destruct (Hparams.task hp), (Hparams.random_train_shift hp); simpl;
      unfold CLMDataset.__len__, RandomShiftDataset.__len__; simpl;
      unfold RandomShiftDataset.__len__; simpl; lia.
  - unfold shifts. destruct (Hparams.task hp), (Hparams.random_valid_shift hp); simpl;
      unfold CLMDataset.__len__, RandomShiftDataset.__len__; simpl;
      unfold RandomShiftDataset.__len__; simpl; lia.
  - intros Htask. unfold shifts. by rewrite Htask.
Qed.


End Setup.

Lemma setup_datasets_witness :
  let self := Bytes.module (Bytes.with_task (with_random_shift Bytes.config true false) clm 3) in
  let cache := [("train", [("input_ids", [Py.ints [1; 2; 3; 4]; Py.ints [5; 6; 7; 8]])]);
                ("valid", [("input_ids", [Py.ints [9; 10; 11; 12]])])] in
  let w := {| fs := {[ TextDataModule.preproc_dir self := cache ]}; log := [] |} in
  ∃ self' ds_train ds_valid,
    TextDataModule.setup self w
    = ({| fs := fs w; log := log w ++ [LoadFromDisk (TextDataModule.preproc_dir self)] |},
       Ok self')
    ∧ TextDataModule.hparams self' = TextDataModule.hparams self
    ∧ TextDataModule.tokenizer self' = TextDataModule.tokenizer self
    ∧ TextDataModule.collator self' = TextDataModule.collator self
    ∧ TextDataModule.ds_train self' = Some ds_train
    ∧ TextDataModule.ds_valid self' = Some ds_valid
    ∧ len ds_train = 2 - 1
    ∧ len ds_valid = 1 - 0
    ∧ (Hparams.task (TextDataModule.hparams self) = clf →
       ds_train = of_Dataset [("input_ids", [Py.ints [1; 2; 3; 4]; Py.ints [5; 6; 7; 8]])]
       ∧ ds_valid = of_Dataset [("input_ids", [Py.ints [9; 10; 11; 12]])]).
Proof.
  intros self cache w.
  apply (setup_datasets self w cache
           [("input_ids", [Py.ints [1; 2; 3; 4]; Py.ints [5; 6; 7; 8]])]
           [("input_ids", [Py.ints [9; 10; 11; 12]])]).
  - apply lookup_singleton_eq.
  - reflexivity.
  - reflexivity.
Defined.


(** ** The tokenize stage *)

Lemma traverse_length {A B : Type} (f : A → result B) (l : list A) (r : list B) :
  traverse f l = Ok r → length r = length l.
Proof. intros Hr%traverse_Forall2. symmetry. by eapply Forall2_length. Qed.

Lemma traverse_add_eos (eos : string) (texts : list string) :
  traverse (fun text => Py.add text (Py.VStr eos)) (map Py.VStr texts)
  = Ok (map (fun s => Py.VStr (s ++ eos)%string) texts).
Proof. induction texts as [|s texts IH]; simpl; [done|]. by rewrite IH. Qed.

(** X17: with [add_eos_token] set and a tokenizer that has no EOS token,
    the inner function [tokenize] raises [TypeError] on every batch that
    holds at least one text, whatever the tokenizer would return: the
    failure comes at preprocessing, not at construction. *)
Theorem tokenize_eos_missing (self : TextDataModule.t) (padding truncation : bool)
    (max_length : option Z) (return_word_ids : bool) (examples : Dataset.t)
    (text : Py.value) (texts : list Py.value) :
  Hparams.add_eos_token (TextDataModule.hparams self) = true →
  Tokenizer.eos_token (TextDataModule.tokenizer self) = None →
  Dict.get "text" examples = Some (text :: texts) →
  TextDataModule.tokenize self padding truncation max_length return_word_ids
    (Dataset.Batch examples) = Raise TypeError.
Proof.
  intros Heos Htok Htext. unfold TextDataModule.tokenize.
  rewrite (dict_getitem_get _ _ _ Htext), Heos, Htok. simpl.
  by destruct text.
Qed.

Lemma tokenize_eos_missing_witness :
  TextDataModule.tokenize
    (with_hparams
       {| TextDataModule.hparams := Bytes.config;
          TextDataModule.tokenizer :=
            {| Tokenizer.name_or_path := "no-eos";
               Tokenizer.pad_token := None;
               Tokenizer.eos_token := None;
               Tokenizer.padding_side := "right";
               Tokenizer.vocab_size := 256;
               Tokenizer.call := Bytes.call |};
          TextDataModule.perceiver_tokenizer_configured := false;
          TextDataModule.perceiver_tokenizer_util := None;
          TextDataModule.collator := DefaultCollator (Bytes.tokenizer "no-eos") 512;
          TextDataModule.ds_train := None;
          TextDataModule.ds_valid := None |}
       (with_add_eos_token Bytes.config true))
    false false None true (Dataset.Batch [("text", [Py.VStr "ab"])])
  = Raise TypeError.
Proof.
  apply (tokenize_eos_missing _ false false None true [("text", [Py.VStr "ab"])]
           (Py.VStr "ab") []).
  - reflexivity.
  - reflexivity.
  - reflexivity.
Defined.

(** X18: with [add_eos_token] set and a tokenizer whose EOS token is [eos],
    [tokenize] on a batch of texts is [tokenize] without the option on the
    batch whose every text has [eos] appended. *)
Theorem tokenize_appends_eos (self : TextDataModule.t) (padding truncation : bool)
    (max_length : option Z) (return_word_ids : bool) (examples : Dataset.t)
    (eos : string) (texts : list string) :
  Hparams.add_eos_token (TextDataModule.hparams self) = true →
  Tokenizer.eos_token (TextDataModule.tokenizer self) = Some eos →
  Dict.get "text" examples = Some (map Py.VStr texts) →
  TextDataModule.tokenize self padding truncation max_length return_word_ids
    (Dataset.Batch examples)
  = TextDataModule.tokenize
      (with_hparams self (with_add_eos_token (TextDataModule.hparams self) false))
      padding truncation max_length return_word_ids
      (Dataset.Batch
         (Dict.set "text" (map (fun s => Py.VStr (s ++ eos)%string) texts) examples)).
Proof.
  intros Heos Htok Htext. unfold TextDataModule.tokenize.
  rewrite (dict_getitem_get _ _ _ Htext), Heos, Htok.
  rewrite (dict_getitem_get _ _ _ (dict_get_set_eq examples "text" _)).
  simpl. rewrite traverse_add_eos. reflexivity.
Qed.

Lemma tokenize_appends_eos_witness :
  let self := Bytes.module (with_add_eos_token Bytes.config true) in
  TextDataModule.tokenize self false false None false
    (Dataset.Batch [("text", [Py.VStr "ab"; Py.VStr "c"])])
  = Ok [("input_ids", [Py.ints [97; 98; 36]; Py.ints [99; 36]])].
Proof.
  intros self.
  rewrite (tokenize_appends_eos self false false None false
             [("text", [Py.VStr "ab"; Py.VStr "c"])] "$" ["ab"; "c"]
             eq_refl eq_refl eq_refl).
  reflexivity.
Defined.

(** X19: what [tokenize] returns always has the column [input_ids]; it has
    the column [word_ids], with one entry for every entry of [input_ids],
    exactly when word ids are requested. *)
Theorem tokenize_word_ids_rows (self : TextDataModule.t) (padding truncation : bool)
    (max_length : option Z) (return_word_ids : bool) (args : Dataset.fn_args)
    (out : Dataset.t) :
  TextDataModule.tokenize self padding truncation max_length return_word_ids args = Ok out →
  ∃ ids, Dict.get "input_ids" out = Some ids
         ∧ if return_word_ids
           then ∃ word_ids, Dict.get "word_ids" out = Some word_ids
                            ∧ length word_ids = length ids
           else Dict.get "word_ids" out = None.
Proof.
  unfold TextDataModule.tokenize. destruct args as [examples|]; [|done].
  destruct (Dict.getitem examples "text") as [texts|]; simpl; [|done].
  destruct (if Hparams.add_eos_token _ then _ else _) as [texts'|]; simpl; [|done].
  destruct (traverse TextDataModule.as_text texts') as [strs|]; simpl; [|done].
  destruct (Tokenizer.__call__ _ _ strs) as [encoding|]; simpl; [|done].
  set (items := ("input_ids", map Py.ints (Tokenizer.input_ids encoding)) :: _).
  assert (Dict.get "input_ids" items = Some (map Py.ints (Tokenizer.input_ids encoding)))
    as Hids by reflexivity.
  assert (Dict.get "word_ids" items = None) as Hnone
    by (subst items; by destruct (Tokenizer.attention_mask encoding)).
  destruct return_word_ids.
  - match goal with |- context [?m ≫= _] => destruct m as [word_ids|] eqn:Hw end;
      simpl; [|done].
    intros [= <-]. eexists. split; [reflexivity|].
    eexists. split; [exact (dict_get_set_eq _ "word_ids" _)|].
    rewrite !length_map.
    destruct (TextDataModule.perceiver_tokenizer_configured self).
    + destruct (TextDataModule.perceiver_tokenizer_util self); [|done].
      by apply traverse_length in Hw.
    + apply traverse_length in Hw. by rewrite length_seq in Hw.
  - intros [= <-]. by eexists.
Qed.

Lemma tokenize_word_ids_rows_witness :
  ∃ ids, Dict.get "input_ids"
           [("input_ids", [Py.ints [97; 98]; Py.ints [99]]);
            ("word_ids", [Py.ints [0; 1]; Py.ints [0]])] = Some ids
         ∧ ∃ word_ids,
             Dict.get "word_ids"
               [("input_ids", [Py.ints [97; 98]; Py.ints [99]]);
                ("word_ids", [Py.ints [0; 1]; Py.ints [0]])] = Some word_ids
             ∧ length word_ids = length ids.
Proof.
  apply (tokenize_word_ids_rows (Bytes.module Bytes.config) false false None true
           (Dataset.Batch [("text", [Py.VStr "ab"; Py.VStr "c"])])).
  reflexivity.
Defined.

(** ** The cache key, component by component *)

Section KeyComponents.
Implicit Types (self : TextDataModule.t) (hp : Hparams.t).

Lemma str_int_inj (a b : Z) : Py.str_int a = Py.str_int b → a = b.
Proof.
  unfold Py.str_int. intros Heq.
  apply (f_equal NilEmpty.int_of_string) in Heq.
  rewrite !NilEmpty.isi in Heq. injection Heq as Heq.
  by apply DecimalZ.to_int_inj.
Qed.

Lemma append_nil_r (a : string) : (a ++ "")%string = a.
Proof. induction a as [|c a IH]; [done|]. by rewrite append_cons, IH. Qed.

Lemma append_not_longer (a s : string) : s ≠ "" → (a ++ s)%string ≠ a.
Proof.
  intros Hs Heq. apply (f_equal String.length) in Heq.
  rewrite append_length in Heq. destruct s; [done|]. simpl in Heq. lia.
Qed.

Lemma join_texts_app (l1 l2 : list string) :
  join_texts (l1 ++ l2) = (join_texts l1 ++ join_texts l2)%string.
Proof.
  induction l1 as [|a l1 IH]; [done|].
  simpl. unfold join_texts in *. simpl. by rewrite IH, append_assoc.
Qed.

(** The hash input is the concatenation of the texts of the components. *)
Lemma hash_input_join self :
  TextDataModule.preproc_dir_hash_input self
  = join_texts (map key_text (key_components (TextDataModule.hparams self))).
Proof.
  unfold TextDataModule.preproc_dir_hash_input, TextDataModule.max_seq_len,
    TextDataModule.random_shift, key_components, join_texts.
  cbn [map foldr key_text].
  destruct (Task_eqb _ mlm && Hparams.static_masking _),
    (Hparams.add_special_tokens _), (Hparams.add_eos_token _),
    (Hparams.source_train_size _), (Hparams.source_valid_size _);
    cbn [key_text];
    rewrite ?append_assoc, ?append_nil, ?append_nil_r; reflexivity.
Qed.

(** Changing one text of a list changes the concatenation. *)
Lemma join_texts_differ (i : nat) (l1 l2 : list string) :
  length l1 = length l2 → differ_only_at i l1 l2 → join_texts l1 ≠ join_texts l2.
Proof.
  intros Hlen [Hi Hrest] Heq. apply Hi.
  assert (take i l1 = take i l2) as Htake.
  { apply list_eq. intros j. destruct (decide (j < i)%nat).
    - rewrite !lookup_take_lt by done. apply Hrest. lia.
    - by rewrite !lookup_take_ge by lia. }
  assert (drop (S i) l1 = drop (S i) l2) as Hdrop.
  { apply list_eq. intros j. rewrite !lookup_drop. apply Hrest. lia. }
  destruct (l1 !! i) as [a|] eqn:H1, (l2 !! i) as [b|] eqn:H2.
  - rewrite <- (take_drop_middle l1 i a H1), <- (take_drop_middle l2 i b H2) in Heq.
    rewrite Htake, Hdrop in Heq.
    rewrite !join_texts_app in Heq. apply append_cancel_l in Heq.
    change (join_texts (?x :: ?l)) with (x ++ join_texts l)%string in Heq.
    apply append_cancel_r in Heq. by subst.
  - apply lookup_lt_Some in H1. apply lookup_ge_None in H2. lia.
  - apply lookup_ge_None in H1. apply lookup_lt_Some in H2. lia.
  - done.
Qed.

(** At each position the text determines the component. *)
Lemma key_text_inj hp1 hp2 (i : nat) (c1 c2 : key_component) :
  key_components hp1 !! i = Some c1 → key_components hp2 !! i = Some c2 →
  key_text c1 = key_text c2 → c1 = c2.
Proof.
  unfold key_components. intros H1 H2 Heq.
  destruct i as [|[|[|[|[|[|[|[|[|i]]]]]]]]]; simpl in H1, H2; [..|done];
    injection H1 as <-; injection H2 as <-; cbn [key_text] in Heq.
  - by rewrite Heq.
  - apply (append_cancel_l "-") in Heq. by apply str_int_inj in Heq as ->.
  - by destruct (Hparams.task hp1), (Hparams.task hp2).
  - by destruct (_ || _), (_ || _).
  - destruct (_ && _) as [|], (_ && _) as [|]; [| | |done].
    + destruct (Hparams.mask_words hp1), (Hparams.mask_words hp2);
        try discriminate Heq;
        repeat apply append_cancel_l in Heq;
        destruct (Hparams.mask_prob hp1), (Hparams.mask_prob hp2);
        simpl in Heq; by subst.
    + by destruct (Hparams.mask_words hp1).
    + by destruct (Hparams.mask_words hp2).
  - by destruct (Hparams.add_special_tokens hp1), (Hparams.add_special_tokens hp2).
  - by destruct (Hparams.add_eos_token hp1), (Hparams.add_eos_token hp2).
  - destruct (Hparams.source_train_size hp1), (Hparams.source_train_size hp2);
      [|done..]. apply (append_cancel_l "-ts-") in Heq. by apply str_int_inj in Heq as ->.
  - destruct (Hparams.source_valid_size hp1), (Hparams.source_valid_size hp2);
      [|done..]. apply (append_cancel_l "-vs-") in Heq. by apply str_int_inj in Heq as ->.
Qed.

End KeyComponents.

Lemma prepare_data_dir_present `{Collaborators} (self : TextDataModule.t) (w w' : world) :
  TextDataModule.prepare_data self w = (w', Ok tt) →
  is_Some (fs w' !! TextDataModule.preproc_dir self).
Proof.
  intros Hrun.
  destruct (fs w !! TextDataModule.preproc_dir self) as [cached|] eqn:Hdir.
  - rewrite prepare_data_present in Hrun by (by rewrite Hdir).
    injection Hrun as <-. by rewrite Hdir.
  - destruct (prepare_data_absent self w Hdir)
      as [(e & w1 & Hfail & _) | (source & prepared & w1 & _ & _ & Hok)]; [congruence|].
    rewrite Hok in Hrun. injection Hrun as <-. simpl.
    rewrite lookup_insert_eq. by eexists.
Qed.

Lemma preproc_dir_components (self1 self2 : TextDataModule.t) :
  Hparams.dataset_dir (TextDataModule.hparams self1)
  = Hparams.dataset_dir (TextDataModule.hparams self2) →
  key_components (TextDataModule.hparams self1)
  = key_components (TextDataModule.hparams self2) →
  TextDataModule.preproc_dir self1 = TextDataModule.preproc_dir self2.
Proof.
  intros Hdir Hkey. unfold TextDataModule.preproc_dir.
  by rewrite !hash_input_join, Hkey, Hdir.
Qed.

(** X20: every value the hash input is built from counts: two
    configurations whose key components (tokenizer, maximum sequence
    length, task, the disjunction of the shift options, the static masking
    options, the two token options, the two source sizes) differ in exactly
    one place have different hash inputs, and, under the same dataset
    directory, different cache directories unless MD5 collides on these two
    inputs. *)
Theorem hash_input_one_component (self1 self2 : TextDataModule.t) (i : nat) :
  differ_only_at i (key_components (TextDataModule.hparams self1))
                   (key_components (TextDataModule.hparams self2)) →
  TextDataModule.preproc_dir_hash_input self1 ≠ TextDataModule.preproc_dir_hash_input self2
  ∧ (Hparams.dataset_dir (TextDataModule.hparams self1)
     = Hparams.dataset_dir (TextDataModule.hparams self2) →
     ¬ md5_collision (TextDataModule.preproc_dir_hash_input self1)
                     (TextDataModule.preproc_dir_hash_input self2) →
     TextDataModule.preproc_dir self1 ≠ TextDataModule.preproc_dir self2).
Proof.
  intros [Hi Hrest].
  assert (TextDataModule.preproc_dir_hash_input self1
          ≠ TextDataModule.preproc_dir_hash_input self2) as Hne.
  { rewrite !hash_input_join. apply (join_texts_differ i); [done|].
    split.
    - rewrite !list_lookup_fmap. intros Heq. apply Hi.
      destruct (key_components (TextDataModule.hparams self1) !! i) as [c1|] eqn:H1,
        (key_components (TextDataModule.hparams self2) !! i) as [c2|] eqn:H2;
        simpl in Heq; try done.
      injection Heq as Heq. f_equal. by eapply key_text_inj.
    - intros j Hj. rewrite !list_lookup_fmap. by rewrite (Hrest j Hj). }
  split; [done|]. intros Hdir Hfree Heq. apply Hfree. split; [done|].
  unfold TextDataModule.preproc_dir, OsPath.join in Heq. simpl in Heq.
  rewrite Hdir in Heq.
  by apply join2_relative_inj in Heq; [| apply hexdigest_not_absolute ..].
Qed.

Lemma hash_input_one_component_witness :
  TextDataModule.preproc_dir_hash_input (Bytes.module Bytes.config)
  ≠ TextDataModule.preproc_dir_hash_input
      (Bytes.module (with_add_eos_token Bytes.config true)).
Proof.
  apply (hash_input_one_component (Bytes.module Bytes.config)
           (Bytes.module (with_add_eos_token Bytes.config true)) 6).
  split.
  - simpl. discriminate.
  - intros j Hj.
    destruct j as [|[|[|[|[|[|[|j]]]]]]]; try reflexivity.
    exfalso. by apply Hj.
Defined.

(** X21: the cache is shared by every configuration with the same dataset
    directory and the same key components, whatever else differs (batch
    sizes, workers, padding side, truncation, which of the two splits is
    shifted, the masking options without static MLM masking) and whatever
    the data source is: the cache directories are equal, and once
    [prepare_data] has returned for one configuration it does nothing for
    the other. *)
Theorem prepare_data_shares_cache (H1 H2 : Collaborators) (self1 self2 : TextDataModule.t) :
  Hparams.dataset_dir (TextDataModule.hparams self1)
  = Hparams.dataset_dir (TextDataModule.hparams self2) →
  key_components (TextDataModule.hparams self1)
  = key_components (TextDataModule.hparams self2) →
  TextDataModule.preproc_dir self1 = TextDataModule.preproc_dir self2
  ∧ ∀ w w' : world,
      TextDataModule.prepare_data (H := H1) self1 w = (w', Ok tt) →
      TextDataModule.prepare_data (H := H2) self2 w' = (w', Ok tt).
Proof.
  intros Hdir Hkey.
  pose proof (preproc_dir_components self1 self2 Hdir Hkey) as Heq.
  split; [done|]. intros w w' Hrun.
  apply prepare_data_present. rewrite <- Heq.
  exact (prepare_data_dir_present (H := H1) self1 w w' Hrun).
Qed.

Lemma prepare_data_shares_cache_witness :
  let self1 := Bytes.module (with_random_shift (Bytes.with_task Bytes.config clm 3) true false) in
  let self2 := Bytes.module (with_random_shift (Bytes.with_task Bytes.config clm 3) false true) in
  TextDataModule.preproc_dir self1 = TextDataModule.preproc_dir self2
  ∧ ∀ w w' : world,
      TextDataModule.prepare_data (H := Bytes.collaborators) self1 w = (w', Ok tt) →
      TextDataModule.prepare_data (H := Bytes.base_class) self2 w' = (w', Ok tt).
Proof.
  intros self1 self2.
  apply (prepare_data_shares_cache Bytes.collaborators Bytes.base_class self1 self2).
  - reflexivity.
  - reflexivity.
Defined.

(** ** Construction and the inference preprocessor *)

Section Construction.
Context `{Collaborators}.
Implicit Types (self : TextDataModule.t) (hp : Hparams.t) (w : world).

(** What a successful [__init__] has done. *)
Lemma init_run hp w w' self :
  TextDataModule.__init__ hp w = (w', Ok self) →
  (Hparams.static_masking hp && negb (Hparams.mask_words hp) = false)
  ∧ w' = {| fs := fs w; log := log w ++ [FromPretrained (Hparams.tokenizer hp)] |}
  ∧ ∃ tok util collator,
      from_pretrained (Hparams.tokenizer hp) = Ok tok
      ∧ (if existsb (String.eqb (Hparams.tokenizer hp))
              ["krasserm/perceiver-io-mlm"; "deepmind/language-perceiver"]
         then is_Some util else util = None)
      ∧ self = {| TextDataModule.hparams := hp;
                  TextDataModule.tokenizer :=
                    match Hparams.padding_side hp with
                    | Some side => Tokenizer.set_padding_side side tok
                    | None => tok
                    end;
                  TextDataModule.perceiver_tokenizer_configured :=
                    existsb (String.eqb (Hparams.tokenizer hp))
                      ["krasserm/perceiver-io-mlm"; "deepmind/language-perceiver"];
                  TextDataModule.perceiver_tokenizer_util := util;
                  TextDataModule.collator := collator;
                  TextDataModule.ds_train := None;
                  TextDataModule.ds_valid := None |}.
Proof.
  unfold TextDataModule.__init__.
  destruct (Hparams.static_masking hp && negb (Hparams.mask_words hp)); [done|].
  set (conf := existsb (String.eqb (Hparams.tokenizer hp)) _). clearbody conf.
  unfold mbind, io_bind, emit, lift, mret, io_ret. simpl.
  destruct (from_pretrained (Hparams.tokenizer hp)) as [tok|]; [|done].
  set (tok' := match Hparams.padding_side hp with
               | Some side => Tokenizer.set_padding_side side tok
               | None => tok
               end).
  destruct conf.
  - unfold mbind, io_bind, lift, mret, io_ret.
    destruct (new_PerceiverTokenizerUtil tok') as [u|]; [|done].
    destruct (collator_init _) as [c|]; [|done].
    intros [= <- <-]. split_and!; [done..|]. by exists tok, (Some u), c.
  - unfold mret, io_ret.
    destruct (collator_init _) as [c|]; [|done].
    intros [= <- <-]. split_and!; [done..|]. by exists tok, None, c.
Qed.

(** X22: a module that [__init__] has returned is well formed: it keeps the
    hyperparameters it was given; static masking comes with word masking;
    the word-id utility is there exactly when the module is marked as
    configured with a Perceiver tokenizer; a configured
    padding side is the tokenizer's padding side; no dataset is attached
    yet; and construction has loaded the tokenizer once and touched no
    cache directory. *)
Theorem init_well_formed hp w w' self :
  TextDataModule.__init__ hp w = (w', Ok self) →
  TextDataModule.hparams self = hp
  ∧ (Hparams.static_masking hp = true → Hparams.mask_words hp = true)
  ∧ (TextDataModule.perceiver_tokenizer_configured self = true
     ↔ is_Some (TextDataModule.perceiver_tokenizer_util self))
  ∧ (∀ side, Hparams.padding_side hp = Some side →
             Tokenizer.padding_side (TextDataModule.tokenizer self) = side)
  ∧ TextDataModule.ds_train self = None
  ∧ TextDataModule.ds_valid self = None
  ∧ fs w' = fs w
  ∧ log w' = log w ++ [FromPretrained (Hparams.tokenizer hp)].
Proof.
  intros (Hcheck & -> & tok & util & c & Htok & Hutil & ->)%init_run.
  cbn [TextDataModule.hparams TextDataModule.perceiver_tokenizer_configured
       TextDataModule.perceiver_tokenizer_util TextDataModule.tokenizer
       TextDataModule.ds_train TextDataModule.ds_valid fs log].
  split_and!; try done.
  - intros Hstatic. rewrite Hstatic in Hcheck. by destruct (Hparams.mask_words hp).
  - destruct (existsb _ _); [by split|]. subst util. split; [done|]. by intros [? [=]].
  - by intros side ->.
Qed.

(** X23: the inference preprocessor of a constructed module agrees with the
    module: [text_preprocessor] succeeds, loads the tokenizer of the same
    name once more and touches no cache directory; its tokenizer, with the
    same padding side override, is the module's tokenizer, and its sequence
    length and special-token option are the module's. *)
Theorem text_preprocessor_matches_module hp w0 w0' self w :
  TextDataModule.__init__ hp w0 = (w0', Ok self) →
  ∃ preproc,
    TextDataModule.text_preprocessor self w
    = ({| fs := fs w; log := log w ++ [FromPretrained (Hparams.tokenizer hp)] |},
       Ok preproc)
    ∧ TextPreprocessor.tokenizer preproc = TextDataModule.tokenizer self
    ∧ TextPreprocessor.max_seq_len preproc = TextDataModule.max_seq_len self
    ∧ TextPreprocessor.add_special_tokens preproc = Hparams.add_special_tokens hp.
Proof.
  intros (_ & _ & tok & util & c & Htok & _ & ->)%init_run.
  unfold TextDataModule.text_preprocessor, TextPreprocessor.__init__,
    TextDataModule.max_seq_len.
  unfold mbind, io_bind, emit, lift, mret, io_ret. simpl. rewrite Htok.
  destruct (Hparams.padding_side hp); by eexists.
Qed.

End Construction.

Lemma init_well_formed_witness :
  ∃ self,
    TextDataModule.hparams self = Bytes.config
    ∧ TextDataModule.ds_train self = None
    ∧ TextDataModule.ds_valid self = None.
Proof.
  destruct (TextDataModule.__init__ (H := Bytes.collaborators) Bytes.config Bytes.empty_world)
    as [w' [self|e]] eqn:Hrun; [|vm_compute in Hrun; discriminate].
  exists self.
  pose proof (init_well_formed (H := Bytes.collaborators) Bytes.config Bytes.empty_world
                w' self Hrun) as (Hhp & _ & _ & _ & Htrain & Hvalid & _).
  by split_and!.
Defined.

Lemma text_preprocessor_matches_module_witness :
  ∃ self preproc,
    snd (TextDataModule.text_preprocessor (H := Bytes.collaborators) self Bytes.empty_world)
    = Ok preproc
    ∧ TextPreprocessor.tokenizer preproc = TextDataModule.tokenizer self.
Proof.
  destruct (TextDataModule.__init__ (H := Bytes.collaborators) Bytes.config Bytes.empty_world)
    as [w' [self|e]] eqn:Hrun; [|vm_compute in Hrun; discriminate].
  exists self.
  destruct (text_preprocessor_matches_module (H := Bytes.collaborators) Bytes.config
              Bytes.empty_world w' self Bytes.empty_world Hrun)
    as (preproc & Hpre & Htok & _).
  exists preproc. by rewrite Hpre.
Defined.

(** ** The shape of the cache directory *)

Lemma hex_digit_is_hex (x : Z) : 0 ≤ x < 16 → is_hex_char (MD5.hex_digit x) = true.
Proof.
  intros Hx.
  assert (x = 0 ∨ x = 1 ∨ x = 2 ∨ x = 3 ∨ x = 4 ∨ x = 5 ∨ x = 6 ∨ x = 7 ∨ x = 8
          ∨ x = 9 ∨ x = 10 ∨ x = 11 ∨ x = 12 ∨ x = 13 ∨ x = 14 ∨ x = 15) as Hcases by lia.
  repeat (destruct Hcases as [-> | Hcases]; [reflexivity|]).
  subst. reflexivity.
Qed.

Lemma hex_chars (bs : list Z) :
  Forall (fun b => 0 ≤ b < 256) bs →
  String.length (MD5.hex bs) = (2 * length bs)%nat
  ∧ forallb is_hex_char (list_ascii_of_string (MD5.hex bs)) = true.
Proof.
  unfold MD5.hex. rewrite list_ascii_of_string_of_list_ascii.
  induction 1 as [|b bs Hb _ [IHlen IHhex]]; [done|].
  cbn [flat_map app string_of_list_ascii String.length forallb length].
  rewrite IHlen, IHhex, !hex_digit_is_hex; [split; [lia | done] | |].
  - pose proof (Z.mod_pos_bound b 16 ltac:(lia)). lia.
  - split; [apply Z.div_pos; lia | apply Z.div_lt_upper_bound; lia].
Qed.

Lemma bytes_le_range (n : nat) (x : Z) : Forall (fun b => 0 ≤ b < 256) (MD5.bytes_le n x).
Proof.
  revert x. induction n as [|n IH]; intros x; simpl; [done|].
  constructor; [apply Z.mod_pos_bound; lia | apply IH].
Qed.

Lemma bytes_le_length (n : nat) (x : Z) : length (MD5.bytes_le n x) = n.
Proof. revert x. induction n as [|n IH]; intros x; simpl; [done | by rewrite IH]. Qed.

Lemma hexdigest_shape (s : string) :
  String.length (MD5.hexdigest s) = 32%nat
  ∧ forallb is_hex_char (list_ascii_of_string (MD5.hexdigest s)) = true.
Proof.
  unfold MD5.hexdigest, MD5.digest.
  destruct (MD5.blocks _ _ _) as [[[a b] c] d].
  destruct (hex_chars (MD5.bytes_le 4 a ++ MD5.bytes_le 4 b
                       ++ MD5.bytes_le 4 c ++ MD5.bytes_le 4 d)) as [Hlen Hhex].
  { repeat (apply Forall_app; split); apply bytes_le_range. }
  split; [|done]. rewrite Hlen, !length_app, !bytes_le_length. done.
Qed.

Lemma endswith_sep_append (a b : string) :
  b ≠ "" → OsPath.endswith_sep (a ++ b) = OsPath.endswith_sep b.
Proof.
  intros Hb. induction a as [|c a IH]; [done|].
  rewrite append_cons. cbn [OsPath.endswith_sep]. rewrite IH.
  destruct (a ++ b)%string eqn:Hab; [|done].
  destruct a; [by rewrite append_nil in Hab | by rewrite append_cons in Hab].
Qed.

(** X24: the cache directory is the dataset directory, then [preproc], then
    the MD5 digest of the hash input, which is 32 lower-case hexadecimal
    characters; a separator is put after the dataset directory unless that
    is empty or already ends with one, so an empty dataset directory gives
    a relative path and a trailing slash is not doubled. *)
Theorem preproc_dir_shape (self : TextDataModule.t) :
  let dir := Hparams.dataset_dir (TextDataModule.hparams self) in
  let digest := MD5.hexdigest (TextDataModule.preproc_dir_hash_input self) in
  TextDataModule.preproc_dir self
  = (dir ++ (if String.eqb dir "" || OsPath.endswith_sep dir then "" else "/")
         ++ "preproc/" ++ digest)%string
  ∧ String.length digest = 32%nat
  ∧ forallb is_hex_char (list_ascii_of_string digest) = true.
Proof.
  intros dir digest. split; [|apply hexdigest_shape].
  unfold TextDataModule.preproc_dir, OsPath.join. cbn [fold_left]. fold dir digest.
  assert (OsPath.join2 dir "preproc"
          = (dir ++ (if String.eqb dir "" || OsPath.endswith_sep dir then "" else "/")
                 ++ "preproc")%string) as ->.
  { unfold OsPath.join2. cbn [OsPath.startswith_sep].
    by destruct (String.eqb dir "" || OsPath.endswith_sep dir). }
  unfold OsPath.join2 at 1. unfold digest at 1. rewrite hexdigest_not_absolute.
  set (sep := if String.eqb dir "" || OsPath.endswith_sep dir then "" else "/").
  replace (dir ++ sep ++ "preproc")%string with ((dir ++ sep) ++ "preproc")%string
    by apply append_assoc.
  rewrite endswith_sep_append by done.
  replace (String.eqb ((dir ++ sep) ++ "preproc") "") with false.
  - cbn [OsPath.endswith_sep Ascii.eqb orb]. simpl.
    rewrite !append_assoc. reflexivity.
  - symmetry. apply String.eqb_neq. intros Heq.
    apply (f_equal String.length) in Heq. rewrite append_length in Heq.
    simpl in Heq. lia.
Qed.
